(** * Position, trade and risk engine of the sniper bot: model and proofs

    A shallow embedding of the [models] package (token.go, trade.go,
    position.go): the risk scorer of [Token], the slippage and retry
    predicates of [Trade], and the ledger operations of [Position].

    Conventions of the embedding.

    - A Go [float64] is modelled by the rational number it denotes ([Q]);
      infinities and NaN are outside the model.  The methods are written
      with the exact operations of the rationals; the methods of [Position]
      are written a second time over any four operations
      ([RoundedPosition]), of which [binary64_arith] rounds every result to
      the nearest binary64 number.  What is stated over the exact operations
      concerns single expressions of the code, orders and signs, and the
      concrete inputs used there are small integers and dyadic fractions, on
      which binary64 arithmetic is exact; the conservation of quantities,
      which goes through one rounded subtraction per exit, is stated over
      the rounded operations.  Go's [x / 0] on floats does not panic (it
      yields an infinity or NaN); [Qdiv] yields [0] there.  No statement
      below relies on the value of a quotient whose divisor is zero.
    - Go's string-typed enumerations ([TradeStatus], [PositionSide], ...)
      stay strings, with the declared constants; a field may hold any string.
    - [time.Time] is a number of nanoseconds on a fixed time line, and
      [time.Duration] an [int64] number of nanoseconds with the saturating
      subtraction of [Time.Sub].  [time.Now()] is an explicit argument [now].
    - A method with a pointer receiver that mutates the struct is a function
      from the struct to the updated struct; the assignments of the body are
      threaded in source order through [let p := ... in]. *)

From Stdlib Require Import QArith Qabs Qpower Qminmax Lqa ZArith Lia List
  String Bool.
From Stdlib Require PrimFloat FloatOps SpecFloat.
Import ListNotations.

Local Open Scope Q_scope.

(** ** Numbers *)

Definition float64 := Q.

(** Go's [x < y], [x > y], [x <= y], [x == y] and [x != y] on floats. *)
Definition fltb (x y : float64) : bool :=
  match x ?= y with Lt => true | _ => false end.

Definition fgtb (x y : float64) : bool :=
  match x ?= y with Gt => true | _ => false end.

Definition fleb (x y : float64) : bool := Qle_bool x y.

Definition feqb (x y : float64) : bool := Qeq_bool x y.

Definition fneqb (x y : float64) : bool := negb (Qeq_bool x y).

(** ** Time *)

Definition Time := Z.
Definition Duration := Z.

Definition minDuration : Duration := (- 2 ^ 63)%Z.
Definition maxDuration : Duration := (2 ^ 63 - 1)%Z.

Definition Nanosecond : Duration := 1%Z.
Definition Hour : Duration := (3600 * 1000000000)%Z.

(** [t.Sub(u)]: the difference, saturated to the range of a [Duration]. *)
Definition Sub (t u : Time) : Duration :=
  let d := (t - u)%Z in
  if (d <? minDuration)%Z then minDuration
  else if (maxDuration <? d)%Z then maxDuration
  else d.

(** [time.Since(u)] with the clock reading passed in. *)
Definition Since (now u : Time) : Duration := Sub now u.

(** ** Trade (trade.go) *)

Definition TradeSide := string.
Definition TradeSideBuy : TradeSide := "buy"%string.
Definition TradeSideSell : TradeSide := "sell"%string.

Definition TradeStatus := string.
Definition TradeStatusPending : TradeStatus := "pending"%string.
Definition TradeStatusSubmitted : TradeStatus := "submitted"%string.
Definition TradeStatusExecuted : TradeStatus := "executed"%string.
Definition TradeStatusConfirmed : TradeStatus := "confirmed"%string.
Definition TradeStatusFailed : TradeStatus := "failed"%string.
Definition TradeStatusCancelled : TradeStatus := "cancelled"%string.
Definition TradeStatusPartial : TradeStatus := "partial"%string.
Definition TradeStatusExpired : TradeStatus := "expired"%string.

Module Trade.

(** The fields of [Trade] read by the methods modelled here. *)
Record t := mk {
  Side : TradeSide;
  Status : TradeStatus;
  Quantity : float64;
  Price : float64;
  ExecutedQuantity : float64;
  ExecutedPrice : float64;
  RetryCount : Z;
  MaxRetries : Z
}.

Section Slippage.

(** The float division used by the method.  It is a parameter so that
    one can state that the result never depends on a quotient by zero;
    the method itself is the instance at [Qdiv] below. *)
Variable fdiv : float64 -> float64 -> float64.

Definition CalculateActualSlippageWith (tr : t) : float64 :=
  if feqb (Price tr) 0 || feqb (ExecutedPrice tr) 0 then 0
  else if String.eqb (Side tr) TradeSideBuy
       then fdiv (ExecutedPrice tr - Price tr) (Price tr) * 100
       else fdiv (Price tr - ExecutedPrice tr) (Price tr) * 100.

End Slippage.

(** [func (t *Trade) CalculateActualSlippage() float64] *)
Definition CalculateActualSlippage (tr : t) : float64 :=
  CalculateActualSlippageWith Qdiv tr.

(** [func (t *Trade) CanRetry() bool] *)
Definition CanRetry (tr : t) : bool :=
  String.eqb (Status tr) TradeStatusFailed && (RetryCount tr <? MaxRetries tr)%Z.

(** [func (t *Trade) IsCompleted() bool] *)
Definition IsCompleted (tr : t) : bool :=
  String.eqb (Status tr) TradeStatusConfirmed
  || String.eqb (Status tr) TradeStatusFailed
  || String.eqb (Status tr) TradeStatusCancelled
  || String.eqb (Status tr) TradeStatusExpired.

(** [func (t *Trade) IsSuccessful() bool] *)
Definition IsSuccessful (tr : t) : bool :=
  String.eqb (Status tr) TradeStatusConfirmed
  || String.eqb (Status tr) TradeStatusExecuted.

(** [func (t *Trade) GetFillPercentage() float64] *)
Definition GetFillPercentage (tr : t) : float64 :=
  if feqb (Quantity tr) 0 then 0
  else (ExecutedQuantity tr / Quantity tr) * 100.

Definition set_MaxRetries v (tr : t) : t :=
  {| Side := Side tr; Status := Status tr; Quantity := Quantity tr;
     Price := Price tr; ExecutedQuantity := ExecutedQuantity tr;
     ExecutedPrice := ExecutedPrice tr; RetryCount := RetryCount tr;
     MaxRetries := v |}.

End Trade.

(** ** Token risk scoring (token.go) *)

Definition RiskLevel := string.
Definition RiskLevelVeryLow : RiskLevel := "very_low"%string.
Definition RiskLevelLow : RiskLevel := "low"%string.
Definition RiskLevelMedium : RiskLevel := "medium"%string.
Definition RiskLevelHigh : RiskLevel := "high"%string.
Definition RiskLevelVeryHigh : RiskLevel := "very_high"%string.
Definition RiskLevelExtreme : RiskLevel := "extreme"%string.

(** The position of a level in the declared order of the six constants
    (anything else is placed after them). *)
Definition RiskLevel_rank (l : RiskLevel) : nat :=
  if String.eqb l RiskLevelVeryLow then 0
  else if String.eqb l RiskLevelLow then 1
  else if String.eqb l RiskLevelMedium then 2
  else if String.eqb l RiskLevelHigh then 3
  else if String.eqb l RiskLevelVeryHigh then 4
  else if String.eqb l RiskLevelExtreme then 5
  else 6.

Definition AuditStatus := string.
Definition AuditNotAudited : AuditStatus := "not_audited"%string.
Definition AuditPending : AuditStatus := "pending"%string.
Definition AuditPassed : AuditStatus := "passed"%string.
Definition AuditFailed : AuditStatus := "failed"%string.
Definition AuditPartial : AuditStatus := "partial"%string.

Module SecurityInfo.
Record t := mk {
  HoneypotRisk : bool;
  LiquidityLocked : bool;
  OwnershipRenounced : bool;
  AuditStatus : AuditStatus
}.
End SecurityInfo.

Module SocialInfo.
Record t := mk {
  SocialScore : float64
}.
End SocialInfo.

Module LiquidityPool.
Record t := mk {
  TotalLiquidity : float64
}.
End LiquidityPool.

Module Token.

(** The fields of [Token] read or written by the risk scorer. *)
Record t := mk {
  MarketCap : float64;
  LaunchDate : option Time;
  SecurityInfo : SecurityInfo.t;
  LiquidityPools : list LiquidityPool.t;
  SocialInfo : SocialInfo.t;
  HolderCount : Z;
  RiskScore : float64;
  RiskLevel : RiskLevel;
  VolatilityScore : float64
}.

Definition set_RiskScore v (tok : t) : t :=
  {| MarketCap := MarketCap tok; LaunchDate := LaunchDate tok;
     SecurityInfo := SecurityInfo tok; LiquidityPools := LiquidityPools tok;
     SocialInfo := SocialInfo tok; HolderCount := HolderCount tok;
     RiskScore := v; RiskLevel := RiskLevel tok;
     VolatilityScore := VolatilityScore tok |}.

Definition set_RiskLevel v (tok : t) : t :=
  {| MarketCap := MarketCap tok; LaunchDate := LaunchDate tok;
     SecurityInfo := SecurityInfo tok; LiquidityPools := LiquidityPools tok;
     SocialInfo := SocialInfo tok; HolderCount := HolderCount tok;
     RiskScore := RiskScore tok; RiskLevel := v;
     VolatilityScore := VolatilityScore tok |}.

(** [func (t *Token) getTotalLiquidity() float64] *)
Definition getTotalLiquidity (tok : t) : float64 :=
  fold_left (fun total pool => total + LiquidityPool.TotalLiquidity pool)
            (LiquidityPools tok) 0.

(** The score before the final clamp: the baseline and the deltas of
    [calculateRiskScore], in source order. *)
Definition rawRiskScore (now : Time) (tok : t) : float64 :=
  let score := 5.0 in
  let score := if SecurityInfo.HoneypotRisk (SecurityInfo tok)
               then score + 3.0 else score in
  let score := if negb (SecurityInfo.LiquidityLocked (SecurityInfo tok))
               then score + 2.0 else score in
  let score := if negb (SecurityInfo.OwnershipRenounced (SecurityInfo tok))
               then score + 1.5 else score in
  let score := if fltb (MarketCap tok) 10000 then score + 2.0
               else if fltb (MarketCap tok) 100000 then score + 1.0
               else score in
  let score := if fgtb (VolatilityScore tok) 80 then score + 1.5
               else if fgtb (VolatilityScore tok) 60 then score + 1.0
               else score in
  let score := match LaunchDate tok with
               | Some launch =>
                   let age := Since now launch in
                   if (age <? 24 * Hour)%Z then score + 2.0
                   else if (age <? 7 * 24 * Hour)%Z then score + 1.0
                   else score
               | None => score
               end in
  let totalLiquidity := getTotalLiquidity tok in
  let score := if fltb totalLiquidity 1 then score + 3.0
               else if fltb totalLiquidity 10 then score + 2.0
               else if fltb totalLiquidity 100 then score + 1.0
               else score in
  let score := if (HolderCount tok <? 10)%Z then score + 2.0
               else if (HolderCount tok <? 100)%Z then score + 1.0
               else score in
  let score :=
    let a := SecurityInfo.AuditStatus (SecurityInfo tok) in
    if String.eqb a AuditPassed then score - 1.0
    else if String.eqb a AuditFailed then score + 2.0
    else if String.eqb a AuditNotAudited then score + 0.5
    else score in
  let score := if fltb (SocialInfo.SocialScore (SocialInfo tok)) 3.0
               then score + 1.0
               else if fgtb (SocialInfo.SocialScore (SocialInfo tok)) 7.0
               then score - 0.5
               else score in
  score.

(** [func (t *Token) calculateRiskScore()] *)
Definition calculateRiskScore (now : Time) (tok : t) : t :=
  let score := rawRiskScore now tok in
  let score := if fltb score 0 then 0
               else if fgtb score 10 then 10
               else score in
  set_RiskScore score tok.

(** The threshold table of [updateRiskLevel]. *)
Definition riskLevelOf (score : float64) :=
  if fleb score 2.0 then RiskLevelVeryLow
  else if fleb score 4.0 then RiskLevelLow
  else if fleb score 6.0 then RiskLevelMedium
  else if fleb score 8.0 then RiskLevelHigh
  else if fleb score 9.0 then RiskLevelVeryHigh
  else RiskLevelExtreme.

(** [func (t *Token) updateRiskLevel()] *)
Definition updateRiskLevel (tok : t) : t :=
  set_RiskLevel (riskLevelOf (RiskScore tok)) tok.

(** [func (d Duration) Hours() float64] of the standard library: the whole
    hours plus the remaining nanoseconds as a fraction of an hour. *)
Definition Hours (d : Duration) : float64 :=
  inject_Z (Z.quot d Hour) + inject_Z (Z.rem d Hour) / (60 * 60 * 1000000000).

(** [func (t *Token) GetAgeInHours() float64] *)
Definition GetAgeInHours (now : Time) (tok : t) : float64 :=
  match LaunchDate tok with
  | None => 0
  | Some launch => Hours (Since now launch)
  end.

(** [func (t *Token) IsNewListing() bool] *)
Definition IsNewListing (now : Time) (tok : t) : bool :=
  fltb (GetAgeInHours now tok) 1.0.

(** The risk part of [func (t *Token) BeforeUpdate(tx *gorm.DB) error]: the
    score, then the level.  (The hook also stamps [LastSeenAt], which is not
    among the fields above, and always returns [nil].) *)
Definition BeforeUpdate (now : Time) (tok : t) : t :=
  let tok := calculateRiskScore now tok in
  let tok := updateRiskLevel tok in
  tok.

End Token.

(** ** Position ledger (position.go) *)

Definition PositionStatus := string.
Definition PositionStatusOpen : PositionStatus := "open"%string.
Definition PositionStatusClosed : PositionStatus := "closed"%string.
Definition PositionStatusPartial : PositionStatus := "partial"%string.
Definition PositionStatusStopped : PositionStatus := "stopped"%string.
Definition PositionStatusExpired : PositionStatus := "expired"%string.
Definition PositionStatusLiquidated : PositionStatus := "liquidated"%string.

Definition PositionSide := string.
Definition PositionSideLong : PositionSide := "long"%string.
Definition PositionSideShort : PositionSide := "short"%string.

Module PartialExit.
Record t := mk {
  Timestamp : Time;
  Quantity : float64;
  Price : float64;
  Value : float64;
  Fees : float64;
  PnL : float64;
  PnLPercent : float64
}.
End PartialExit.

Module PositionAdjustment.
Record t := mk {
  Timestamp : Time;
  Type_ : string;
  OldValue : option float64;
  NewValue : float64;
  Automatic : bool;
  TriggerPrice : option float64
}.
End PositionAdjustment.

Module DCAEntry.
Record t := mk {
  Timestamp : Time;
  Quantity : float64;
  Price : float64;
  Value : float64;
  Fees : float64
}.
End DCAEntry.

Module Position.

(** The fields of [Position] read or written by the methods modelled
    here (identifiers, hashes, notes and the automation flags are left
    out: no modelled method touches them). *)
Record t := mk {
  Status : PositionStatus;
  Side : PositionSide;
  EntryPrice : float64;
  EntryQuantity : float64;
  EntryValue : float64;
  EntryFees : float64;
  EntryTime : Time;
  CurrentPrice : float64;
  CurrentQuantity : float64;
  CurrentValue : float64;
  LastPriceUpdate : Time;
  ExitValue : option float64;
  ExitFees : option float64;
  ExitTime : option Time;
  StopLoss : option float64;
  TakeProfit : option float64;
  TrailingStop : option float64;
  TrailingStopPrice : option float64;
  UnrealizedPnL : float64;
  UnrealizedPnLPercent : float64;
  RealizedPnL : float64;
  RealizedPnLPercent : float64;
  TotalFees : float64;
  ROI : float64;
  HighestValue : float64;
  LowestValue : float64;
  HighestPrice : float64;
  LowestPrice : float64;
  MaxDrawdown : float64;
  MaxGainPercent : float64;
  PartialExits : list PartialExit.t;
  Adjustments : list PositionAdjustment.t;
  DCAEntries : list DCAEntry.t;
  HoldDuration : Duration
}.

(** Field assignment [p.F = v], one function per assigned field. *)
Definition set_Status v (p : t) : t :=
  {| Status := v; Side := Side p; EntryPrice := EntryPrice p;
     EntryQuantity := EntryQuantity p; EntryValue := EntryValue p;
     EntryFees := EntryFees p; EntryTime := EntryTime p;
     CurrentPrice := CurrentPrice p; CurrentQuantity := CurrentQuantity p;
     CurrentValue := CurrentValue p; LastPriceUpdate := LastPriceUpdate p;
     ExitValue := ExitValue p; ExitFees := ExitFees p;
     ExitTime := ExitTime p; StopLoss := StopLoss p;
     TakeProfit := TakeProfit p; TrailingStop := TrailingStop p;
     TrailingStopPrice := TrailingStopPrice p;
     UnrealizedPnL := UnrealizedPnL p;
     UnrealizedPnLPercent := UnrealizedPnLPercent p;
     RealizedPnL := RealizedPnL p;
     RealizedPnLPercent := RealizedPnLPercent p; TotalFees := TotalFees p;
     ROI := ROI p; HighestValue := HighestValue p;
     LowestValue := LowestValue p; HighestPrice := HighestPrice p;
     LowestPrice := LowestPrice p; MaxDrawdown := MaxDrawdown p;
     MaxGainPercent := MaxGainPercent p; PartialExits := PartialExits p;
     Adjustments := Adjustments p; DCAEntries := DCAEntries p;
     HoldDuration := HoldDuration p |}.

Definition set_EntryPrice v (p : t) : t :=
  {| Status := Status p; Side := Side p; EntryPrice := v;
     EntryQuantity := EntryQuantity p; EntryValue := EntryValue p;
     EntryFees := EntryFees p; EntryTime := EntryTime p;
     CurrentPrice := CurrentPrice p; CurrentQuantity := CurrentQuantity p;
     CurrentValue := CurrentValue p; LastPriceUpdate := LastPriceUpdate p;
     ExitValue := ExitValue p; ExitFees := ExitFees p;
     ExitTime := ExitTime p; StopLoss := StopLoss p;
     TakeProfit := TakeProfit p; TrailingStop := TrailingStop p;
     TrailingStopPrice := TrailingStopPrice p;
     UnrealizedPnL := UnrealizedPnL p;
     UnrealizedPnLPercent := UnrealizedPnLPercent p;
     RealizedPnL := RealizedPnL p;
     RealizedPnLPercent := RealizedPnLPercent p; TotalFees := TotalFees p;
     ROI := ROI p; HighestValue := HighestValue p;
     LowestValue := LowestValue p; HighestPrice := HighestPrice p;
     LowestPrice := LowestPrice p; MaxDrawdown := MaxDrawdown p;
     MaxGainPercent := MaxGainPercent p; PartialExits := PartialExits p;
     Adjustments := Adjustments p; DCAEntries := DCAEntries p;
     HoldDuration := HoldDuration p |}.

Definition set_EntryQuantity v (p : t) : t :=
  {| Status := Status p; Side := Side p; EntryPrice := EntryPrice p;
     EntryQuantity := v; EntryValue := EntryValue p;
     EntryFees := EntryFees p; EntryTime := EntryTime p;
     CurrentPrice := CurrentPrice p; CurrentQuantity := CurrentQuantity p;
     CurrentValue := CurrentValue p; LastPriceUpdate := LastPriceUpdate p;
     ExitValue := ExitValue p; ExitFees := ExitFees p;
     ExitTime := ExitTime p; StopLoss := StopLoss p;
     TakeProfit := TakeProfit p; TrailingStop := TrailingStop p;
     TrailingStopPrice := TrailingStopPrice p;
     UnrealizedPnL := UnrealizedPnL p;
     UnrealizedPnLPercent := UnrealizedPnLPercent p;
     RealizedPnL := RealizedPnL p;
     RealizedPnLPercent := RealizedPnLPercent p; TotalFees := TotalFees p;
     ROI := ROI p; HighestValue := HighestValue p;
     LowestValue := LowestValue p; HighestPrice := HighestPrice p;
     LowestPrice := LowestPrice p; MaxDrawdown := MaxDrawdown p;
     MaxGainPercent := MaxGainPercent p; PartialExits := PartialExits p;
     Adjustments := Adjustments p; DCAEntries := DCAEntries p;
     HoldDuration := HoldDuration p |}.

Definition set_EntryValue v (p : t) : t :=
  {| Status := Status p; Side := Side p; EntryPrice := EntryPrice p;
     EntryQuantity := EntryQuantity p; EntryValue := v;
     EntryFees := EntryFees p; EntryTime := EntryTime p;
     CurrentPrice := CurrentPrice p; CurrentQuantity := CurrentQuantity p;
     CurrentValue := CurrentValue p; LastPriceUpdate := LastPriceUpdate p;
     ExitValue := ExitValue p; ExitFees := ExitFees p;
     ExitTime := ExitTime p; StopLoss := StopLoss p;
     TakeProfit := TakeProfit p; TrailingStop := TrailingStop p;
     TrailingStopPrice := TrailingStopPrice p;
     UnrealizedPnL := UnrealizedPnL p;
     UnrealizedPnLPercent := UnrealizedPnLPercent p;
     RealizedPnL := RealizedPnL p;
     RealizedPnLPercent := RealizedPnLPercent p; TotalFees := TotalFees p;
     ROI := ROI p; HighestValue := HighestValue p;
     LowestValue := LowestValue p; HighestPrice := HighestPrice p;
     LowestPrice := LowestPrice p; MaxDrawdown := MaxDrawdown p;
     MaxGainPercent := MaxGainPercent p; PartialExits := PartialExits p;
     Adjustments := Adjustments p; DCAEntries := DCAEntries p;
     HoldDuration := HoldDuration p |}.

Definition set_EntryFees v (p : t) : t :=
  {| Status := Status p; Side := Side p; EntryPrice := EntryPrice p;
     EntryQuantity := EntryQuantity p; EntryValue := EntryValue p;
     EntryFees := v; EntryTime := EntryTime p;
     CurrentPrice := CurrentPrice p; CurrentQuantity := CurrentQuantity p;
     CurrentValue := CurrentValue p; LastPriceUpdate := LastPriceUpdate p;
     ExitValue := ExitValue p; ExitFees := ExitFees p;
     ExitTime := ExitTime p; StopLoss := StopLoss p;
     TakeProfit := TakeProfit p; TrailingStop := TrailingStop p;
     TrailingStopPrice := TrailingStopPrice p;
     UnrealizedPnL := UnrealizedPnL p;
     UnrealizedPnLPercent := UnrealizedPnLPercent p;
     RealizedPnL := RealizedPnL p;
     RealizedPnLPercent := RealizedPnLPercent p; TotalFees := TotalFees p;
     ROI := ROI p; HighestValue := HighestValue p;
     LowestValue := LowestValue p; HighestPrice := HighestPrice p;
     LowestPrice := LowestPrice p; MaxDrawdown := MaxDrawdown p;
     MaxGainPercent := MaxGainPercent p; PartialExits := PartialExits p;
     Adjustments := Adjustments p; DCAEntries := DCAEntries p;
     HoldDuration := HoldDuration p |}.

Definition set_EntryTime v (p : t) : t :=
  {| Status := Status p; Side := Side p; EntryPrice := EntryPrice p;
     EntryQuantity := EntryQuantity p; EntryValue := EntryValue p;
     EntryFees := EntryFees p; EntryTime := v;
     CurrentPrice := CurrentPrice p; CurrentQuantity := CurrentQuantity p;
     CurrentValue := CurrentValue p; LastPriceUpdate := LastPriceUpdate p;
     ExitValue := ExitValue p; ExitFees := ExitFees p;
     ExitTime := ExitTime p; StopLoss := StopLoss p;
     TakeProfit := TakeProfit p; TrailingStop := TrailingStop p;
     TrailingStopPrice := TrailingStopPrice p;
     UnrealizedPnL := UnrealizedPnL p;
     UnrealizedPnLPercent := UnrealizedPnLPercent p;
     RealizedPnL := RealizedPnL p;
     RealizedPnLPercent := RealizedPnLPercent p; TotalFees := TotalFees p;
     ROI := ROI p; HighestValue := HighestValue p;
     LowestValue := LowestValue p; HighestPrice := HighestPrice p;
     LowestPrice := LowestPrice p; MaxDrawdown := MaxDrawdown p;
     MaxGainPercent := MaxGainPercent p; PartialExits := PartialExits p;
     Adjustments := Adjustments p; DCAEntries := DCAEntries p;
     HoldDuration := HoldDuration p |}.

Definition set_CurrentPrice v (p : t) : t :=
  {| Status := Status p; Side := Side p; EntryPrice := EntryPrice p;
     EntryQuantity := EntryQuantity p; EntryValue := EntryValue p;
     EntryFees := EntryFees p; EntryTime := EntryTime p; CurrentPrice := v;
     CurrentQuantity := CurrentQuantity p; CurrentValue := CurrentValue p;
     LastPriceUpdate := LastPriceUpdate p; ExitValue := ExitValue p;
     ExitFees := ExitFees p; ExitTime := ExitTime p;
     StopLoss := StopLoss p; TakeProfit := TakeProfit p;
     TrailingStop := TrailingStop p;
     TrailingStopPrice := TrailingStopPrice p;
     UnrealizedPnL := UnrealizedPnL p;
     UnrealizedPnLPercent := UnrealizedPnLPercent p;
     RealizedPnL := RealizedPnL p;
     RealizedPnLPercent := RealizedPnLPercent p; TotalFees := TotalFees p;
     ROI := ROI p; HighestValue := HighestValue p;
     LowestValue := LowestValue p; HighestPrice := HighestPrice p;
     LowestPrice := LowestPrice p; MaxDrawdown := MaxDrawdown p;
     MaxGainPercent := MaxGainPercent p; PartialExits := PartialExits p;
     Adjustments := Adjustments p; DCAEntries := DCAEntries p;
     HoldDuration := HoldDuration p |}.

Definition set_CurrentQuantity v (p : t) : t :=
  {| Status := Status p; Side := Side p; EntryPrice := EntryPrice p;
     EntryQuantity := EntryQuantity p; EntryValue := EntryValue p;
     EntryFees := EntryFees p; EntryTime := EntryTime p;
     CurrentPrice := CurrentPrice p; CurrentQuantity := v;
     CurrentValue := CurrentValue p; LastPriceUpdate := LastPriceUpdate p;
     ExitValue := ExitValue p; ExitFees := ExitFees p;
     ExitTime := ExitTime p; StopLoss := StopLoss p;
     TakeProfit := TakeProfit p; TrailingStop := TrailingStop p;
     TrailingStopPrice := TrailingStopPrice p;
     UnrealizedPnL := UnrealizedPnL p;
     UnrealizedPnLPercent := UnrealizedPnLPercent p;
     RealizedPnL := RealizedPnL p;
     RealizedPnLPercent := RealizedPnLPercent p; TotalFees := TotalFees p;
     ROI := ROI p; HighestValue := HighestValue p;
     LowestValue := LowestValue p; HighestPrice := HighestPrice p;
     LowestPrice := LowestPrice p; MaxDrawdown := MaxDrawdown p;
     MaxGainPercent := MaxGainPercent p; PartialExits := PartialExits p;
     Adjustments := Adjustments p; DCAEntries := DCAEntries p;
     HoldDuration := HoldDuration p |}.

Definition set_CurrentValue v (p : t) : t :=
  {| Status := Status p; Side := Side p; EntryPrice := EntryPrice p;
     EntryQuantity := EntryQuantity p; EntryValue := EntryValue p;
     EntryFees := EntryFees p; EntryTime := EntryTime p;
     CurrentPrice := CurrentPrice p; CurrentQuantity := CurrentQuantity p;
     CurrentValue := v; LastPriceUpdate := LastPriceUpdate p;
     ExitValue := ExitValue p; ExitFees := ExitFees p;
     ExitTime := ExitTime p; StopLoss := StopLoss p;
     TakeProfit := TakeProfit p; TrailingStop := TrailingStop p;
     TrailingStopPrice := TrailingStopPrice p;
     UnrealizedPnL := UnrealizedPnL p;
     UnrealizedPnLPercent := UnrealizedPnLPercent p;
     RealizedPnL := RealizedPnL p;
     RealizedPnLPercent := RealizedPnLPercent p; TotalFees := TotalFees p;
     ROI := ROI p; HighestValue := HighestValue p;
     LowestValue := LowestValue p; HighestPrice := HighestPrice p;
     LowestPrice := LowestPrice p; MaxDrawdown := MaxDrawdown p;
     MaxGainPercent := MaxGainPercent p; PartialExits := PartialExits p;
     Adjustments := Adjustments p; DCAEntries := DCAEntries p;
     HoldDuration := HoldDuration p |}.

Definition set_LastPriceUpdate v (p : t) : t :=
  {| Status := Status p; Side := Side p; EntryPrice := EntryPrice p;
     EntryQuantity := EntryQuantity p; EntryValue := EntryValue p;
     EntryFees := EntryFees p; EntryTime := EntryTime p;
     CurrentPrice := CurrentPrice p; CurrentQuantity := CurrentQuantity p;
     CurrentValue := CurrentValue p; LastPriceUpdate := v;
     ExitValue := ExitValue p; ExitFees := ExitFees p;
     ExitTime := ExitTime p; StopLoss := StopLoss p;
     TakeProfit := TakeProfit p; TrailingStop := TrailingStop p;
     TrailingStopPrice := TrailingStopPrice p;
     UnrealizedPnL := UnrealizedPnL p;
     UnrealizedPnLPercent := UnrealizedPnLPercent p;
     RealizedPnL := RealizedPnL p;
     RealizedPnLPercent := RealizedPnLPercent p; TotalFees := TotalFees p;
     ROI := ROI p; HighestValue := HighestValue p;
     LowestValue := LowestValue p; HighestPrice := HighestPrice p;
     LowestPrice := LowestPrice p; MaxDrawdown := MaxDrawdown p;
     MaxGainPercent := MaxGainPercent p; PartialExits := PartialExits p;
     Adjustments := Adjustments p; DCAEntries := DCAEntries p;
     HoldDuration := HoldDuration p |}.

Definition set_StopLoss v (p : t) : t :=
  {| Status := Status p; Side := Side p; EntryPrice := EntryPrice p;
     EntryQuantity := EntryQuantity p; EntryValue := EntryValue p;
     EntryFees := EntryFees p; EntryTime := EntryTime p;
     CurrentPrice := CurrentPrice p; CurrentQuantity := CurrentQuantity p;
     CurrentValue := CurrentValue p; LastPriceUpdate := LastPriceUpdate p;
     ExitValue := ExitValue p; ExitFees := ExitFees p;
     ExitTime := ExitTime p; StopLoss := v; TakeProfit := TakeProfit p;
     TrailingStop := TrailingStop p;
     TrailingStopPrice := TrailingStopPrice p;
     UnrealizedPnL := UnrealizedPnL p;
     UnrealizedPnLPercent := UnrealizedPnLPercent p;
     RealizedPnL := RealizedPnL p;
     RealizedPnLPercent := RealizedPnLPercent p; TotalFees := TotalFees p;
     ROI := ROI p; HighestValue := HighestValue p;
     LowestValue := LowestValue p; HighestPrice := HighestPrice p;
     LowestPrice := LowestPrice p; MaxDrawdown := MaxDrawdown p;
     MaxGainPercent := MaxGainPercent p; PartialExits := PartialExits p;
     Adjustments := Adjustments p; DCAEntries := DCAEntries p;
     HoldDuration := HoldDuration p |}.

Definition set_TakeProfit v (p : t) : t :=
  {| Status := Status p; Side := Side p; EntryPrice := EntryPrice p;
     EntryQuantity := EntryQuantity p; EntryValue := EntryValue p;
     EntryFees := EntryFees p; EntryTime := EntryTime p;
     CurrentPrice := CurrentPrice p; CurrentQuantity := CurrentQuantity p;
     CurrentValue := CurrentValue p; LastPriceUpdate := LastPriceUpdate p;
     ExitValue := ExitValue p; ExitFees := ExitFees p;
     ExitTime := ExitTime p; StopLoss := StopLoss p; TakeProfit := v;
     TrailingStop := TrailingStop p;
     TrailingStopPrice := TrailingStopPrice p;
     UnrealizedPnL := UnrealizedPnL p;
     UnrealizedPnLPercent := UnrealizedPnLPercent p;
     RealizedPnL := RealizedPnL p;
     RealizedPnLPercent := RealizedPnLPercent p; TotalFees := TotalFees p;
     ROI := ROI p; HighestValue := HighestValue p;
     LowestValue := LowestValue p; HighestPrice := HighestPrice p;
     LowestPrice := LowestPrice p; MaxDrawdown := MaxDrawdown p;
     MaxGainPercent := MaxGainPercent p; PartialExits := PartialExits p;
     Adjustments := Adjustments p; DCAEntries := DCAEntries p;
     HoldDuration := HoldDuration p |}.

Definition set_TrailingStop v (p : t) : t :=
  {| Status := Status p; Side := Side p; EntryPrice := EntryPrice p;
     EntryQuantity := EntryQuantity p; EntryValue := EntryValue p;
     EntryFees := EntryFees p; EntryTime := EntryTime p;
     CurrentPrice := CurrentPrice p; CurrentQuantity := CurrentQuantity p;
     CurrentValue := CurrentValue p; LastPriceUpdate := LastPriceUpdate p;
     ExitValue := ExitValue p; ExitFees := ExitFees p;
     ExitTime := ExitTime p; StopLoss := StopLoss p;
     TakeProfit := TakeProfit p; TrailingStop := v;
     TrailingStopPrice := TrailingStopPrice p;
     UnrealizedPnL := UnrealizedPnL p;
     UnrealizedPnLPercent := UnrealizedPnLPercent p;
     RealizedPnL := RealizedPnL p;
     RealizedPnLPercent := RealizedPnLPercent p; TotalFees := TotalFees p;
     ROI := ROI p; HighestValue := HighestValue p;
     LowestValue := LowestValue p; HighestPrice := HighestPrice p;
     LowestPrice := LowestPrice p; MaxDrawdown := MaxDrawdown p;
     MaxGainPercent := MaxGainPercent p; PartialExits := PartialExits p;
     Adjustments := Adjustments p; DCAEntries := DCAEntries p;
     HoldDuration := HoldDuration p |}.

Definition set_TrailingStopPrice v (p : t) : t :=
  {| Status := Status p; Side := Side p; EntryPrice := EntryPrice p;
     EntryQuantity := EntryQuantity p; EntryValue := EntryValue p;
     EntryFees := EntryFees p; EntryTime := EntryTime p;
     CurrentPrice := CurrentPrice p; CurrentQuantity := CurrentQuantity p;
     CurrentValue := CurrentValue p; LastPriceUpdate := LastPriceUpdate p;
     ExitValue := ExitValue p; ExitFees := ExitFees p;
     ExitTime := ExitTime p; StopLoss := StopLoss p;
     TakeProfit := TakeProfit p; TrailingStop := TrailingStop p;
     TrailingStopPrice := v; UnrealizedPnL := UnrealizedPnL p;
     UnrealizedPnLPercent := UnrealizedPnLPercent p;
     RealizedPnL := RealizedPnL p;
     RealizedPnLPercent := RealizedPnLPercent p; TotalFees := TotalFees p;
     ROI := ROI p; HighestValue := HighestValue p;
     LowestValue := LowestValue p; HighestPrice := HighestPrice p;
     LowestPrice := LowestPrice p; MaxDrawdown := MaxDrawdown p;
     MaxGainPercent := MaxGainPercent p; PartialExits := PartialExits p;
     Adjustments := Adjustments p; DCAEntries := DCAEntries p;
     HoldDuration := HoldDuration p |}.

Definition set_UnrealizedPnL v (p : t) : t :=
  {| Status := Status p; Side := Side p; EntryPrice := EntryPrice p;
     EntryQuantity := EntryQuantity p; EntryValue := EntryValue p;
     EntryFees := EntryFees p; EntryTime := EntryTime p;
     CurrentPrice := CurrentPrice p; CurrentQuantity := CurrentQuantity p;
     CurrentValue := CurrentValue p; LastPriceUpdate := LastPriceUpdate p;
     ExitValue := ExitValue p; ExitFees := ExitFees p;
     ExitTime := ExitTime p; StopLoss := StopLoss p;
     TakeProfit := TakeProfit p; TrailingStop := TrailingStop p;
     TrailingStopPrice := TrailingStopPrice p; UnrealizedPnL := v;
     UnrealizedPnLPercent := UnrealizedPnLPercent p;
     RealizedPnL := RealizedPnL p;
     RealizedPnLPercent := RealizedPnLPercent p; TotalFees := TotalFees p;
     ROI := ROI p; HighestValue := HighestValue p;
     LowestValue := LowestValue p; HighestPrice := HighestPrice p;
     LowestPrice := LowestPrice p; MaxDrawdown := MaxDrawdown p;
     MaxGainPercent := MaxGainPercent p; PartialExits := PartialExits p;
     Adjustments := Adjustments p; DCAEntries := DCAEntries p;
     HoldDuration := HoldDuration p |}.

Definition set_UnrealizedPnLPercent v (p : t) : t :=
  {| Status := Status p; Side := Side p; EntryPrice := EntryPrice p;
     EntryQuantity := EntryQuantity p; EntryValue := EntryValue p;
     EntryFees := EntryFees p; EntryTime := EntryTime p;
     CurrentPrice := CurrentPrice p; CurrentQuantity := CurrentQuantity p;
     CurrentValue := CurrentValue p; LastPriceUpdate := LastPriceUpdate p;
     ExitValue := ExitValue p; ExitFees := ExitFees p;
     ExitTime := ExitTime p; StopLoss := StopLoss p;
     TakeProfit := TakeProfit p; TrailingStop := TrailingStop p;
     TrailingStopPrice := TrailingStopPrice p;
     UnrealizedPnL := UnrealizedPnL p; UnrealizedPnLPercent := v;
     RealizedPnL := RealizedPnL p;
     RealizedPnLPercent := RealizedPnLPercent p; TotalFees := TotalFees p;
     ROI := ROI p; HighestValue := HighestValue p;
     LowestValue := LowestValue p; HighestPrice := HighestPrice p;
     LowestPrice := LowestPrice p; MaxDrawdown := MaxDrawdown p;
     MaxGainPercent := MaxGainPercent p; PartialExits := PartialExits p;
     Adjustments := Adjustments p; DCAEntries := DCAEntries p;
     HoldDuration := HoldDuration p |}.

Definition set_RealizedPnL v (p : t) : t :=
  {| Status := Status p; Side := Side p; EntryPrice := EntryPrice p;
     EntryQuantity := EntryQuantity p; EntryValue := EntryValue p;
     EntryFees := EntryFees p; EntryTime := EntryTime p;
     CurrentPrice := CurrentPrice p; CurrentQuantity := CurrentQuantity p;
     CurrentValue := CurrentValue p; LastPriceUpdate := LastPriceUpdate p;
     ExitValue := ExitValue p; ExitFees := ExitFees p;
     ExitTime := ExitTime p; StopLoss := StopLoss p;
     TakeProfit := TakeProfit p; TrailingStop := TrailingStop p;
     TrailingStopPrice := TrailingStopPrice p;
     UnrealizedPnL := UnrealizedPnL p;
     UnrealizedPnLPercent := UnrealizedPnLPercent p; RealizedPnL := v;
     RealizedPnLPercent := RealizedPnLPercent p; TotalFees := TotalFees p;
     ROI := ROI p; HighestValue := HighestValue p;
     LowestValue := LowestValue p; HighestPrice := HighestPrice p;
     LowestPrice := LowestPrice p; MaxDrawdown := MaxDrawdown p;
     MaxGainPercent := MaxGainPercent p; PartialExits := PartialExits p;
     Adjustments := Adjustments p; DCAEntries := DCAEntries p;
     HoldDuration := HoldDuration p |}.

Definition set_RealizedPnLPercent v (p : t) : t :=
  {| Status := Status p; Side := Side p; EntryPrice := EntryPrice p;
     EntryQuantity := EntryQuantity p; EntryValue := EntryValue p;
     EntryFees := EntryFees p; EntryTime := EntryTime p;
     CurrentPrice := CurrentPrice p; CurrentQuantity := CurrentQuantity p;
     CurrentValue := CurrentValue p; LastPriceUpdate := LastPriceUpdate p;
     ExitValue := ExitValue p; ExitFees := ExitFees p;
     ExitTime := ExitTime p; StopLoss := StopLoss p;
     TakeProfit := TakeProfit p; TrailingStop := TrailingStop p;
     TrailingStopPrice := TrailingStopPrice p;
     UnrealizedPnL := UnrealizedPnL p;
     UnrealizedPnLPercent := UnrealizedPnLPercent p;
     RealizedPnL := RealizedPnL p; RealizedPnLPercent := v;
     TotalFees := TotalFees p; ROI := ROI p;
     HighestValue := HighestValue p; LowestValue := LowestValue p;
     HighestPrice := HighestPrice p; LowestPrice := LowestPrice p;
     MaxDrawdown := MaxDrawdown p; MaxGainPercent := MaxGainPercent p;
     PartialExits := PartialExits p; Adjustments := Adjustments p;
     DCAEntries := DCAEntries p; HoldDuration := HoldDuration p |}.

Definition set_TotalFees v (p : t) : t :=
  {| Status := Status p; Side := Side p; EntryPrice := EntryPrice p;
     EntryQuantity := EntryQuantity p; EntryValue := EntryValue p;
     EntryFees := EntryFees p; EntryTime := EntryTime p;
     CurrentPrice := CurrentPrice p; CurrentQuantity := CurrentQuantity p;
     CurrentValue := CurrentValue p; LastPriceUpdate := LastPriceUpdate p;
     ExitValue := ExitValue p; ExitFees := ExitFees p;
     ExitTime := ExitTime p; StopLoss := StopLoss p;
     TakeProfit := TakeProfit p; TrailingStop := TrailingStop p;
     TrailingStopPrice := TrailingStopPrice p;
     UnrealizedPnL := UnrealizedPnL p;
     UnrealizedPnLPercent := UnrealizedPnLPercent p;
     RealizedPnL := RealizedPnL p;
     RealizedPnLPercent := RealizedPnLPercent p; TotalFees := v;
     ROI := ROI p; HighestValue := HighestValue p;
     LowestValue := LowestValue p; HighestPrice := HighestPrice p;
     LowestPrice := LowestPrice p; MaxDrawdown := MaxDrawdown p;
     MaxGainPercent := MaxGainPercent p; PartialExits := PartialExits p;
     Adjustments := Adjustments p; DCAEntries := DCAEntries p;
     HoldDuration := HoldDuration p |}.

Definition set_ROI v (p : t) : t :=
  {| Status := Status p; Side := Side p; EntryPrice := EntryPrice p;
     EntryQuantity := EntryQuantity p; EntryValue := EntryValue p;
     EntryFees := EntryFees p; EntryTime := EntryTime p;
     CurrentPrice := CurrentPrice p; CurrentQuantity := CurrentQuantity p;
     CurrentValue := CurrentValue p; LastPriceUpdate := LastPriceUpdate p;
     ExitValue := ExitValue p; ExitFees := ExitFees p;
     ExitTime := ExitTime p; StopLoss := StopLoss p;
     TakeProfit := TakeProfit p; TrailingStop := TrailingStop p;
     TrailingStopPrice := TrailingStopPrice p;
     UnrealizedPnL := UnrealizedPnL p;
     UnrealizedPnLPercent := UnrealizedPnLPercent p;
     RealizedPnL := RealizedPnL p;
     RealizedPnLPercent := RealizedPnLPercent p; TotalFees := TotalFees p;
     ROI := v; HighestValue := HighestValue p;
     LowestValue := LowestValue p; HighestPrice := HighestPrice p;
     LowestPrice := LowestPrice p; MaxDrawdown := MaxDrawdown p;
     MaxGainPercent := MaxGainPercent p; PartialExits := PartialExits p;
     Adjustments := Adjustments p; DCAEntries := DCAEntries p;
     HoldDuration := HoldDuration p |}.

Definition set_HighestValue v (p : t) : t :=
  {| Status := Status p; Side := Side p; EntryPrice := EntryPrice p;
     EntryQuantity := EntryQuantity p; EntryValue := EntryValue p;
     EntryFees := EntryFees p; EntryTime := EntryTime p;
     CurrentPrice := CurrentPrice p; CurrentQuantity := CurrentQuantity p;
     CurrentValue := CurrentValue p; LastPriceUpdate := LastPriceUpdate p;
     ExitValue := ExitValue p; ExitFees := ExitFees p;
     ExitTime := ExitTime p; StopLoss := StopLoss p;
     TakeProfit := TakeProfit p; TrailingStop := TrailingStop p;
     TrailingStopPrice := TrailingStopPrice p;
     UnrealizedPnL := UnrealizedPnL p;
     UnrealizedPnLPercent := UnrealizedPnLPercent p;
     RealizedPnL := RealizedPnL p;
     RealizedPnLPercent := RealizedPnLPercent p; TotalFees := TotalFees p;
     ROI := ROI p; HighestValue := v; LowestValue := LowestValue p;
     HighestPrice := HighestPrice p; LowestPrice := LowestPrice p;
     MaxDrawdown := MaxDrawdown p; MaxGainPercent := MaxGainPercent p;
     PartialExits := PartialExits p; Adjustments := Adjustments p;
     DCAEntries := DCAEntries p; HoldDuration := HoldDuration p |}.

Definition set_LowestValue v (p : t) : t :=
  {| Status := Status p; Side := Side p; EntryPrice := EntryPrice p;
     EntryQuantity := EntryQuantity p; EntryValue := EntryValue p;
     EntryFees := EntryFees p; EntryTime := EntryTime p;
     CurrentPrice := CurrentPrice p; CurrentQuantity := CurrentQuantity p;
     CurrentValue := CurrentValue p; LastPriceUpdate := LastPriceUpdate p;
     ExitValue := ExitValue p; ExitFees := ExitFees p;
     ExitTime := ExitTime p; StopLoss := StopLoss p;
     TakeProfit := TakeProfit p; TrailingStop := TrailingStop p;
     TrailingStopPrice := TrailingStopPrice p;
     UnrealizedPnL := UnrealizedPnL p;
     UnrealizedPnLPercent := UnrealizedPnLPercent p;
     RealizedPnL := RealizedPnL p;
     RealizedPnLPercent := RealizedPnLPercent p; TotalFees := TotalFees p;
     ROI := ROI p; HighestValue := HighestValue p; LowestValue := v;
     HighestPrice := HighestPrice p; LowestPrice := LowestPrice p;
     MaxDrawdown := MaxDrawdown p; MaxGainPercent := MaxGainPercent p;
     PartialExits := PartialExits p; Adjustments := Adjustments p;
     DCAEntries := DCAEntries p; HoldDuration := HoldDuration p |}.

Definition set_HighestPrice v (p : t) : t :=
  {| Status := Status p; Side := Side p; EntryPrice := EntryPrice p;
     EntryQuantity := EntryQuantity p; EntryValue := EntryValue p;
     EntryFees := EntryFees p; EntryTime := EntryTime p;
     CurrentPrice := CurrentPrice p; CurrentQuantity := CurrentQuantity p;
     CurrentValue := CurrentValue p; LastPriceUpdate := LastPriceUpdate p;
     ExitValue := ExitValue p; ExitFees := ExitFees p;
     ExitTime := ExitTime p; StopLoss := StopLoss p;
     TakeProfit := TakeProfit p; TrailingStop := TrailingStop p;
     TrailingStopPrice := TrailingStopPrice p;
     UnrealizedPnL := UnrealizedPnL p;
     UnrealizedPnLPercent := UnrealizedPnLPercent p;
     RealizedPnL := RealizedPnL p;
     RealizedPnLPercent := RealizedPnLPercent p; TotalFees := TotalFees p;
     ROI := ROI p; HighestValue := HighestValue p;
     LowestValue := LowestValue p; HighestPrice := v;
     LowestPrice := LowestPrice p; MaxDrawdown := MaxDrawdown p;
     MaxGainPercent := MaxGainPercent p; PartialExits := PartialExits p;
     Adjustments := Adjustments p; DCAEntries := DCAEntries p;
     HoldDuration := HoldDuration p |}.

Definition set_LowestPrice v (p : t) : t :=
  {| Status := Status p; Side := Side p; EntryPrice := EntryPrice p;
     EntryQuantity := EntryQuantity p; EntryValue := EntryValue p;
     EntryFees := EntryFees p; EntryTime := EntryTime p;
     CurrentPrice := CurrentPrice p; CurrentQuantity := CurrentQuantity p;
     CurrentValue := CurrentValue p; LastPriceUpdate := LastPriceUpdate p;
     ExitValue := ExitValue p; ExitFees := ExitFees p;
     ExitTime := ExitTime p; StopLoss := StopLoss p;
     TakeProfit := TakeProfit p; TrailingStop := TrailingStop p;
     TrailingStopPrice := TrailingStopPrice p;
     UnrealizedPnL := UnrealizedPnL p;
     UnrealizedPnLPercent := UnrealizedPnLPercent p;
     RealizedPnL := RealizedPnL p;
     RealizedPnLPercent := RealizedPnLPercent p; TotalFees := TotalFees p;
     ROI := ROI p; HighestValue := HighestValue p;
     LowestValue := LowestValue p; HighestPrice := HighestPrice p;
     LowestPrice := v; MaxDrawdown := MaxDrawdown p;
     MaxGainPercent := MaxGainPercent p; PartialExits := PartialExits p;
     Adjustments := Adjustments p; DCAEntries := DCAEntries p;
     HoldDuration := HoldDuration p |}.

Definition set_MaxDrawdown v (p : t) : t :=
  {| Status := Status p; Side := Side p; EntryPrice := EntryPrice p;
     EntryQuantity := EntryQuantity p; EntryValue := EntryValue p;
     EntryFees := EntryFees p; EntryTime := EntryTime p;
     CurrentPrice := CurrentPrice p; CurrentQuantity := CurrentQuantity p;
     CurrentValue := CurrentValue p; LastPriceUpdate := LastPriceUpdate p;
     ExitValue := ExitValue p; ExitFees := ExitFees p;
     ExitTime := ExitTime p; StopLoss := StopLoss p;
     TakeProfit := TakeProfit p; TrailingStop := TrailingStop p;
     TrailingStopPrice := TrailingStopPrice p;
     UnrealizedPnL := UnrealizedPnL p;
     UnrealizedPnLPercent := UnrealizedPnLPercent p;
     RealizedPnL := RealizedPnL p;
     RealizedPnLPercent := RealizedPnLPercent p; TotalFees := TotalFees p;
     ROI := ROI p; HighestValue := HighestValue p;
     LowestValue := LowestValue p; HighestPrice := HighestPrice p;
     LowestPrice := LowestPrice p; MaxDrawdown := v;
     MaxGainPercent := MaxGainPercent p; PartialExits := PartialExits p;
     Adjustments := Adjustments p; DCAEntries := DCAEntries p;
     HoldDuration := HoldDuration p |}.

Definition set_MaxGainPercent v (p : t) : t :=
  {| Status := Status p; Side := Side p; EntryPrice := EntryPrice p;
     EntryQuantity := EntryQuantity p; EntryValue := EntryValue p;
     EntryFees := EntryFees p; EntryTime := EntryTime p;
     CurrentPrice := CurrentPrice p; CurrentQuantity := CurrentQuantity p;
     CurrentValue := CurrentValue p; LastPriceUpdate := LastPriceUpdate p;
     ExitValue := ExitValue p; ExitFees := ExitFees p;
     ExitTime := ExitTime p; StopLoss := StopLoss p;
     TakeProfit := TakeProfit p; TrailingStop := TrailingStop p;
     TrailingStopPrice := TrailingStopPrice p;
     UnrealizedPnL := UnrealizedPnL p;
     UnrealizedPnLPercent := UnrealizedPnLPercent p;
     RealizedPnL := RealizedPnL p;
     RealizedPnLPercent := RealizedPnLPercent p; TotalFees := TotalFees p;
     ROI := ROI p; HighestValue := HighestValue p;
     LowestValue := LowestValue p; HighestPrice := HighestPrice p;
     LowestPrice := LowestPrice p; MaxDrawdown := MaxDrawdown p;
     MaxGainPercent := v; PartialExits := PartialExits p;
     Adjustments := Adjustments p; DCAEntries := DCAEntries p;
     HoldDuration := HoldDuration p |}.

Definition set_PartialExits v (p : t) : t :=
  {| Status := Status p; Side := Side p; EntryPrice := EntryPrice p;
     EntryQuantity := EntryQuantity p; EntryValue := EntryValue p;
     EntryFees := EntryFees p; EntryTime := EntryTime p;
     CurrentPrice := CurrentPrice p; CurrentQuantity := CurrentQuantity p;
     CurrentValue := CurrentValue p; LastPriceUpdate := LastPriceUpdate p;
     ExitValue := ExitValue p; ExitFees := ExitFees p;
     ExitTime := ExitTime p; StopLoss := StopLoss p;
     TakeProfit := TakeProfit p; TrailingStop := TrailingStop p;
     TrailingStopPrice := TrailingStopPrice p;
     UnrealizedPnL := UnrealizedPnL p;
     UnrealizedPnLPercent := UnrealizedPnLPercent p;
     RealizedPnL := RealizedPnL p;
     RealizedPnLPercent := RealizedPnLPercent p; TotalFees := TotalFees p;
     ROI := ROI p; HighestValue := HighestValue p;
     LowestValue := LowestValue p; HighestPrice := HighestPrice p;
     LowestPrice := LowestPrice p; MaxDrawdown := MaxDrawdown p;
     MaxGainPercent := MaxGainPercent p; PartialExits := v;
     Adjustments := Adjustments p; DCAEntries := DCAEntries p;
     HoldDuration := HoldDuration p |}.

Definition set_Adjustments v (p : t) : t :=
  {| Status := Status p; Side := Side p; EntryPrice := EntryPrice p;
     EntryQuantity := EntryQuantity p; EntryValue := EntryValue p;
     EntryFees := EntryFees p; EntryTime := EntryTime p;
     CurrentPrice := CurrentPrice p; CurrentQuantity := CurrentQuantity p;
     CurrentValue := CurrentValue p; LastPriceUpdate := LastPriceUpdate p;
     ExitValue := ExitValue p; ExitFees := ExitFees p;
     ExitTime := ExitTime p; StopLoss := StopLoss p;
     TakeProfit := TakeProfit p; TrailingStop := TrailingStop p;
     TrailingStopPrice := TrailingStopPrice p;
     UnrealizedPnL := UnrealizedPnL p;
     UnrealizedPnLPercent := UnrealizedPnLPercent p;
     RealizedPnL := RealizedPnL p;
     RealizedPnLPercent := RealizedPnLPercent p; TotalFees := TotalFees p;
     ROI := ROI p; HighestValue := HighestValue p;
     LowestValue := LowestValue p; HighestPrice := HighestPrice p;
     LowestPrice := LowestPrice p; MaxDrawdown := MaxDrawdown p;
     MaxGainPercent := MaxGainPercent p; PartialExits := PartialExits p;
     Adjustments := v; DCAEntries := DCAEntries p;
     HoldDuration := HoldDuration p |}.

Definition set_DCAEntries v (p : t) : t :=
  {| Status := Status p; Side := Side p; EntryPrice := EntryPrice p;
     EntryQuantity := EntryQuantity p; EntryValue := EntryValue p;
     EntryFees := EntryFees p; EntryTime := EntryTime p;
     CurrentPrice := CurrentPrice p; CurrentQuantity := CurrentQuantity p;
     CurrentValue := CurrentValue p; LastPriceUpdate := LastPriceUpdate p;
     ExitValue := ExitValue p; ExitFees := ExitFees p;
     ExitTime := ExitTime p; StopLoss := StopLoss p;
     TakeProfit := TakeProfit p; TrailingStop := TrailingStop p;
     TrailingStopPrice := TrailingStopPrice p;
     UnrealizedPnL := UnrealizedPnL p;
     UnrealizedPnLPercent := UnrealizedPnLPercent p;
     RealizedPnL := RealizedPnL p;
     RealizedPnLPercent := RealizedPnLPercent p; TotalFees := TotalFees p;
     ROI := ROI p; HighestValue := HighestValue p;
     LowestValue := LowestValue p; HighestPrice := HighestPrice p;
     LowestPrice := LowestPrice p; MaxDrawdown := MaxDrawdown p;
     MaxGainPercent := MaxGainPercent p; PartialExits := PartialExits p;
     Adjustments := Adjustments p; DCAEntries := v;
     HoldDuration := HoldDuration p |}.

Definition set_HoldDuration v (p : t) : t :=
  {| Status := Status p; Side := Side p; EntryPrice := EntryPrice p;
     EntryQuantity := EntryQuantity p; EntryValue := EntryValue p;
     EntryFees := EntryFees p; EntryTime := EntryTime p;
     CurrentPrice := CurrentPrice p; CurrentQuantity := CurrentQuantity p;
     CurrentValue := CurrentValue p; LastPriceUpdate := LastPriceUpdate p;
     ExitValue := ExitValue p; ExitFees := ExitFees p;
     ExitTime := ExitTime p; StopLoss := StopLoss p;
     TakeProfit := TakeProfit p; TrailingStop := TrailingStop p;
     TrailingStopPrice := TrailingStopPrice p;
     UnrealizedPnL := UnrealizedPnL p;
     UnrealizedPnLPercent := UnrealizedPnLPercent p;
     RealizedPnL := RealizedPnL p;
     RealizedPnLPercent := RealizedPnLPercent p; TotalFees := TotalFees p;
     ROI := ROI p; HighestValue := HighestValue p;
     LowestValue := LowestValue p; HighestPrice := HighestPrice p;
     LowestPrice := LowestPrice p; MaxDrawdown := MaxDrawdown p;
     MaxGainPercent := MaxGainPercent p; PartialExits := PartialExits p;
     Adjustments := Adjustments p; DCAEntries := DCAEntries p;
     HoldDuration := v |}.
(** [func (p *Position) BeforeCreate(tx *gorm.DB) error]; it always
    returns [nil], so only the updated position is kept.  The zero
    [time.Time] is the origin of the time line. *)
Definition BeforeCreate (now : Time) (p : t) : t :=
  let p := if (EntryTime p =? 0)%Z then set_EntryTime now p else p in
  let p := set_CurrentPrice (EntryPrice p) p in
  let p := set_CurrentQuantity (EntryQuantity p) p in
  let p := set_CurrentValue (EntryValue p) p in
  let p := set_LastPriceUpdate (EntryTime p) p in
  let p := set_HighestValue (EntryValue p) p in
  let p := set_LowestValue (EntryValue p) p in
  let p := set_HighestPrice (EntryPrice p) p in
  let p := set_LowestPrice (EntryPrice p) p in
  let p := set_TotalFees (EntryFees p) p in
  p.

(** [func (p *Position) updatePerformanceMetrics()] *)
Definition updatePerformanceMetrics (p : t) : t :=
  if String.eqb (Status p) PositionStatusOpen then
    let p := set_UnrealizedPnL
               ((CurrentPrice p - EntryPrice p) * CurrentQuantity p) p in
    let p := if fneqb (EntryValue p) 0
             then set_UnrealizedPnLPercent
                    ((UnrealizedPnL p / EntryValue p) * 100) p
             else p in
    let p := if fneqb (EntryValue p) 0
             then set_ROI
                    (((CurrentValue p - EntryValue p - TotalFees p)
                      / EntryValue p) * 100) p
             else p in
    p
  else if String.eqb (Status p) PositionStatusClosed then
    match ExitValue p with
    | Some exitValue =>
        let p := set_RealizedPnL (exitValue - EntryValue p - TotalFees p) p in
        let p := if fneqb (EntryValue p) 0
                 then set_RealizedPnLPercent
                        ((RealizedPnL p / EntryValue p) * 100) p
                 else p in
        let p := if fneqb (EntryValue p) 0
                 then set_ROI ((RealizedPnL p / EntryValue p) * 100) p
                 else p in
        p
    | None => p
    end
  else p.

(** [func (p *Position) updateTrackingValues()] *)
Definition updateTrackingValues (p : t) : t :=
  let p := if fgtb (CurrentValue p) (HighestValue p)
           then set_HighestValue (CurrentValue p) p else p in
  let p := if fgtb (CurrentPrice p) (HighestPrice p)
           then set_HighestPrice (CurrentPrice p) p else p in
  let p := if fltb (CurrentValue p) (LowestValue p)
           then set_LowestValue (CurrentValue p) p else p in
  let p := if fltb (CurrentPrice p) (LowestPrice p)
           then set_LowestPrice (CurrentPrice p) p else p in
  let p := if fgtb (HighestValue p) 0
           then
             let drawdown :=
               ((HighestValue p - CurrentValue p) / HighestValue p) * 100 in
             if fgtb drawdown (MaxDrawdown p)
             then set_MaxDrawdown drawdown p else p
           else p in
  let p := if fgtb (EntryValue p) 0
           then
             let maxGain :=
               ((HighestValue p - EntryValue p) / EntryValue p) * 100 in
             if fgtb maxGain (MaxGainPercent p)
             then set_MaxGainPercent maxGain p else p
           else p in
  p.

(** [func (p *Position) calculateTotalFees()] *)
Definition calculateTotalFees (p : t) : t :=
  let p := set_TotalFees (EntryFees p) p in
  let p := match ExitFees p with
           | Some exitFees => set_TotalFees (TotalFees p + exitFees) p
           | None => p
           end in
  let p := fold_left
             (fun p exit => set_TotalFees (TotalFees p + PartialExit.Fees exit) p)
             (PartialExits p) p in
  let p := fold_left
             (fun p entry => set_TotalFees (TotalFees p + DCAEntry.Fees entry) p)
             (DCAEntries p) p in
  p.

(** [func (p *Position) BeforeUpdate(tx *gorm.DB) error] (always [nil]). *)
Definition BeforeUpdate (now : Time) (p : t) : t :=
  let p := if String.eqb (Status p) PositionStatusOpen
           then set_HoldDuration (Since now (EntryTime p)) p
           else match ExitTime p with
                | Some exitTime => set_HoldDuration (Sub exitTime (EntryTime p)) p
                | None => p
                end in
  let p := updatePerformanceMetrics p in
  let p := updateTrackingValues p in
  let p := calculateTotalFees p in
  p.

(** [func (p *Position) UpdateCurrentPrice(price float64)] *)
Definition UpdateCurrentPrice (price : float64) (now : Time) (p : t) : t :=
  let p := set_CurrentPrice price p in
  let p := set_CurrentValue (price * CurrentQuantity p) p in
  let p := set_LastPriceUpdate now p in
  let p := updatePerformanceMetrics p in
  let p := updateTrackingValues p in
  p.

(** [func (p *Position) ShouldTriggerStopLoss() bool] *)
Definition ShouldTriggerStopLoss (p : t) : bool :=
  match StopLoss p with
  | None => false
  | Some stopLoss =>
      if negb (String.eqb (Status p) PositionStatusOpen) then false
      else if String.eqb (Side p) PositionSideLong
           then fleb (CurrentPrice p) stopLoss
      else if String.eqb (Side p) PositionSideShort
           then fleb stopLoss (CurrentPrice p)
      else false
  end.

(** [func (p *Position) ShouldTriggerTakeProfit() bool] *)
Definition ShouldTriggerTakeProfit (p : t) : bool :=
  match TakeProfit p with
  | None => false
  | Some takeProfit =>
      if negb (String.eqb (Status p) PositionStatusOpen) then false
      else if String.eqb (Side p) PositionSideLong
           then fleb takeProfit (CurrentPrice p)
      else if String.eqb (Side p) PositionSideShort
           then fleb (CurrentPrice p) takeProfit
      else false
  end.

(** [func (p *Position) UpdateTrailingStop()] *)
Definition UpdateTrailingStop (p : t) : t :=
  match TrailingStop p with
  | None => p
  | Some trailingStop =>
      if negb (String.eqb (Status p) PositionStatusOpen) then p
      else
        let trailingPercent := trailingStop / 100 in
        if String.eqb (Side p) PositionSideLong then
          let newStopPrice := CurrentPrice p * (1 - trailingPercent) in
          match TrailingStopPrice p with
          | None => set_TrailingStopPrice (Some newStopPrice) p
          | Some old =>
              if fgtb newStopPrice old
              then set_TrailingStopPrice (Some newStopPrice) p else p
          end
        else if String.eqb (Side p) PositionSideShort then
          let newStopPrice := CurrentPrice p * (1 + trailingPercent) in
          match TrailingStopPrice p with
          | None => set_TrailingStopPrice (Some newStopPrice) p
          | Some old =>
              if fltb newStopPrice old
              then set_TrailingStopPrice (Some newStopPrice) p else p
          end
        else p
  end.

(** [func (p *Position) ShouldTriggerTrailingStop() bool] *)
Definition ShouldTriggerTrailingStop (p : t) : bool :=
  match TrailingStopPrice p with
  | None => false
  | Some trailingStopPrice =>
      if negb (String.eqb (Status p) PositionStatusOpen) then false
      else if String.eqb (Side p) PositionSideLong
           then fleb (CurrentPrice p) trailingStopPrice
      else if String.eqb (Side p) PositionSideShort
           then fleb trailingStopPrice (CurrentPrice p)
      else false
  end.

(** [func (p *Position) AddPartialExit(exit PartialExit)].  The method
    has no result: it cannot report a failure. *)
Definition AddPartialExit (exit : PartialExit.t) (p : t) : t :=
  let p := set_PartialExits (PartialExits p ++ [exit]) p in
  let p := set_CurrentQuantity
             (CurrentQuantity p - PartialExit.Quantity exit) p in
  let p := set_CurrentValue (CurrentPrice p * CurrentQuantity p) p in
  let p := set_RealizedPnL (RealizedPnL p + PartialExit.PnL exit) p in
  if fleb (CurrentQuantity p) 0 then
    let p := set_Status PositionStatusClosed p in
    let p := set_CurrentQuantity 0 p in
    let p := set_CurrentValue 0 p in
    p
  else if (0 <? List.length (PartialExits p))%nat then
    set_Status PositionStatusPartial p
  else p.

(** [func (p *Position) AddDCAEntry(entry DCAEntry)] *)
Definition AddDCAEntry (entry : DCAEntry.t) (p : t) : t :=
  let p := set_DCAEntries (DCAEntries p ++ [entry]) p in
  let totalValue := EntryValue p + DCAEntry.Value entry in
  let totalQuantity := EntryQuantity p + DCAEntry.Quantity entry in
  let p := set_EntryPrice (totalValue / totalQuantity) p in
  let p := set_EntryQuantity totalQuantity p in
  let p := set_EntryValue totalValue p in
  let p := set_CurrentQuantity totalQuantity p in
  let p := set_EntryFees (EntryFees p + DCAEntry.Fees entry) p in
  p.

(** [func (p *Position) AddAdjustment(adjustment PositionAdjustment)] *)
Definition AddAdjustment (adjustment : PositionAdjustment.t) (p : t) : t :=
  let p := set_Adjustments (Adjustments p ++ [adjustment]) p in
  let ty := PositionAdjustment.Type_ adjustment in
  if String.eqb ty "stop_loss" then
    set_StopLoss (Some (PositionAdjustment.NewValue adjustment)) p
  else if String.eqb ty "take_profit" then
    set_TakeProfit (Some (PositionAdjustment.NewValue adjustment)) p
  else if String.eqb ty "trailing_stop" then
    set_TrailingStop (Some (PositionAdjustment.NewValue adjustment)) p
  else p.

(** [func (p *Position) GetCurrentPnL() float64] *)
Definition GetCurrentPnL (p : t) : float64 :=
  if String.eqb (Status p) PositionStatusOpen then UnrealizedPnL p
  else RealizedPnL p.

(** The mutating operations of a position, as one type, and their
    application. *)
Inductive Op :=
| OpBeforeCreate (now : Time)
| OpBeforeUpdate (now : Time)
| OpUpdateCurrentPrice (price : float64) (now : Time)
| OpUpdateTrailingStop
| OpAddPartialExit (exit : PartialExit.t)
| OpAddDCAEntry (entry : DCAEntry.t)
| OpAddAdjustment (adjustment : PositionAdjustment.t).

Definition apply (p : t) (op : Op) : t :=
  match op with
  | OpBeforeCreate now => BeforeCreate now p
  | OpBeforeUpdate now => BeforeUpdate now p
  | OpUpdateCurrentPrice price now => UpdateCurrentPrice price now p
  | OpUpdateTrailingStop => UpdateTrailingStop p
  | OpAddPartialExit exit => AddPartialExit exit p
  | OpAddDCAEntry entry => AddDCAEntry entry p
  | OpAddAdjustment adjustment => AddAdjustment adjustment p
  end.

(** A run of operations, applied left to right. *)
Definition run (p : t) (ops : list Op) : t := fold_left apply ops p.

(** The sum of the quantities of the recorded partial exits. *)
Definition exitedQuantity (p : t) : float64 :=
  fold_right (fun exit acc => PartialExit.Quantity exit + acc) 0
             (PartialExits p).

(** [func (p *Position) GetCurrentPnLPercent() float64] *)
Definition GetCurrentPnLPercent (p : t) : float64 :=
  if String.eqb (Status p) PositionStatusOpen then UnrealizedPnLPercent p
  else RealizedPnLPercent p.

(** [func (p *Position) IsProfit() bool] *)
Definition IsProfit (p : t) : bool := fgtb (GetCurrentPnL p) 0.

(** [func (p *Position) GetRiskExposure() float64] *)
Definition GetRiskExposure (p : t) : float64 :=
  if negb (String.eqb (Status p) PositionStatusOpen) then 0
  else match StopLoss p with
       | Some stopLoss =>
           let stopLossValue := stopLoss * CurrentQuantity p in
           CurrentValue p - stopLossValue
       | None => CurrentValue p
       end.

End Position.


(** ** Rounded arithmetic *)

(** The four operations of [float64], as they act on the values of the
    model.  The methods of [Position] above are written with the exact
    operations of the rationals; [RoundedPosition] below is the same code
    over any four operations, each applied once per operation of the source
    (Go rounds every operation separately on amd64; fused operations are
    outside the model). *)
Module Arith.
Record t := mk {
  add : float64 -> float64 -> float64;
  sub : float64 -> float64 -> float64;
  mul : float64 -> float64 -> float64;
  div : float64 -> float64 -> float64
}.

(** The arithmetic of the rationals. *)
Definition exact : t := mk Qplus Qminus Qmult Qdiv.
End Arith.

(** The integer nearest to [n / d] for [d > 0], ties to even. *)
Definition round_half_even (n d : Z) : Z :=
  let q := (n / d)%Z in
  let r := (n mod d)%Z in
  if (2 * r <? d)%Z then q
  else if (d <? 2 * r)%Z then (q + 1)%Z
  else if Z.even q then q else (q + 1)%Z.

(** [floor (log2 |x|)] for [x <> 0]. *)
Definition exponent_of (x : Q) : Z :=
  let a := (Z.log2 (Z.abs (Qnum x)) - Z.log2 (Zpos (Qden x)))%Z in
  if Qle_bool (2 ^ a) (Qabs x) then a else (a - 1)%Z.

(** Rounding to the nearest number with a significand of 53 bits, ties to
    even: the rounding of binary64 on the range of its normal numbers (the
    exponent is not bounded here, so overflow and gradual underflow are not
    modelled). *)
Definition binary64 (x : Q) : float64 :=
  if Qeq_bool x 0 then 0
  else
    let k := (exponent_of x - 52)%Z in
    let y := x / 2 ^ k in
    inject_Z (round_half_even (Qnum y) (Zpos (Qden y))) * 2 ^ k.


(** The arithmetic of binary64: the exact result, rounded. *)
Definition binary64_arith : Arith.t :=
  Arith.mk (fun x y => binary64 (x + y)) (fun x y => binary64 (x - y))
           (fun x y => binary64 (x * y)) (fun x y => binary64 (x / y)).

(** An operation whose result is within the relative error [u] of the
    exact one. *)
Definition rounds_within (u : Q) (op exact : Q -> Q -> Q) : Prop :=
  forall x y : Q, Qabs (op x y - exact x y) <= u * Qabs (exact x y).

(** The value of a float of the kernel, when it is finite. *)
Definition Q_of_float (f : PrimFloat.float) : option Q :=
  match FloatOps.Prim2SF f with
  | SpecFloat.S754_zero _ => Some 0
  | SpecFloat.S754_finite s m e =>
      let v := inject_Z (Zpos m) * 2 ^ e in
      Some (if s then - v else v)
  | _ => None
  end.

(** ** Position over rounded arithmetic *)

Module RoundedPosition.
Import Position.

Section WithArithmetic.

Variable ar : Arith.t.

Local Notation "x +! y" := (Arith.add ar x y)
  (at level 50, left associativity).
Local Notation "x -! y" := (Arith.sub ar x y)
  (at level 50, left associativity).
Local Notation "x *! y" := (Arith.mul ar x y)
  (at level 40, left associativity).
Local Notation "x /! y" := (Arith.div ar x y)
  (at level 40, left associativity).

(** [func (p *Position) updatePerformanceMetrics()] *)
Definition updatePerformanceMetrics (p : t) : t :=
  if String.eqb (Status p) PositionStatusOpen then
    let p := set_UnrealizedPnL
               ((CurrentPrice p -! EntryPrice p) *! CurrentQuantity p) p in
    let p := if fneqb (EntryValue p) 0
             then set_UnrealizedPnLPercent
                    ((UnrealizedPnL p /! EntryValue p) *! 100) p
             else p in
    let p := if fneqb (EntryValue p) 0
             then set_ROI
                    (((CurrentValue p -! EntryValue p -! TotalFees p)
                      /! EntryValue p) *! 100) p
             else p in
    p
  else if String.eqb (Status p) PositionStatusClosed then
    match ExitValue p with
    | Some exitValue =>
        let p := set_RealizedPnL
                   (exitValue -! EntryValue p -! TotalFees p) p in
        let p := if fneqb (EntryValue p) 0
                 then set_RealizedPnLPercent
                        ((RealizedPnL p /! EntryValue p) *! 100) p
                 else p in
        let p := if fneqb (EntryValue p) 0
                 then set_ROI ((RealizedPnL p /! EntryValue p) *! 100) p
                 else p in
        p
    | None => p
    end
  else p.

(** [func (p *Position) updateTrackingValues()] *)
Definition updateTrackingValues (p : t) : t :=
  let p := if fgtb (CurrentValue p) (HighestValue p)
           then set_HighestValue (CurrentValue p) p else p in
  let p := if fgtb (CurrentPrice p) (HighestPrice p)
           then set_HighestPrice (CurrentPrice p) p else p in
  let p := if fltb (CurrentValue p) (LowestValue p)
           then set_LowestValue (CurrentValue p) p else p in
  let p := if fltb (CurrentPrice p) (LowestPrice p)
           then set_LowestPrice (CurrentPrice p) p else p in
  let p := if fgtb (HighestValue p) 0
           then
             let drawdown :=
               ((HighestValue p -! CurrentValue p) /! HighestValue p)
               *! 100 in
             if fgtb drawdown (MaxDrawdown p)
             then set_MaxDrawdown drawdown p else p
           else p in
  let p := if fgtb (EntryValue p) 0
           then
             let maxGain :=
               ((HighestValue p -! EntryValue p) /! EntryValue p) *! 100 in
             if fgtb maxGain (MaxGainPercent p)
             then set_MaxGainPercent maxGain p else p
           else p in
  p.

(** [func (p *Position) calculateTotalFees()] *)
Definition calculateTotalFees (p : t) : t :=
  let p := set_TotalFees (EntryFees p) p in
  let p := match ExitFees p with
           | Some exitFees => set_TotalFees (TotalFees p +! exitFees) p
           | None => p
           end in
  let p := fold_left
             (fun p exit =>
                set_TotalFees (TotalFees p +! PartialExit.Fees exit) p)
             (PartialExits p) p in
  let p := fold_left
             (fun p entry =>
                set_TotalFees (TotalFees p +! DCAEntry.Fees entry) p)
             (DCAEntries p) p in
  p.

(** [func (p *Position) BeforeUpdate(tx *gorm.DB) error] (always [nil]). *)
Definition BeforeUpdate (now : Time) (p : t) : t :=
  let p := if String.eqb (Status p) PositionStatusOpen
           then set_HoldDuration (Since now (EntryTime p)) p
           else match ExitTime p with
                | Some exitTime =>
                    set_HoldDuration (Sub exitTime (EntryTime p)) p
                | None => p
                end in
  let p := updatePerformanceMetrics p in
  let p := updateTrackingValues p in
  let p := calculateTotalFees p in
  p.

(** [func (p *Position) UpdateCurrentPrice(price float64)] *)
Definition UpdateCurrentPrice (price : float64) (now : Time) (p : t) : t :=
  let p := set_CurrentPrice price p in
  let p := set_CurrentValue (price *! CurrentQuantity p) p in
  let p := set_LastPriceUpdate now p in
  let p := updatePerformanceMetrics p in
  let p := updateTrackingValues p in
  p.

(** [func (p *Position) UpdateTrailingStop()] *)
Definition UpdateTrailingStop (p : t) : t :=
  match TrailingStop p with
  | None => p
  | Some trailingStop =>
      if negb (String.eqb (Status p) PositionStatusOpen) then p
      else
        let trailingPercent := trailingStop /! 100 in
        if String.eqb (Side p) PositionSideLong then
          let newStopPrice := CurrentPrice p *! (1 -! trailingPercent) in
          match TrailingStopPrice p with
          | None => set_TrailingStopPrice (Some newStopPrice) p
          | Some old =>
              if fgtb newStopPrice old
              then set_TrailingStopPrice (Some newStopPrice) p else p
          end
        else if String.eqb (Side p) PositionSideShort then
          let newStopPrice := CurrentPrice p *! (1 +! trailingPercent) in
          match TrailingStopPrice p with
          | None => set_TrailingStopPrice (Some newStopPrice) p
          | Some old =>
              if fltb newStopPrice old
              then set_TrailingStopPrice (Some newStopPrice) p else p
          end
        else p
  end.

(** [func (p *Position) AddPartialExit(exit PartialExit)] *)
Definition AddPartialExit (exit : PartialExit.t) (p : t) : t :=
  let p := set_PartialExits (PartialExits p ++ [exit]) p in
  let p := set_CurrentQuantity
             (CurrentQuantity p -! PartialExit.Quantity exit) p in
  let p := set_CurrentValue (CurrentPrice p *! CurrentQuantity p) p in
  let p := set_RealizedPnL (RealizedPnL p +! PartialExit.PnL exit) p in
  if fleb (CurrentQuantity p) 0 then
    let p := set_Status PositionStatusClosed p in
    let p := set_CurrentQuantity 0 p in
    let p := set_CurrentValue 0 p in
    p
  else if (0 <? List.length (PartialExits p))%nat then
    set_Status PositionStatusPartial p
  else p.

(** [func (p *Position) AddDCAEntry(entry DCAEntry)] *)
Definition AddDCAEntry (entry : DCAEntry.t) (p : t) : t :=
  let p := set_DCAEntries (DCAEntries p ++ [entry]) p in
  let totalValue := EntryValue p +! DCAEntry.Value entry in
  let totalQuantity := EntryQuantity p +! DCAEntry.Quantity entry in
  let p := set_EntryPrice (totalValue /! totalQuantity) p in
  let p := set_EntryQuantity totalQuantity p in
  let p := set_EntryValue totalValue p in
  let p := set_CurrentQuantity totalQuantity p in
  let p := set_EntryFees (EntryFees p +! DCAEntry.Fees entry) p in
  p.

(** [func (p *Position) GetRiskExposure() float64] *)
Definition GetRiskExposure (p : t) : float64 :=
  if negb (String.eqb (Status p) PositionStatusOpen) then 0
  else match StopLoss p with
       | Some stopLoss =>
           let stopLossValue := stopLoss *! CurrentQuantity p in
           CurrentValue p -! stopLossValue
       | None => CurrentValue p
       end.

(** The application of an operation; [BeforeCreate] and [AddAdjustment]
    do no arithmetic. *)
Definition apply (p : t) (op : Op) : t :=
  match op with
  | OpBeforeCreate now => BeforeCreate now p
  | OpBeforeUpdate now => BeforeUpdate now p
  | OpUpdateCurrentPrice price now => UpdateCurrentPrice price now p
  | OpUpdateTrailingStop => UpdateTrailingStop p
  | OpAddPartialExit exit => AddPartialExit exit p
  | OpAddDCAEntry entry => AddDCAEntry entry p
  | OpAddAdjustment adjustment => AddAdjustment adjustment p
  end.

(** A run of operations, applied left to right. *)
Definition run (p : t) (ops : list Op) : t := fold_left apply ops p.

End WithArithmetic.

End RoundedPosition.
(** ** Concrete inputs *)

(** A buy requested at 100 and executed at price 0. *)
Definition trade_executed_at_zero : Trade.t :=
  Trade.mk TradeSideBuy TradeStatusExecuted 1 100 1 0 0 3.

(** A buy requested at 100 and executed at 110. *)
Definition trade_buy_110 : Trade.t :=
  Trade.mk TradeSideBuy TradeStatusExecuted 1 100 1 110 0 3.

(** A division that answers 1 on a zero divisor. *)
Definition fdiv_one_at_zero (x y : float64) : float64 :=
  if feqb y 0 then 1 else x / y.

(** The riskiest token: honeypot, unlocked liquidity, owner not renounced,
    no market cap, extreme volatility, launched an hour ago, no pool, no
    holder, failed audit, no social presence. *)
Definition token_worst : Token.t :=
  Token.mk 0 (Some 0%Z) (SecurityInfo.mk true false false AuditFailed)
           [] (SocialInfo.mk 0) 0 0 EmptyString 100.

(** The safest token: every delta of the scorer is at its lowest. *)
Definition token_best : Token.t :=
  Token.mk 1000000 None (SecurityInfo.mk false true true AuditPassed)
           [LiquidityPool.mk 500] (SocialInfo.mk 9) 5000 0 EmptyString 10.

(** A token that only carries a score. *)
Definition token_scored (score : float64) : Token.t :=
  Token.mk 0 None (SecurityInfo.mk false false false AuditPending)
           [] (SocialInfo.mk 0) 0 score EmptyString 0.

(** A long position of 10 units entered at 100, as submitted for creation
    at time 1000, and the same position once created. *)
Definition position_request : Position.t :=
  {| Position.Status := PositionStatusOpen;
     Position.Side := PositionSideLong;
     Position.EntryPrice := 100; Position.EntryQuantity := 10;
     Position.EntryValue := 1000; Position.EntryFees := 0;
     Position.EntryTime := 1000%Z;
     Position.CurrentPrice := 0; Position.CurrentQuantity := 0;
     Position.CurrentValue := 0; Position.LastPriceUpdate := 0%Z;
     Position.ExitValue := None; Position.ExitFees := None;
     Position.ExitTime := None;
     Position.StopLoss := Some 90; Position.TakeProfit := None;
     Position.TrailingStop := Some 10; Position.TrailingStopPrice := None;
     Position.UnrealizedPnL := 0; Position.UnrealizedPnLPercent := 0;
     Position.RealizedPnL := 0; Position.RealizedPnLPercent := 0;
     Position.TotalFees := 0; Position.ROI := 0;
     Position.HighestValue := 0; Position.LowestValue := 0;
     Position.HighestPrice := 0; Position.LowestPrice := 0;
     Position.MaxDrawdown := 0; Position.MaxGainPercent := 0;
     Position.PartialExits := []; Position.Adjustments := [];
     Position.DCAEntries := []; Position.HoldDuration := 0%Z |}.

Definition position_10_at_100 : Position.t :=
  Position.BeforeCreate 1000%Z position_request.

(** A partial exit of the given quantity at price 110. *)
Definition exit_of (quantity : float64) : PartialExit.t :=
  PartialExit.mk 2000%Z quantity 110 (110 * quantity) 0
                 ((110 - 100) * quantity) 10.

(** A DCA entry of the given quantity at price 80. *)
Definition dca_of (quantity : float64) : DCAEntry.t :=
  DCAEntry.mk 3000%Z quantity 80 (80 * quantity) 0.

(** ** Vocabulary of the statements *)

(** The fields that a price update leaves alone: the status, the side, the
    entry aggregate, the remaining quantity, the recorded exits and the
    trailing-stop settings. *)
Definition same_ledger (p p' : Position.t) : Prop :=
  Position.Status p' = Position.Status p /\
  Position.Side p' = Position.Side p /\
  Position.EntryPrice p' = Position.EntryPrice p /\
  Position.EntryQuantity p' = Position.EntryQuantity p /\
  Position.EntryValue p' = Position.EntryValue p /\
  Position.CurrentQuantity p' = Position.CurrentQuantity p /\
  Position.PartialExits p' = Position.PartialExits p /\
  Position.TrailingStop p' = Position.TrailingStop p /\
  Position.TrailingStopPrice p' = Position.TrailingStopPrice p.


(** The operations that write the current quantity from the entry
    quantity. *)
Definition sets_quantity_from_entry (op : Position.Op) : bool :=
  match op with
  | Position.OpBeforeCreate _ | Position.OpAddDCAEntry _ => true
  | _ => false
  end.

(** The quantity that an operation adds to the entry quantity. *)
Definition added_quantity (op : Position.Op) : float64 :=
  match op with
  | Position.OpAddDCAEntry entry => DCAEntry.Quantity entry
  | _ => 0
  end.




(** The sum of the recorded exit quantities and the current quantity,
    less the entry quantity: zero when the ledger balances. *)
Definition ledger_gap (p : Position.t) : Q :=
  Position.exitedQuantity p + Position.CurrentQuantity p
  - Position.EntryQuantity p.



(** A long position of half a unit entered at 100, as created at time
    1000. *)
Definition position_half_at_100 : Position.t :=
  Position.BeforeCreate 1000%Z
    (Position.set_EntryValue 50
       (Position.set_EntryQuantity (1 # 2) position_request)).

(** A partial exit at price 110 whose quantity, value and profit are the
    binary64 numbers nearest to the given quantity and to its products. *)
Definition exit_binary64 (quantity : Q) : PartialExit.t :=
  PartialExit.mk 2000%Z (binary64 quantity) 110
                 (binary64 (110 * binary64 quantity)) 0
                 (binary64 (10 * binary64 quantity)) 10.

(** A run within the conditions of conservation, in binary64: a price
    update, a DCA entry of half a unit (the position then holds 1), an
    exit of 0.3, another price update, and an exit of 0.4. *)
Definition conserving_ops_example : list Position.Op :=
  [Position.OpUpdateCurrentPrice 110 1500%Z;
   Position.OpAddDCAEntry (DCAEntry.mk 3000%Z (1 # 2) 80 40 0);
   Position.OpAddPartialExit (exit_binary64 (3 # 10));
   Position.OpUpdateCurrentPrice 120 2500%Z;
   Position.OpAddPartialExit (exit_binary64 (4 # 10))].

(** Floats of the kernel built from 1 and 2: 0.1, 0.3, 0.4, 1/3, 100 and
    1.1 * 100. *)
Definition kernel_samples : list PrimFloat.float :=
  let one := PrimFloat.one in
  let two := PrimFloat.two in
  let three := PrimFloat.add two one in
  let four := PrimFloat.add two two in
  let ten := PrimFloat.mul (PrimFloat.add four one) two in
  let hundred := PrimFloat.mul ten ten in
  [PrimFloat.div one ten; PrimFloat.div three ten; PrimFloat.div four ten;
   PrimFloat.div one three; hundred;
   PrimFloat.mul (PrimFloat.add one (PrimFloat.div one ten)) hundred].

(** Whether an operation of the kernel's floats and the rounded operation
    on the rationals give the same number on two finite floats. *)
Definition agrees_on
           (kernel : PrimFloat.float -> PrimFloat.float -> PrimFloat.float)
           (rounded : Q -> Q -> Q) (x y : PrimFloat.float) : bool :=
  match Q_of_float x, Q_of_float y, Q_of_float (kernel x y) with
  | Some a, Some b, Some c => Qeq_bool c (rounded a b)
  | _, _, _ => false
  end.

(** The same quantities as in the example run, in the floats of the
    kernel: 0.5 + 0.5, less the float nearest 0.3, less the float nearest
    0.4. *)
Definition kernel_residual : PrimFloat.float :=
  let one := PrimFloat.one in
  let two := PrimFloat.two in
  let three := PrimFloat.add two one in
  let four := PrimFloat.add two two in
  let ten := PrimFloat.mul (PrimFloat.add four one) two in
  let half := PrimFloat.div one two in
  PrimFloat.sub
    (PrimFloat.sub (PrimFloat.add half half) (PrimFloat.div three ten))
    (PrimFloat.div four ten).

(** The order on an optional trailing-stop price: an unset price is below
    everything, and a set price is never followed by an unset one. *)
Definition stop_le (a b : option float64) : Prop :=
  match a, b with
  | None, _ => True
  | Some x, Some y => x <= y
  | Some _, None => False
  end.

(** Price updates and trailing-stop updates, in any interleaving. *)
Definition is_price_feed (op : Position.Op) : bool :=
  match op with
  | Position.OpUpdateCurrentPrice _ _ | Position.OpUpdateTrailingStop => true
  | _ => false
  end.

(** The price ticks 110, 130, 90, each followed by a trailing-stop update. *)
Definition feed_110_130_90 : list Position.Op :=
  [Position.OpUpdateCurrentPrice 110 1100%Z; Position.OpUpdateTrailingStop;
   Position.OpUpdateCurrentPrice 130 1200%Z; Position.OpUpdateTrailingStop;
   Position.OpUpdateCurrentPrice 90 1300%Z; Position.OpUpdateTrailingStop].

(** A series of price ticks, as operations. *)
Definition price_ticks (ticks : list (float64 * Time)) : list Position.Op :=
  map (fun tick => Position.OpUpdateCurrentPrice (fst tick) (snd tick)) ticks.

(** * The rest of the models package *)

(** ** Package-level helpers (token.go, trade.go, position.go) *)

(** [func GetTokenRiskColor(riskLevel RiskLevel) string] *)
Definition GetTokenRiskColor (riskLevel : RiskLevel) : string :=
  if String.eqb riskLevel RiskLevelVeryLow then "#00FF00"%string
  else if String.eqb riskLevel RiskLevelLow then "#90EE90"%string
  else if String.eqb riskLevel RiskLevelMedium then "#FFD700"%string
  else if String.eqb riskLevel RiskLevelHigh then "#FFA500"%string
  else if String.eqb riskLevel RiskLevelVeryHigh then "#FF4500"%string
  else if String.eqb riskLevel RiskLevelExtreme then "#FF0000"%string
  else "#808080"%string.

(** [func CalculatePriceChange(oldPrice, newPrice float64) float64] *)
Definition CalculatePriceChange (oldPrice newPrice : float64) : float64 :=
  if feqb oldPrice 0 then 0
  else ((newPrice - oldPrice) / oldPrice) * 100.

(** [float64(n)] for an integer [n] (exact in the model). *)
Definition float64_of_int (n : Z) : float64 := inject_Z n.

(** [func CalculateWinRate(successfulTrades, totalTrades int64) float64] *)
Definition CalculateWinRate (successfulTrades totalTrades : Z) : float64 :=
  if (totalTrades =? 0)%Z then 0
  else (float64_of_int successfulTrades / float64_of_int totalTrades) * 100.



(** [func CalculateStopLossLevel(entryPrice float64, stopLossPercent
    float64, side PositionSide) float64] *)
Definition CalculateStopLossLevel
           (entryPrice stopLossPercent : float64) (side : PositionSide)
  : float64 :=
  if String.eqb side PositionSideLong
  then entryPrice * (1 - stopLossPercent / 100)
  else if String.eqb side PositionSideShort
  then entryPrice * (1 + stopLossPercent / 100)
  else entryPrice.

(** [func CalculateTakeProfitLevel(entryPrice float64, takeProfitPercent
    float64, side PositionSide) float64] *)
Definition CalculateTakeProfitLevel
           (entryPrice takeProfitPercent : float64) (side : PositionSide)
  : float64 :=
  if String.eqb side PositionSideLong
  then entryPrice * (1 + takeProfitPercent / 100)
  else if String.eqb side PositionSideShort
  then entryPrice * (1 - takeProfitPercent / 100)
  else entryPrice.


(** [func GetPositionHealthStatus(position *Position) string] *)
Definition GetPositionHealthStatus (position : Position.t) : string :=
  if negb (String.eqb (Position.Status position) PositionStatusOpen)
  then "closed"%string
  else
    let currentPnLPercent := Position.GetCurrentPnLPercent position in
    if fleb 20 currentPnLPercent then "excellent"%string
    else if fleb 10 currentPnLPercent then "very_good"%string
    else if fleb 5 currentPnLPercent then "good"%string
    else if fleb 0 currentPnLPercent then "neutral"%string
    else if fleb (-10) currentPnLPercent then "concerning"%string
    else if fleb (-20) currentPnLPercent then "poor"%string
    else "critical"%string.

(** ** User (user.go) *)

Definition UserStatus := string.
Definition UserStatusActive : UserStatus := "active"%string.
Definition UserStatusInactive : UserStatus := "inactive"%string.
Definition UserStatusSuspended : UserStatus := "suspended"%string.
Definition UserStatusBanned : UserStatus := "banned"%string.
Definition UserStatusPending : UserStatus := "pending"%string.

Definition SubscriptionType := string.
Definition SubscriptionFree : SubscriptionType := "free"%string.
Definition SubscriptionBasic : SubscriptionType := "basic"%string.
Definition SubscriptionPremium : SubscriptionType := "premium"%string.
Definition SubscriptionPro : SubscriptionType := "pro"%string.
Definition SubscriptionEnterprise : SubscriptionType := "enterprise"%string.

Definition WalletStatus := string.
Definition WalletStatusNotConnected : WalletStatus := "not_connected"%string.
Definition WalletStatusConnected : WalletStatus := "connected"%string.
Definition WalletStatusEncrypted : WalletStatus := "encrypted"%string.
Definition WalletStatusLocked : WalletStatus := "locked"%string.
Definition WalletStatusError : WalletStatus := "error"%string.

Module LoginRecord.
Record t := mk {
  Timestamp : Time;
  IPAddress : string;
  UserAgent : string;
  Location : string;
  Success : bool
}.
End LoginRecord.

Module User.

(** The fields of [User] read or written by the methods modelled here. *)
Record t := mk {
  Status : UserStatus;
  IsActive : bool;
  SubscriptionType : SubscriptionType;
  SubscriptionExpiry : option Time;
  WalletStatus : WalletStatus;
  TotalTrades : Z;
  SuccessfulTrades : Z;
  TotalVolume : float64;
  TotalProfit : float64;
  TotalLoss : float64;
  WinRate : float64;
  AverageProfit : float64;
  LoginHistory : list LoginRecord.t
}.

Definition set_WinRate v (u : t) : t :=
  {| Status := Status u; IsActive := IsActive u;
     SubscriptionType := SubscriptionType u;
     SubscriptionExpiry := SubscriptionExpiry u;
     WalletStatus := WalletStatus u; TotalTrades := TotalTrades u;
     SuccessfulTrades := SuccessfulTrades u; TotalVolume := TotalVolume u;
     TotalProfit := TotalProfit u; TotalLoss := TotalLoss u; WinRate := v;
     AverageProfit := AverageProfit u; LoginHistory := LoginHistory u |}.

Definition set_AverageProfit v (u : t) : t :=
  {| Status := Status u; IsActive := IsActive u;
     SubscriptionType := SubscriptionType u;
     SubscriptionExpiry := SubscriptionExpiry u;
     WalletStatus := WalletStatus u; TotalTrades := TotalTrades u;
     SuccessfulTrades := SuccessfulTrades u; TotalVolume := TotalVolume u;
     TotalProfit := TotalProfit u; TotalLoss := TotalLoss u;
     WinRate := WinRate u; AverageProfit := v;
     LoginHistory := LoginHistory u |}.

Definition set_LoginHistory v (u : t) : t :=
  {| Status := Status u; IsActive := IsActive u;
     SubscriptionType := SubscriptionType u;
     SubscriptionExpiry := SubscriptionExpiry u;
     WalletStatus := WalletStatus u; TotalTrades := TotalTrades u;
     SuccessfulTrades := SuccessfulTrades u; TotalVolume := TotalVolume u;
     TotalProfit := TotalProfit u; TotalLoss := TotalLoss u;
     WinRate := WinRate u; AverageProfit := AverageProfit u;
     LoginHistory := v |}.

(** [func (u *User) BeforeUpdate(tx *gorm.DB) error] (always [nil]). *)
Definition BeforeUpdate (u : t) : t :=
  let u := if (0 <? TotalTrades u)%Z
           then set_WinRate
                  ((float64_of_int (SuccessfulTrades u)
                    / float64_of_int (TotalTrades u)) * 100) u
           else u in
  let u := if (0 <? SuccessfulTrades u)%Z
           then set_AverageProfit
                  (TotalProfit u / float64_of_int (SuccessfulTrades u)) u
           else u in
  u.

(** [func (u *User) IsSubscriptionValid() bool]; [Time.After] is a strict
    comparison. *)
Definition IsSubscriptionValid (now : Time) (u : t) : bool :=
  if String.eqb (SubscriptionType u) SubscriptionFree then true
  else match SubscriptionExpiry u with
       | None => false
       | Some expiry => (now <? expiry)%Z
       end.

(** [func (u *User) CanTrade() bool] *)
Definition CanTrade (now : Time) (u : t) : bool :=
  if negb (IsActive u) || negb (String.eqb (Status u) UserStatusActive)
  then false
  else if negb (String.eqb (WalletStatus u) WalletStatusConnected)
          && negb (String.eqb (WalletStatus u) WalletStatusEncrypted)
  then false
  else if negb (IsSubscriptionValid now u)
          && negb (String.eqb (SubscriptionType u) SubscriptionFree)
  then false
  else true.

(** The in-memory part of [func (u *User) UpdateLoginInfo(tx *gorm.DB,
    ipAddress, userAgent string) error]: the login history kept on the
    struct.  (The method then writes the row through [tx] and returns the
    error of that write.) *)
Definition UpdateLoginInfo (now : Time) (ipAddress userAgent : string)
           (u : t) : t :=
  let loginRecord :=
    {| LoginRecord.Timestamp := now; LoginRecord.IPAddress := ipAddress;
       LoginRecord.UserAgent := userAgent;
       LoginRecord.Location := EmptyString;
       LoginRecord.Success := true |} in
  let u := if (10 <=? List.length (LoginHistory u))%nat
           then set_LoginHistory (List.tl (LoginHistory u)) u
           else u in
  let u := set_LoginHistory (LoginHistory u ++ [loginRecord]) u in
  u.

End User.

(** ** Trade hooks (trade.go) *)

Module TradeRow.

(** A [Trade] with the amount, fee, timing and profit fields that the
    hooks and the net-amount methods use, next to the fields of [Trade.t]
    (kept in [Core]); in the source they are fields of the one struct. *)
Record t := mk {
  Core : Trade.t;
  ExecutedAmount : float64;
  TradingFee : float64;
  PlatformFee : float64;
  GasFee : float64;
  TotalFees : float64;
  RequestedAt : Time;
  ExecutedAt : option Time;
  ConfirmedAt : option Time;
  ExecutionTime : Z;
  ConfirmationTime : Z;
  ProfitLoss : float64
}.

Definition set_Core v (tr : t) : t :=
  {| Core := v; ExecutedAmount := ExecutedAmount tr;
     TradingFee := TradingFee tr; PlatformFee := PlatformFee tr;
     GasFee := GasFee tr; TotalFees := TotalFees tr;
     RequestedAt := RequestedAt tr; ExecutedAt := ExecutedAt tr;
     ConfirmedAt := ConfirmedAt tr; ExecutionTime := ExecutionTime tr;
     ConfirmationTime := ConfirmationTime tr; ProfitLoss := ProfitLoss tr |}.

Definition set_TotalFees v (tr : t) : t :=
  {| Core := Core tr; ExecutedAmount := ExecutedAmount tr;
     TradingFee := TradingFee tr; PlatformFee := PlatformFee tr;
     GasFee := GasFee tr; TotalFees := v; RequestedAt := RequestedAt tr;
     ExecutedAt := ExecutedAt tr; ConfirmedAt := ConfirmedAt tr;
     ExecutionTime := ExecutionTime tr;
     ConfirmationTime := ConfirmationTime tr; ProfitLoss := ProfitLoss tr |}.

Definition set_RequestedAt v (tr : t) : t :=
  {| Core := Core tr; ExecutedAmount := ExecutedAmount tr;
     TradingFee := TradingFee tr; PlatformFee := PlatformFee tr;
     GasFee := GasFee tr; TotalFees := TotalFees tr; RequestedAt := v;
     ExecutedAt := ExecutedAt tr; ConfirmedAt := ConfirmedAt tr;
     ExecutionTime := ExecutionTime tr;
     ConfirmationTime := ConfirmationTime tr; ProfitLoss := ProfitLoss tr |}.

Definition set_ExecutedAt v (tr : t) : t :=
  {| Core := Core tr; ExecutedAmount := ExecutedAmount tr;
     TradingFee := TradingFee tr; PlatformFee := PlatformFee tr;
     GasFee := GasFee tr; TotalFees := TotalFees tr;
     RequestedAt := RequestedAt tr; ExecutedAt := v;
     ConfirmedAt := ConfirmedAt tr; ExecutionTime := ExecutionTime tr;
     ConfirmationTime := ConfirmationTime tr; ProfitLoss := ProfitLoss tr |}.

Definition set_ConfirmedAt v (tr : t) : t :=
  {| Core := Core tr; ExecutedAmount := ExecutedAmount tr;
     TradingFee := TradingFee tr; PlatformFee := PlatformFee tr;
     GasFee := GasFee tr; TotalFees := TotalFees tr;
     RequestedAt := RequestedAt tr; ExecutedAt := ExecutedAt tr;
     ConfirmedAt := v; ExecutionTime := ExecutionTime tr;
     ConfirmationTime := ConfirmationTime tr; ProfitLoss := ProfitLoss tr |}.

Definition set_ExecutionTime v (tr : t) : t :=
  {| Core := Core tr; ExecutedAmount := ExecutedAmount tr;
     TradingFee := TradingFee tr; PlatformFee := PlatformFee tr;
     GasFee := GasFee tr; TotalFees := TotalFees tr;
     RequestedAt := RequestedAt tr; ExecutedAt := ExecutedAt tr;
     ConfirmedAt := ConfirmedAt tr; ExecutionTime := v;
     ConfirmationTime := ConfirmationTime tr; ProfitLoss := ProfitLoss tr |}.

Definition set_ConfirmationTime v (tr : t) : t :=
  {| Core := Core tr; ExecutedAmount := ExecutedAmount tr;
     TradingFee := TradingFee tr; PlatformFee := PlatformFee tr;
     GasFee := GasFee tr; TotalFees := TotalFees tr;
     RequestedAt := RequestedAt tr; ExecutedAt := ExecutedAt tr;
     ConfirmedAt := ConfirmedAt tr; ExecutionTime := ExecutionTime tr;
     ConfirmationTime := v; ProfitLoss := ProfitLoss tr |}.

(** [func (d Duration) Milliseconds() int64] of the standard library. *)
Definition Milliseconds (d : Duration) : Z := Z.quot d 1000000.

(** [func (t *Trade) BeforeCreate(tx *gorm.DB) error] (always [nil]). *)
Definition BeforeCreate (now : Time) (tr : t) : t :=
  let tr := if (RequestedAt tr =? 0)%Z then set_RequestedAt now tr else tr in
  let tr := set_TotalFees (TradingFee tr + PlatformFee tr + GasFee tr) tr in
  let tr := if (Trade.MaxRetries (Core tr) =? 0)%Z
            then set_Core (Trade.set_MaxRetries 3%Z (Core tr)) tr
            else tr in
  tr.

(** [func (t *Trade) calculateProfitLoss()]: every branch returns without
    an assignment. *)
Definition calculateProfitLoss (tr : t) : t :=
  if negb (Trade.IsSuccessful (Core tr)) then tr
  else if String.eqb (Trade.Side (Core tr)) TradeSideBuy then tr
  else if String.eqb (Trade.Side (Core tr)) TradeSideSell then tr
  else tr.

(** [func (t *Trade) BeforeUpdate(tx *gorm.DB) error] (always [nil]). *)
Definition BeforeUpdate (now : Time) (tr : t) : t :=
  let tr :=
    if String.eqb (Trade.Status (Core tr)) TradeStatusExecuted
    then match ExecutedAt tr with
         | None =>
             let tr := set_ExecutedAt (Some now) tr in
             let tr := set_ExecutionTime
                         (Milliseconds (Sub now (RequestedAt tr))) tr in
             tr
         | Some _ => tr
         end
    else tr in
  let tr :=
    if String.eqb (Trade.Status (Core tr)) TradeStatusConfirmed
    then match ConfirmedAt tr with
         | None =>
             let tr := set_ConfirmedAt (Some now) tr in
             match ExecutedAt tr with
             | Some executedAt =>
                 set_ConfirmationTime (Milliseconds (Sub now executedAt)) tr
             | None => tr
             end
         | Some _ => tr
         end
    else tr in
  let tr :=
    if String.eqb (Trade.Status (Core tr)) TradeStatusConfirmed
       || String.eqb (Trade.Status (Core tr)) TradeStatusExecuted
    then calculateProfitLoss tr
    else tr in
  let tr := set_TotalFees (TradingFee tr + PlatformFee tr + GasFee tr) tr in
  tr.

(** [func (t *Trade) GetNetAmount() float64] *)
Definition GetNetAmount (tr : t) : float64 :=
  if String.eqb (Trade.Side (Core tr)) TradeSideBuy
  then ExecutedAmount tr + TotalFees tr
  else ExecutedAmount tr - TotalFees tr.

(** [func (t *Trade) GetEffectivePrice() float64] *)
Definition GetEffectivePrice (tr : t) : float64 :=
  if feqb (Trade.ExecutedQuantity (Core tr)) 0 then 0
  else
    let netAmount := GetNetAmount tr in
    netAmount / Trade.ExecutedQuantity (Core tr).

End TradeRow.


(** ** Concrete inputs for the rest of the package *)

(** A failed buy of 10 units at 100, never retried, with the retry limit
    left unset. *)
Definition trade_failed : Trade.t :=
  Trade.mk TradeSideBuy TradeStatusFailed 10 100 0 0 0 0.

(** A buy of 10 units at 100, of which 4 are executed at 105. *)
Definition trade_partly_filled : Trade.t :=
  Trade.mk TradeSideBuy TradeStatusExecuted 10 100 4 105 0 3.

(** The row of a trade: amount 420, fees 2 + 1 + 0.5 with a stale total,
    requested at time 5000, nothing stamped yet. *)
Definition row_of (core : Trade.t) : TradeRow.t :=
  TradeRow.mk core 420 2 1 0.5 0 5000%Z None None 0%Z 0%Z 0.

(** A user with 3 successful trades out of 4. *)
Definition user_3_of_4 : User.t :=
  User.mk UserStatusActive true SubscriptionFree None WalletStatusConnected
          4%Z 3%Z 1000 50 20 0 0 [].

(** A series of logins, applied to a user one after the other. *)
Definition logins (u : User.t) (l : list (Time * string * string)) : User.t :=
  fold_left (fun u login =>
               User.UpdateLoginInfo (fst (fst login)) (snd (fst login))
                                    (snd login) u)
            l u.


(** The rank of a health status, from [critical] to [excellent]. *)
Definition health_rank (status : string) : nat :=
  if String.eqb status "critical" then 0
  else if String.eqb status "poor" then 1
  else if String.eqb status "concerning" then 2
  else if String.eqb status "neutral" then 3
  else if String.eqb status "good" then 4
  else if String.eqb status "very_good" then 5
  else if String.eqb status "excellent" then 6
  else 7.

(** The total that [calculateTotalFees] builds on given entry fees: the
    exit fees if any, then the fees of the partial exits, then those of the
    DCA entries, added in this order. *)
Definition feesFrom (ar : Arith.t) (p : Position.t) (entryFees : float64)
  : float64 :=
  fold_left (fun total entry => Arith.add ar total (DCAEntry.Fees entry))
            (Position.DCAEntries p)
            (fold_left
               (fun total exit => Arith.add ar total (PartialExit.Fees exit))
               (Position.PartialExits p)
               (match Position.ExitFees p with
                | Some exitFees => Arith.add ar entryFees exitFees
                | None => entryFees
                end)).

(** The position of 10 units with a take profit at 120 next to its stop
    loss at 90. *)
Definition position_with_target : Position.t :=
  Position.set_TakeProfit (Some 120) position_10_at_100.
(** * Proofs *)

(** ** Comparisons on [float64] *)

Lemma fltb_true (x y : float64) : fltb x y = true <-> x < y.
Proof.
  unfold fltb. rewrite Qlt_alt. destruct (x ?= y); intuition discriminate.
Qed.

Lemma fltb_false (x y : float64) : fltb x y = false <-> y <= x.
Proof.
  pose proof (fltb_true x y) as H. pose proof (Qlt_le_dec x y) as [L | L].
  - split; intro F; [ | exfalso; lra ].
    apply H in L. congruence.
  - split; intro F; [ assumption | ].
    destruct (fltb x y); [ | reflexivity ].
    exfalso. assert (x < y) by (apply H; reflexivity). lra.
Qed.

Lemma fgtb_true (x y : float64) : fgtb x y = true <-> y < x.
Proof.
  unfold fgtb. rewrite Qgt_alt. destruct (x ?= y); intuition discriminate.
Qed.

Lemma fgtb_false (x y : float64) : fgtb x y = false <-> x <= y.
Proof.
  pose proof (fgtb_true x y) as H. pose proof (Qlt_le_dec y x) as [L | L].
  - split; intro F; [ | exfalso; lra ].
    apply H in L. congruence.
  - split; intro F; [ assumption | ].
    destruct (fgtb x y); [ | reflexivity ].
    exfalso. assert (y < x) by (apply H; reflexivity). lra.
Qed.

Lemma fleb_true (x y : float64) : fleb x y = true <-> x <= y.
Proof. apply Qle_bool_iff. Qed.

Lemma fleb_false (x y : float64) : fleb x y = false <-> y < x.
Proof.
  pose proof (fleb_true x y) as H. pose proof (Qlt_le_dec y x) as [L | L].
  - split; intro F; [ assumption | ].
    destruct (fleb x y); [ | reflexivity ].
    exfalso. assert (x <= y) by (apply H; reflexivity). lra.
  - split; intro F; [ | exfalso; lra ].
    apply H in L. congruence.
Qed.

Lemma feqb_true (x y : float64) : feqb x y = true <-> x == y.
Proof. apply Qeq_bool_iff. Qed.

Lemma feqb_false (x y : float64) : feqb x y = false <-> ~ x == y.
Proof.
  rewrite <- feqb_true. destruct (feqb x y); intuition discriminate.
Qed.

Lemma fneqb_true (x y : float64) : fneqb x y = true <-> ~ x == y.
Proof.
  unfold fneqb. rewrite negb_true_iff. apply feqb_false.
Qed.

(** Case analysis on one comparison of the goal, leaving the order fact
    in the context. *)
Ltac cmp_case c :=
  let H := fresh "Hc" in
  destruct c eqn:H;
  [ first [ apply fltb_true in H | apply fgtb_true in H
          | apply fleb_true in H | apply feqb_true in H ]
  | first [ apply fltb_false in H | apply fgtb_false in H
          | apply fleb_false in H | apply feqb_false in H ] ].

(** ** Stepping through a method body *)

(** Reduces the projections of assigned records, and nothing else. *)
Ltac record_simpl_in H :=
  cbn beta iota delta [
       Position.Status Position.Side Position.EntryPrice
       Position.EntryQuantity Position.EntryValue Position.EntryFees
       Position.EntryTime Position.CurrentPrice Position.CurrentQuantity
       Position.CurrentValue Position.LastPriceUpdate Position.ExitValue
       Position.ExitFees Position.ExitTime Position.StopLoss
       Position.TakeProfit Position.TrailingStop
       Position.TrailingStopPrice Position.UnrealizedPnL
       Position.UnrealizedPnLPercent Position.RealizedPnL
       Position.RealizedPnLPercent Position.TotalFees Position.ROI
       Position.HighestValue Position.LowestValue Position.HighestPrice
       Position.LowestPrice Position.MaxDrawdown Position.MaxGainPercent
       Position.PartialExits Position.Adjustments Position.DCAEntries
       Position.HoldDuration Position.set_Status Position.set_EntryPrice
       Position.set_EntryQuantity Position.set_EntryValue
       Position.set_EntryFees Position.set_EntryTime
       Position.set_CurrentPrice Position.set_CurrentQuantity
       Position.set_CurrentValue Position.set_LastPriceUpdate
       Position.set_StopLoss Position.set_TakeProfit
       Position.set_TrailingStop Position.set_TrailingStopPrice
       Position.set_UnrealizedPnL Position.set_UnrealizedPnLPercent
       Position.set_RealizedPnL Position.set_RealizedPnLPercent
       Position.set_TotalFees Position.set_ROI Position.set_HighestValue
       Position.set_LowestValue Position.set_HighestPrice
       Position.set_LowestPrice Position.set_MaxDrawdown
       Position.set_MaxGainPercent Position.set_PartialExits
       Position.set_Adjustments Position.set_DCAEntries
       Position.set_HoldDuration ] in H.

Ltac record_simpl :=
  cbn beta iota delta [
       Position.Status Position.Side Position.EntryPrice
       Position.EntryQuantity Position.EntryValue Position.EntryFees
       Position.EntryTime Position.CurrentPrice Position.CurrentQuantity
       Position.CurrentValue Position.LastPriceUpdate Position.ExitValue
       Position.ExitFees Position.ExitTime Position.StopLoss
       Position.TakeProfit Position.TrailingStop
       Position.TrailingStopPrice Position.UnrealizedPnL
       Position.UnrealizedPnLPercent Position.RealizedPnL
       Position.RealizedPnLPercent Position.TotalFees Position.ROI
       Position.HighestValue Position.LowestValue Position.HighestPrice
       Position.LowestPrice Position.MaxDrawdown Position.MaxGainPercent
       Position.PartialExits Position.Adjustments Position.DCAEntries
       Position.HoldDuration Position.set_Status Position.set_EntryPrice
       Position.set_EntryQuantity Position.set_EntryValue
       Position.set_EntryFees Position.set_EntryTime
       Position.set_CurrentPrice Position.set_CurrentQuantity
       Position.set_CurrentValue Position.set_LastPriceUpdate
       Position.set_StopLoss Position.set_TakeProfit
       Position.set_TrailingStop Position.set_TrailingStopPrice
       Position.set_UnrealizedPnL Position.set_UnrealizedPnLPercent
       Position.set_RealizedPnL Position.set_RealizedPnLPercent
       Position.set_TotalFees Position.set_ROI Position.set_HighestValue
       Position.set_LowestValue Position.set_HighestPrice
       Position.set_LowestPrice Position.set_MaxDrawdown
       Position.set_MaxGainPercent Position.set_PartialExits
       Position.set_Adjustments Position.set_DCAEntries
       Position.set_HoldDuration ].

(** Names the value of the outermost [let] of the goal and steps into
    its body, leaving the inner [let]s in place. *)
Ltac name_let q H :=
  match goal with
  | |- context C [let x := ?a in @?b x] =>
      remember a as q eqn:H;
      match goal with
      | |- context D [let y := q in @?d y] =>
          let t := eval cbv beta in (d q) in
          let g := context D [t] in
          change g
      end
  end.

(** Runs through the assignments of a method body one at a time, splitting
    on the conditions met on the way and recording their outcome. *)
Ltac split_premise :=
  repeat (match goal with
          | |- (_ = ?rhs -> _) =>
              match rhs with
              | context [if ?c then _ else _] => destruct c eqn:?
              end
          end; cbv beta iota).

Ltac step_lets :=
  repeat (let q := fresh "q" in
          let H := fresh "H" in
          name_let q H;
          cbv zeta in H; record_simpl_in H;
          revert H; split_premise;
          intros H; subst q; record_simpl).

(** For a goal [p' = body -> G]: steps through [body], then replaces [p']
    by the final state in [G]. *)
Ltac run_body :=
  cbv beta iota; step_lets; cbv zeta; record_simpl; split_premise;
  intros ->; record_simpl.

(** Replaces the conditions whose outcome is recorded in the context. *)
Ltac use_outcomes :=
  repeat match goal with
         | E : ?c = _ |- context [?c] => rewrite E
         end.

(** ** Trade *)

(** Claim C7.  [CanRetry] answers true exactly when the status is
    [failed] and the retry counter is below the limit; a failed trade with
    three retries out of three cannot be retried. *)
Theorem CanRetry_iff_failed_and_below_limit :
  (forall tr : Trade.t,
      Trade.CanRetry tr = true <->
      Trade.Status tr = TradeStatusFailed /\
      (Trade.RetryCount tr < Trade.MaxRetries tr)%Z) /\
  (forall side quantity price executedQuantity executedPrice,
      Trade.CanRetry
        (Trade.mk side TradeStatusFailed quantity price
                  executedQuantity executedPrice 3 3) = false).
Proof.
  split.
  - intros tr. unfold Trade.CanRetry.
    rewrite andb_true_iff, String.eqb_eq, Z.ltb_lt. reflexivity.
  - intros. reflexivity.
Qed.

(** The guard of [CalculateActualSlippage]: a zero requested or executed
    price yields zero, whatever the division does. *)
Lemma CalculateActualSlippageWith_guard fdiv (tr : Trade.t) :
  Trade.Price tr == 0 \/ Trade.ExecutedPrice tr == 0 ->
  Trade.CalculateActualSlippageWith fdiv tr = 0.
Proof.
  intros G. unfold Trade.CalculateActualSlippageWith.
  destruct G as [G | G]; apply feqb_true in G; rewrite G;
    [ reflexivity | rewrite orb_true_r; reflexivity ].
Qed.

(** Past the guard the method computes the quotient of its side. *)
Lemma CalculateActualSlippageWith_quotient fdiv (tr : Trade.t) :
  ~ Trade.Price tr == 0 -> ~ Trade.ExecutedPrice tr == 0 ->
  Trade.CalculateActualSlippageWith fdiv tr =
  if String.eqb (Trade.Side tr) TradeSideBuy
  then fdiv (Trade.ExecutedPrice tr - Trade.Price tr) (Trade.Price tr) * 100
  else fdiv (Trade.Price tr - Trade.ExecutedPrice tr) (Trade.Price tr) * 100.
Proof.
  intros P E. unfold Trade.CalculateActualSlippageWith.
  apply feqb_false in P. apply feqb_false in E. rewrite P, E. reflexivity.
Qed.

(** Claim C6, as stated, fails: with a positive requested price and an
    executed price of zero, a buy yields 0 and not
    [(executed - requested) / requested * 100], which is -100. *)
Lemma slippage_formula_fails_at_zero_executed_price :
  0 < Trade.Price trade_executed_at_zero /\
  Trade.Side trade_executed_at_zero = TradeSideBuy /\
  Trade.CalculateActualSlippage trade_executed_at_zero == 0 /\
  (Trade.ExecutedPrice trade_executed_at_zero
   - Trade.Price trade_executed_at_zero)
  / Trade.Price trade_executed_at_zero * 100 == -100 /\
  ~ Trade.CalculateActualSlippage trade_executed_at_zero ==
    (Trade.ExecutedPrice trade_executed_at_zero
     - Trade.Price trade_executed_at_zero)
    / Trade.Price trade_executed_at_zero * 100.
Proof.
  repeat split; try reflexivity.
  vm_compute. discriminate.
Qed.

(** Claim C6, amended.  With a positive requested price and a non-zero
    executed price, the slippage is [(executed - requested) / requested * 100]
    for a buy and [(requested - executed) / requested * 100] for a sell; when
    the requested or the executed price is zero the result is 0. *)
Theorem CalculateActualSlippage_formula (tr : Trade.t) :
  (0 < Trade.Price tr -> ~ Trade.ExecutedPrice tr == 0 ->
   (Trade.Side tr = TradeSideBuy ->
    Trade.CalculateActualSlippage tr =
    (Trade.ExecutedPrice tr - Trade.Price tr) / Trade.Price tr * 100) /\
   (Trade.Side tr = TradeSideSell ->
    Trade.CalculateActualSlippage tr =
    (Trade.Price tr - Trade.ExecutedPrice tr) / Trade.Price tr * 100)) /\
  (Trade.Price tr == 0 \/ Trade.ExecutedPrice tr == 0 ->
   Trade.CalculateActualSlippage tr = 0).
Proof.
  split.
  - intros P E.
    assert (P' : ~ Trade.Price tr == 0) by lra.
    unfold Trade.CalculateActualSlippage.
    rewrite (CalculateActualSlippageWith_quotient _ _ P' E).
    split; intros S; rewrite S; reflexivity.
  - apply CalculateActualSlippageWith_guard.
Qed.

Lemma CalculateActualSlippage_formula_witness :
  Trade.CalculateActualSlippage trade_buy_110 = (110 - 100) / 100 * 100.
Proof.
  refine (proj1 (proj1 (CalculateActualSlippage_formula trade_buy_110) _ _) _).
  - reflexivity.
  - discriminate.
  - reflexivity.
Defined.

(** Claim C10.  A zero executed price yields slippage 0 for every side and
    every requested price, and the quotient is only ever taken with a
    non-zero divisor: the result is the same for any division that agrees
    with the exact one on non-zero divisors. *)
Theorem CalculateActualSlippage_zero_executed_price
        (tr : Trade.t) (fdiv : float64 -> float64 -> float64) :
  (Trade.ExecutedPrice tr == 0 -> Trade.CalculateActualSlippage tr = 0) /\
  ((forall x y, ~ y == 0 -> fdiv x y = x / y) ->
   Trade.CalculateActualSlippageWith fdiv tr = Trade.CalculateActualSlippage tr).
Proof.
  split.
  - intros E. apply CalculateActualSlippageWith_guard. right. exact E.
  - intros A. unfold Trade.CalculateActualSlippage.
    destruct (Qeq_dec (Trade.Price tr) 0) as [P | P].
    { rewrite !CalculateActualSlippageWith_guard by (left; exact P).
      reflexivity. }
    destruct (Qeq_dec (Trade.ExecutedPrice tr) 0) as [E | E].
    { rewrite !CalculateActualSlippageWith_guard by (right; exact E).
      reflexivity. }
    rewrite !CalculateActualSlippageWith_quotient by assumption.
    rewrite !A by assumption. reflexivity.
Qed.

Lemma CalculateActualSlippage_zero_executed_price_witness :
  Trade.CalculateActualSlippage trade_executed_at_zero = 0 /\
  Trade.CalculateActualSlippageWith fdiv_one_at_zero trade_executed_at_zero =
  Trade.CalculateActualSlippage trade_executed_at_zero.
Proof.
  split.
  - apply (proj1 (CalculateActualSlippage_zero_executed_price
                    trade_executed_at_zero fdiv_one_at_zero)).
    reflexivity.
  - apply (proj2 (CalculateActualSlippage_zero_executed_price
                    trade_executed_at_zero fdiv_one_at_zero)).
    intros x y Hy. unfold fdiv_one_at_zero.
    apply feqb_false in Hy. rewrite Hy. reflexivity.
Defined.

(** ** Token risk scoring *)

Lemma RiskScore_calculateRiskScore (now : Time) (tok : Token.t) :
  Token.RiskScore (Token.calculateRiskScore now tok) =
  let score := Token.rawRiskScore now tok in
  if fltb score 0 then 0 else if fgtb score 10 then 10 else score.
Proof. reflexivity. Qed.

Lemma RiskLevel_updateRiskLevel (tok : Token.t) :
  Token.RiskLevel (Token.updateRiskLevel tok) =
  Token.riskLevelOf (Token.RiskScore tok).
Proof. reflexivity. Qed.

(** [calculateRiskScore] and [updateRiskLevel] each write one field. *)
Lemma RiskScore_updateRiskLevel (tok : Token.t) :
  Token.RiskScore (Token.updateRiskLevel tok) = Token.RiskScore tok.
Proof. reflexivity. Qed.

(** The bands of the threshold table, by rank. *)
Lemma riskLevelOf_bands (score : float64) :
  let r := RiskLevel_rank (Token.riskLevelOf score) in
  (score <= 2 -> r = 0%nat) /\
  (2 < score <= 4 -> r = 1%nat) /\
  (4 < score <= 6 -> r = 2%nat) /\
  (6 < score <= 8 -> r = 3%nat) /\
  (8 < score <= 9 -> r = 4%nat) /\
  (9 < score -> r = 5%nat).
Proof.
  unfold Token.riskLevelOf.
  cmp_case (fleb score 2.0); [ | cmp_case (fleb score 4.0);
    [ | cmp_case (fleb score 6.0); [ | cmp_case (fleb score 8.0);
      [ | cmp_case (fleb score 9.0) ] ] ] ];
    cbv zeta; repeat split; intros; try reflexivity; exfalso; lra.
Qed.

Lemma riskLevelOf_rank_lt_6 (score : float64) :
  (RiskLevel_rank (Token.riskLevelOf score) < 6)%nat.
Proof.
  unfold Token.riskLevelOf.
  repeat match goal with
         | |- context [fleb ?a ?b] => destruct (fleb a b)
         end; vm_compute; lia.
Qed.

Lemma riskLevelOf_monotone (s1 s2 : float64) :
  s1 <= s2 ->
  (RiskLevel_rank (Token.riskLevelOf s1)
   <= RiskLevel_rank (Token.riskLevelOf s2))%nat.
Proof.
  intros L.
  pose proof (riskLevelOf_bands s1) as B1.
  pose proof (riskLevelOf_bands s2) as B2.
  pose proof (riskLevelOf_rank_lt_6 s2) as U.
  cbv zeta in B1, B2.
  destruct B1 as (A0 & A1 & A2 & A3 & A4 & A5).
  destruct B2 as (C0 & C1 & C2 & C3 & C4 & C5).
  destruct (Qlt_le_dec 2 s1) as [L2 | L2]; [ | rewrite A0 by lra; lia ].
  destruct (Qlt_le_dec 4 s1) as [L4 | L4];
    [ | rewrite A1 by lra;
        destruct (Qlt_le_dec 4 s2); [ | rewrite C1 by lra; lia ];
        destruct (Qlt_le_dec 6 s2); [ | rewrite C2 by lra; lia ];
        destruct (Qlt_le_dec 8 s2); [ | rewrite C3 by lra; lia ];
        destruct (Qlt_le_dec 9 s2); [ | rewrite C4 by lra; lia ];
        rewrite C5 by lra; lia ].
  destruct (Qlt_le_dec 6 s1) as [L6 | L6];
    [ | rewrite A2 by lra;
        destruct (Qlt_le_dec 6 s2); [ | rewrite C2 by lra; lia ];
        destruct (Qlt_le_dec 8 s2); [ | rewrite C3 by lra; lia ];
        destruct (Qlt_le_dec 9 s2); [ | rewrite C4 by lra; lia ];
        rewrite C5 by lra; lia ].
  destruct (Qlt_le_dec 8 s1) as [L8 | L8];
    [ | rewrite A3 by lra;
        destruct (Qlt_le_dec 8 s2); [ | rewrite C3 by lra; lia ];
        destruct (Qlt_le_dec 9 s2); [ | rewrite C4 by lra; lia ];
        rewrite C5 by lra; lia ].
  destruct (Qlt_le_dec 9 s1) as [L9 | L9];
    [ | rewrite A4 by lra;
        destruct (Qlt_le_dec 9 s2); [ | rewrite C4 by lra; lia ];
        rewrite C5 by lra; lia ].
  rewrite A5 by lra. rewrite C5 by lra. lia.
Qed.

(** The clamp is reached from both sides of the raw score. *)
Example calculateRiskScore_worst :
  Token.rawRiskScore (3600 * 1000000000)%Z token_worst == 25 /\
  Token.RiskScore (Token.calculateRiskScore (3600 * 1000000000)%Z token_worst)
  == 10.
Proof. split; vm_compute; reflexivity. Qed.

Example calculateRiskScore_best :
  Token.RiskScore (Token.calculateRiskScore 0%Z token_best) == 3.5.
Proof. vm_compute. reflexivity. Qed.

(** Claim C5.  Whatever the token and the clock, the score written by
    [calculateRiskScore] lies in [0, 10]; the level written by
    [updateRiskLevel] is one of the six declared levels, given by a fixed
    table of inclusive upper bounds (2, 4, 6, 8, 9, then the rest), and a
    larger score never gets a lower level. *)
Theorem risk_score_bounded_and_level_monotone
        (now : Time) (tok t1 t2 : Token.t) :
  (0 <= Token.RiskScore (Token.calculateRiskScore now tok) <= 10) /\
  (let r := RiskLevel_rank (Token.RiskLevel (Token.updateRiskLevel tok)) in
   let score := Token.RiskScore tok in
   (r < 6)%nat /\
   (score <= 2 -> r = 0%nat) /\
   (2 < score <= 4 -> r = 1%nat) /\
   (4 < score <= 6 -> r = 2%nat) /\
   (6 < score <= 8 -> r = 3%nat) /\
   (8 < score <= 9 -> r = 4%nat) /\
   (9 < score -> r = 5%nat)) /\
  (Token.RiskScore t1 <= Token.RiskScore t2 ->
   (RiskLevel_rank (Token.RiskLevel (Token.updateRiskLevel t1))
    <= RiskLevel_rank (Token.RiskLevel (Token.updateRiskLevel t2)))%nat).
Proof.
  split; [ | split ].
  - rewrite RiskScore_calculateRiskScore. cbv zeta.
    generalize (Token.rawRiskScore now tok). intros s.
    cmp_case (fltb s 0); [ lra | ].
    cmp_case (fgtb s 10); lra.
  - cbv zeta. rewrite RiskLevel_updateRiskLevel.
    split; [ apply riskLevelOf_rank_lt_6 | apply riskLevelOf_bands ].
  - rewrite !RiskLevel_updateRiskLevel. apply riskLevelOf_monotone.
Qed.

Lemma risk_score_bounded_and_level_monotone_witness :
  (RiskLevel_rank
     (Token.RiskLevel (Token.updateRiskLevel (token_scored 5.5%Q)))
   <= RiskLevel_rank
        (Token.RiskLevel (Token.updateRiskLevel (token_scored 6.5%Q))))%nat.
Proof.
  apply (proj2 (proj2 (risk_score_bounded_and_level_monotone
                         0%Z token_worst
                         (token_scored 5.5%Q) (token_scored 6.5%Q)))).
  vm_compute. discriminate.
Defined.

(** ** Position ledger *)

Arguments fltb : simpl never.
Arguments fgtb : simpl never.
Arguments fleb : simpl never.
Arguments feqb : simpl never.
Arguments fneqb : simpl never.

(** Splits the goal on every conditional and optional field in turn. *)
Ltac split_branches :=
  repeat (cbn;
          match goal with
          | |- context [if ?c then _ else _] => destruct c
          | |- context [match ?o with Some _ => _ | None => _ end] =>
              destruct o
          end).

Lemma length_snoc_pos {A : Type} (l : list A) (a : A) :
  (0 <? List.length (l ++ [a]))%nat = true.
Proof.
  apply Nat.ltb_lt. rewrite length_app. cbn. lia.
Qed.

(** What [AddPartialExit] computes, by the sign of the residual. *)
Lemma AddPartialExit_closed (exit : PartialExit.t) (p : Position.t) :
  Position.CurrentQuantity p - PartialExit.Quantity exit <= 0 ->
  Position.AddPartialExit exit p =
  Position.set_CurrentValue 0
    (Position.set_CurrentQuantity 0
       (Position.set_Status PositionStatusClosed
          (Position.set_RealizedPnL
             (Position.RealizedPnL p + PartialExit.PnL exit)
             (Position.set_CurrentValue
                (Position.CurrentPrice p
                 * (Position.CurrentQuantity p - PartialExit.Quantity exit))
                (Position.set_CurrentQuantity
                   (Position.CurrentQuantity p - PartialExit.Quantity exit)
                   (Position.set_PartialExits
                      (Position.PartialExits p ++ [exit]) p)))))).
Proof.
  intros R. unfold Position.AddPartialExit. cbv zeta.
  match goal with
  | |- context [fleb ?a 0] =>
      replace (fleb a 0) with true by (symmetry; apply fleb_true; exact R)
  end.
  reflexivity.
Qed.

Lemma AddPartialExit_partial (exit : PartialExit.t) (p : Position.t) :
  0 < Position.CurrentQuantity p - PartialExit.Quantity exit ->
  Position.AddPartialExit exit p =
  Position.set_Status PositionStatusPartial
    (Position.set_RealizedPnL
       (Position.RealizedPnL p + PartialExit.PnL exit)
       (Position.set_CurrentValue
          (Position.CurrentPrice p
           * (Position.CurrentQuantity p - PartialExit.Quantity exit))
          (Position.set_CurrentQuantity
             (Position.CurrentQuantity p - PartialExit.Quantity exit)
             (Position.set_PartialExits
                (Position.PartialExits p ++ [exit]) p)))).
Proof.
  intros R. unfold Position.AddPartialExit. cbv zeta.
  match goal with
  | |- context [fleb ?a 0] =>
      replace (fleb a 0) with false by (symmetry; apply fleb_false; exact R)
  end.
  match goal with
  | |- context [(0 <? ?n)%nat] =>
      replace (0 <? n)%nat with true by (symmetry; apply length_snoc_pos)
  end.
  reflexivity.
Qed.

(** The ledger fields after [AddPartialExit], by the sign of the
    residual. *)
Lemma AddPartialExit_ledger (exit : PartialExit.t) (p : Position.t) :
  let p' := Position.AddPartialExit exit p in
  let residual := Position.CurrentQuantity p - PartialExit.Quantity exit in
  Position.PartialExits p' = Position.PartialExits p ++ [exit] /\
  Position.EntryQuantity p' = Position.EntryQuantity p /\
  (residual <= 0 ->
   Position.Status p' = PositionStatusClosed /\
   Position.CurrentQuantity p' = 0 /\
   Position.CurrentValue p' = 0) /\
  (0 < residual ->
   Position.Status p' = PositionStatusPartial /\
   Position.CurrentQuantity p' = residual).
Proof.
  cbv zeta.
  destruct (Qlt_le_dec 0 (Position.CurrentQuantity p
                          - PartialExit.Quantity exit)) as [R | R].
  - rewrite (AddPartialExit_partial _ _ R). record_simpl.
    repeat split; try reflexivity; intros; exfalso; lra.
  - rewrite (AddPartialExit_closed _ _ R). record_simpl.
    repeat split; try reflexivity; intros; exfalso; lra.
Qed.

(** Claim C3, as stated, fails: an exit of 15 units from a position
    holding 10 is outside [0 < quantity <= current_quantity], yet the
    method (which has no error result) records the exit and closes the
    position instead of leaving it untouched. *)
Lemma AddPartialExit_mutates_on_excess_quantity :
  ~ (0 < PartialExit.Quantity (exit_of 15)
     <= Position.CurrentQuantity position_10_at_100) /\
  Position.AddPartialExit (exit_of 15) position_10_at_100
  <> position_10_at_100 /\
  Position.PartialExits
    (Position.AddPartialExit (exit_of 15) position_10_at_100)
  = [exit_of 15] /\
  Position.Status (Position.AddPartialExit (exit_of 15) position_10_at_100)
  = PositionStatusClosed.
Proof.
  split; [ | split; [ | split ] ].
  - intros [_ H]. vm_compute in H. apply H. reflexivity.
  - intros E.
    apply (f_equal Position.Status) in E. vm_compute in E. discriminate E.
  - reflexivity.
  - reflexivity.
Qed.

(** Claim C3, amended.  [AddPartialExit] validates nothing and cannot
    fail.  For every exit it appends the exit and adds its PnL to the
    realized PnL; if the residual quantity [current_quantity - quantity] is
    zero or negative the status becomes [closed] and the current quantity
    and value are set to 0, otherwise the status becomes [partial], the
    current quantity is the residual and the current value is the current
    price times the residual. *)
Theorem AddPartialExit_effect (exit : PartialExit.t) (p : Position.t) :
  let p' := Position.AddPartialExit exit p in
  let residual := Position.CurrentQuantity p - PartialExit.Quantity exit in
  Position.PartialExits p' = Position.PartialExits p ++ [exit] /\
  Position.RealizedPnL p' = Position.RealizedPnL p + PartialExit.PnL exit /\
  Position.CurrentPrice p' = Position.CurrentPrice p /\
  Position.EntryQuantity p' = Position.EntryQuantity p /\
  (residual <= 0 ->
   Position.Status p' = PositionStatusClosed /\
   Position.CurrentQuantity p' = 0 /\
   Position.CurrentValue p' = 0) /\
  (0 < residual ->
   Position.Status p' = PositionStatusPartial /\
   Position.CurrentQuantity p' = residual /\
   Position.CurrentValue p' = Position.CurrentPrice p * residual).
Proof.
  cbv zeta.
  destruct (Qlt_le_dec 0 (Position.CurrentQuantity p
                          - PartialExit.Quantity exit)) as [R | R].
  - rewrite (AddPartialExit_partial _ _ R). cbn.
    repeat split; try reflexivity; intros; exfalso; lra.
  - rewrite (AddPartialExit_closed _ _ R). cbn.
    repeat split; try reflexivity; intros; exfalso; lra.
Qed.

Lemma AddPartialExit_effect_witness :
  Position.Status (Position.AddPartialExit (exit_of 4) position_10_at_100)
  = PositionStatusPartial /\
  Position.CurrentQuantity
    (Position.AddPartialExit (exit_of 4) position_10_at_100) = 10 - 4 /\
  Position.CurrentValue
    (Position.AddPartialExit (exit_of 4) position_10_at_100)
  = 100 * (10 - 4).
Proof.
  apply (proj2 (proj2 (proj2 (proj2 (proj2
           (AddPartialExit_effect (exit_of 4) position_10_at_100)))))).
  reflexivity.
Defined.

(** Claim C8.  [AddDCAEntry] sets both the entry quantity and the current
    quantity to the old entry quantity plus the quantity of the entry,
    whatever the current quantity and the recorded partial exits were: the
    quantity taken out by earlier exits is back in the current quantity,
    while the exits stay recorded. *)
Theorem AddDCAEntry_resets_current_quantity
        (entry : DCAEntry.t) (p : Position.t) :
  let p' := Position.AddDCAEntry entry p in
  Position.CurrentQuantity p'
  = Position.EntryQuantity p + DCAEntry.Quantity entry /\
  Position.EntryQuantity p'
  = Position.EntryQuantity p + DCAEntry.Quantity entry /\
  Position.PartialExits p' = Position.PartialExits p /\
  Position.Status p' = Position.Status p.
Proof.
  cbn. repeat split; reflexivity.
Qed.

(** The scenario of the specification: a DCA entry of 5 units at 80 on 10
    units entered at 100 gives an entry price of 1400 / 15 for 15 units. *)
Example AddDCAEntry_scenario :
  Position.EntryPrice (Position.AddDCAEntry (dca_of 5) position_10_at_100)
  == 1400 / 15 /\
  Position.EntryQuantity (Position.AddDCAEntry (dca_of 5) position_10_at_100)
  == 15.
Proof. vm_compute. repeat split. Qed.

(** After an exit of 4 out of 10, a DCA entry of 5 leaves 15 units current
    (not 11), with the exit of 4 still recorded. *)
Example AddDCAEntry_after_exit :
  let p := Position.AddDCAEntry (dca_of 5)
             (Position.AddPartialExit (exit_of 4) position_10_at_100) in
  Position.CurrentQuantity p == 15 /\
  Position.EntryQuantity p == 15 /\
  Position.exitedQuantity p == 4 /\
  Position.Status p = PositionStatusPartial.
Proof. vm_compute. repeat split; discriminate. Qed.

(** *** What the price update leaves alone *)

Lemma same_ledger_refl (p : Position.t) : same_ledger p p.
Proof. repeat split. Qed.

Lemma same_ledger_trans (p q r : Position.t) :
  same_ledger p q -> same_ledger q r -> same_ledger p r.
Proof.
  unfold same_ledger. intros H1 H2.
  repeat match goal with H : _ /\ _ |- _ => destruct H end.
  repeat split; congruence.
Qed.

Lemma updatePerformanceMetrics_same_ledger (p : Position.t) :
  same_ledger p (Position.updatePerformanceMetrics p).
Proof.
  remember (Position.updatePerformanceMetrics p) as p' eqn:Hp'. revert Hp'.
  cbv beta delta [Position.updatePerformanceMetrics].
  destruct (Position.Status p =? PositionStatusOpen)%string;
    [ | destruct (Position.Status p =? PositionStatusClosed)%string;
        [ destruct (Position.ExitValue p) | ] ];
    run_body; unfold same_ledger; record_simpl; repeat split.
Qed.

Lemma updateTrackingValues_same_ledger (p : Position.t) :
  same_ledger p (Position.updateTrackingValues p).
Proof.
  remember (Position.updateTrackingValues p) as p' eqn:Hp'. revert Hp'.
  cbv beta delta [Position.updateTrackingValues].
  run_body; unfold same_ledger; record_simpl; repeat split.
Qed.

Lemma UpdateCurrentPrice_same_ledger price now (p : Position.t) :
  same_ledger p (Position.UpdateCurrentPrice price now p).
Proof.
  unfold Position.UpdateCurrentPrice. cbv zeta.
  eapply same_ledger_trans; [ | apply updateTrackingValues_same_ledger ].
  eapply same_ledger_trans; [ | apply updatePerformanceMetrics_same_ledger ].
  repeat split.
Qed.


(** *** Rounding *)





(** On sample floats the four operations of [binary64_arith] give the
    numbers that the floats of the kernel give. *)
Example binary64_arith_agrees_with_kernel :
  forallb
    (fun x =>
       forallb
         (fun y =>
            agrees_on PrimFloat.add (Arith.add binary64_arith) x y
            && agrees_on PrimFloat.sub (Arith.sub binary64_arith) x y
            && agrees_on PrimFloat.mul (Arith.mul binary64_arith) x y
            && agrees_on PrimFloat.div (Arith.div binary64_arith) x y)
         kernel_samples)
    kernel_samples
  = true.
Proof. vm_compute. reflexivity. Qed.


(** The exact arithmetic rounds within any relative error. *)
Lemma exact_arith_rounds (u : Q) :
  0 <= u ->
  rounds_within u (Arith.add Arith.exact) Qplus /\
  rounds_within u (Arith.sub Arith.exact) Qminus.
Proof.
  intros U.
  split; intros x y; cbn [Arith.add Arith.sub Arith.exact];
    match goal with
    | |- Qabs (?a - ?a) <= _ =>
        assert (Z0 : a - a == 0) by ring; rewrite Z0;
        change (Qabs 0) with 0;
        apply Qmult_le_0_compat; [ exact U | apply Qabs_nonneg ]
    end.
Qed.

(** The position over the exact arithmetic is the position of the first
    part. *)
Lemma RoundedPosition_exact_metrics :
  RoundedPosition.updatePerformanceMetrics Arith.exact
  = Position.updatePerformanceMetrics /\
  RoundedPosition.updateTrackingValues Arith.exact
  = Position.updateTrackingValues /\
  RoundedPosition.calculateTotalFees Arith.exact
  = Position.calculateTotalFees.
Proof.
  split; [ | split ];
    cbv beta iota delta
        [RoundedPosition.updatePerformanceMetrics
         RoundedPosition.updateTrackingValues
         RoundedPosition.calculateTotalFees
         Position.updatePerformanceMetrics Position.updateTrackingValues
         Position.calculateTotalFees
         Arith.add Arith.sub Arith.mul Arith.div Arith.exact];
    reflexivity.
Qed.

Lemma RoundedPosition_exact (p : Position.t) :
  (forall op, RoundedPosition.apply Arith.exact p op = Position.apply p op) /\
  RoundedPosition.GetRiskExposure Arith.exact p = Position.GetRiskExposure p.
Proof.
  destruct RoundedPosition_exact_metrics as (M & T & F).
  split; [ intros op; destruct op | ];
    cbv beta iota delta
        [RoundedPosition.apply RoundedPosition.BeforeUpdate
         RoundedPosition.UpdateCurrentPrice
         RoundedPosition.UpdateTrailingStop RoundedPosition.AddPartialExit
         RoundedPosition.AddDCAEntry RoundedPosition.GetRiskExposure
         Position.apply Position.BeforeUpdate Position.UpdateCurrentPrice
         Position.UpdateTrailingStop Position.AddPartialExit
         Position.AddDCAEntry Position.GetRiskExposure];
    rewrite ?M, ?T, ?F;
    cbv beta iota delta
        [Arith.add Arith.sub Arith.mul Arith.div Arith.exact];
    reflexivity.
Qed.

(** *** What a rounded result keeps of the exact one *)


(** *** What the rounded price update and exit leave alone *)




(** The ledger fields after the rounded [AddPartialExit], by the sign of
    the rounded residual. *)
Lemma rounded_AddPartialExit_ledger
      (ar : Arith.t) (exit : PartialExit.t) (p : Position.t) :
  let p' := RoundedPosition.AddPartialExit ar exit p in
  let residual :=
    Arith.sub ar (Position.CurrentQuantity p) (PartialExit.Quantity exit) in
  Position.PartialExits p' = Position.PartialExits p ++ [exit] /\
  Position.EntryQuantity p' = Position.EntryQuantity p /\
  (residual <= 0 ->
   Position.Status p' = PositionStatusClosed /\
   Position.CurrentQuantity p' = 0) /\
  (0 < residual ->
   Position.Status p' = PositionStatusPartial /\
   Position.CurrentQuantity p' = residual).
Proof.
  cbv zeta. unfold RoundedPosition.AddPartialExit. cbv zeta.
  destruct (Qlt_le_dec 0 (Arith.sub ar (Position.CurrentQuantity p)
                                    (PartialExit.Quantity exit))) as [R | R].
  - match goal with
    | |- context [fleb ?a 0] =>
        replace (fleb a 0) with false by (symmetry; apply fleb_false; exact R)
    end.
    match goal with
    | |- context [(0 <? ?n)%nat] =>
        replace (0 <? n)%nat with true by (symmetry; apply length_snoc_pos)
    end.
    record_simpl. repeat split; try reflexivity; intros; exfalso; lra.
  - match goal with
    | |- context [fleb ?a 0] =>
        replace (fleb a 0) with true by (symmetry; apply fleb_true; exact R)
    end.
    record_simpl. repeat split; try reflexivity; intros; exfalso; lra.
Qed.

(** *** Quantity conservation *)












(** The example run ends [partial] with two exits recorded, and its
    ledger does not balance exactly: the exits and the current quantity
    add up to [2 ^ -54] less than the entry quantity of 1.  The floats of
    the kernel leave the same residual. *)
Example conserving_ops_example_gap :
  Position.Status
    (RoundedPosition.run binary64_arith position_half_at_100
                         conserving_ops_example)
  = PositionStatusPartial /\
  Position.EntryQuantity
    (RoundedPosition.run binary64_arith position_half_at_100
                         conserving_ops_example) == 1 /\
  ledger_gap
    (RoundedPosition.run binary64_arith position_half_at_100
                         conserving_ops_example)
  == - (1 # 2 ^ 54) /\
  Q_of_float kernel_residual
  = Some (Position.CurrentQuantity
            (RoundedPosition.run binary64_arith position_half_at_100
                                 conserving_ops_example)).
Proof. vm_compute. repeat split. Qed.

(** *** Non-negative current quantity *)

Lemma fold_set_TotalFees_quantities {A : Type}
      (f : Position.t -> A -> float64) (l : list A) :
  forall p : Position.t,
    let p' := fold_left (fun p x => Position.set_TotalFees (f p x) p) l p in
    Position.CurrentQuantity p' = Position.CurrentQuantity p /\
    Position.EntryQuantity p' = Position.EntryQuantity p.
Proof.
  induction l as [ | x l IH ]; intros p; cbn.
  - split; reflexivity.
  - destruct (IH (Position.set_TotalFees (f p x) p)) as [H1 H2].
    cbv zeta in H1, H2. rewrite H1, H2. split; reflexivity.
Qed.

Lemma calculateTotalFees_quantities (p : Position.t) :
  Position.CurrentQuantity (Position.calculateTotalFees p)
  = Position.CurrentQuantity p /\
  Position.EntryQuantity (Position.calculateTotalFees p)
  = Position.EntryQuantity p.
Proof.
  unfold Position.calculateTotalFees. cbv zeta.
  match goal with
  | |- context [fold_left ?g ?l2 (fold_left ?h ?l1 ?q)] =>
      destruct (fold_set_TotalFees_quantities
                  (fun p entry => Position.TotalFees p + DCAEntry.Fees entry)
                  l2 (fold_left h l1 q)) as [A1 A2];
      destruct (fold_set_TotalFees_quantities
                  (fun p exit => Position.TotalFees p + PartialExit.Fees exit)
                  l1 q) as [B1 B2]
  end.
  cbv zeta in A1, A2, B1, B2. rewrite A1, A2, B1, B2. cbn.
  destruct (Position.ExitFees p); split; reflexivity.
Qed.

Lemma BeforeUpdate_quantities now (p : Position.t) :
  Position.CurrentQuantity (Position.BeforeUpdate now p)
  = Position.CurrentQuantity p /\
  Position.EntryQuantity (Position.BeforeUpdate now p)
  = Position.EntryQuantity p.
Proof.
  unfold Position.BeforeUpdate. cbv zeta.
  match goal with
  | |- context [Position.calculateTotalFees ?q] =>
      destruct (calculateTotalFees_quantities q) as [A1 A2]
  end.
  rewrite A1, A2.
  match goal with
  | |- context [Position.updateTrackingValues ?q] =>
      destruct (updateTrackingValues_same_ledger q)
        as (_ & _ & _ & B2 & _ & B1 & _)
  end.
  rewrite B1, B2.
  match goal with
  | |- context [Position.updatePerformanceMetrics ?q] =>
      destruct (updatePerformanceMetrics_same_ledger q)
        as (_ & _ & _ & C2 & _ & C1 & _)
  end.
  rewrite C1, C2.
  destruct (String.eqb (Position.Status p) PositionStatusOpen);
    [ | destruct (Position.ExitTime p) ]; split; reflexivity.
Qed.

Lemma UpdateTrailingStop_quantities (p : Position.t) :
  Position.CurrentQuantity (Position.UpdateTrailingStop p)
  = Position.CurrentQuantity p /\
  Position.EntryQuantity (Position.UpdateTrailingStop p)
  = Position.EntryQuantity p.
Proof.
  unfold Position.UpdateTrailingStop. split_branches; split; reflexivity.
Qed.

Lemma AddAdjustment_quantities adjustment (p : Position.t) :
  Position.CurrentQuantity (Position.AddAdjustment adjustment p)
  = Position.CurrentQuantity p /\
  Position.EntryQuantity (Position.AddAdjustment adjustment p)
  = Position.EntryQuantity p.
Proof.
  unfold Position.AddAdjustment. cbv zeta.
  repeat match goal with
         | |- context [if ?c then _ else _] => destruct c
         end; split; reflexivity.
Qed.

Lemma AddPartialExit_nonneg (exit : PartialExit.t) (p : Position.t) :
  0 <= Position.CurrentQuantity (Position.AddPartialExit exit p).
Proof.
  pose proof (AddPartialExit_ledger exit p) as E. cbv zeta in E.
  destruct E as (_ & _ & Closed & Partial).
  destruct (Qlt_le_dec 0 (Position.CurrentQuantity p
                          - PartialExit.Quantity exit)) as [R | R].
  - destruct (Partial R) as (_ & CQ). rewrite CQ. lra.
  - destruct (Closed R) as (_ & CQ & _). rewrite CQ. lra.
Qed.

(** Claim C9, as stated, fails: [AddDCAEntry] checks nothing, and a DCA
    entry of -20 units on the position of 10 units, whose current quantity
    is non-negative, leaves a current quantity of -10. *)
Lemma current_quantity_negative_after_DCA :
  0 <= Position.CurrentQuantity position_10_at_100 /\
  Position.CurrentQuantity
    (Position.apply position_10_at_100 (Position.OpAddDCAEntry (dca_of (-20))))
  == -10 /\
  ~ 0 <= Position.CurrentQuantity
           (Position.apply position_10_at_100
                           (Position.OpAddDCAEntry (dca_of (-20)))).
Proof.
  split; [ | split ].
  - vm_compute. discriminate.
  - reflexivity.
  - vm_compute. intros H. apply H. reflexivity.
Qed.

(** Claim C9, amended.  [AddPartialExit] always leaves a non-negative
    current quantity, and an exit of at least the current quantity does not
    fail: it sets the current quantity and value to 0 and the status to
    [closed].  Every operation other than [BeforeCreate] and [AddDCAEntry]
    preserves [current_quantity >= 0]; those two write the (new) entry
    quantity into it, so that [entry_quantity >= 0] together with
    [current_quantity >= 0] is preserved by every operation whose DCA
    quantity is non-negative. *)
Theorem current_quantity_nonneg
        (op : Position.Op) (exit : PartialExit.t) (p : Position.t) :
  0 <= Position.CurrentQuantity (Position.AddPartialExit exit p) /\
  (Position.CurrentQuantity p <= PartialExit.Quantity exit ->
   Position.CurrentQuantity (Position.AddPartialExit exit p) = 0 /\
   Position.CurrentValue (Position.AddPartialExit exit p) = 0 /\
   Position.Status (Position.AddPartialExit exit p) = PositionStatusClosed) /\
  (sets_quantity_from_entry op = false ->
   0 <= Position.CurrentQuantity p ->
   0 <= Position.CurrentQuantity (Position.apply p op)) /\
  (sets_quantity_from_entry op = true ->
   Position.CurrentQuantity (Position.apply p op)
   == Position.EntryQuantity p + added_quantity op) /\
  (0 <= added_quantity op ->
   0 <= Position.EntryQuantity p /\ 0 <= Position.CurrentQuantity p ->
   0 <= Position.EntryQuantity (Position.apply p op) /\
   0 <= Position.CurrentQuantity (Position.apply p op)).
Proof.
  split; [ apply AddPartialExit_nonneg | ].
  split.
  { intros L.
    pose proof (AddPartialExit_ledger exit p) as E. cbv zeta in E.
    destruct E as (_ & _ & Closed & _).
    assert (R : Position.CurrentQuantity p - PartialExit.Quantity exit <= 0)
      by lra.
    destruct (Closed R) as (S & CQ & CV). auto. }
  split; [ | split ].
  - intros F N.
    destruct op as [ now0 | now0 | price0 now0 | | exit0 | entry0 | adjustment0 ];
      cbn in F |- *; try discriminate F.
    + destruct (BeforeUpdate_quantities now0 p) as [-> _]. exact N.
    + destruct (UpdateCurrentPrice_same_ledger price0 now0 p)
        as (_ & _ & _ & _ & _ & -> & _). exact N.
    + destruct (UpdateTrailingStop_quantities p) as [-> _]. exact N.
    + apply AddPartialExit_nonneg.
    + destruct (AddAdjustment_quantities adjustment0 p) as [-> _]. exact N.
  - intros T.
    destruct op as [ now0 | now0 | price0 now0 | | exit0 | entry0 | adjustment0 ];
      cbn in T |- *; try discriminate T.
    + destruct (Z.eqb (Position.EntryTime p) 0); cbn; lra.
    + reflexivity.
  - intros A [NE NC].
    destruct op as [ now0 | now0 | price0 now0 | | exit0 | entry0 | adjustment0 ];
      cbn in A |- *.
    + destruct (Z.eqb (Position.EntryTime p) 0); cbn; split; assumption.
    + destruct (BeforeUpdate_quantities now0 p) as [-> ->]. split; assumption.
    + destruct (UpdateCurrentPrice_same_ledger price0 now0 p)
        as (_ & _ & _ & -> & _ & -> & _). split; assumption.
    + destruct (UpdateTrailingStop_quantities p) as [-> ->].
      split; assumption.
    + split; [ | apply AddPartialExit_nonneg ].
      pose proof (AddPartialExit_ledger exit0 p) as E. cbv zeta in E.
      destruct E as (_ & -> & _). exact NE.
    + split; lra.
    + destruct (AddAdjustment_quantities adjustment0 p) as [-> ->].
      split; assumption.
Qed.

Lemma current_quantity_nonneg_witness :
  Position.CurrentQuantity
    (Position.AddPartialExit (exit_of 15) position_10_at_100) = 0 /\
  Position.CurrentValue
    (Position.AddPartialExit (exit_of 15) position_10_at_100) = 0 /\
  Position.Status (Position.AddPartialExit (exit_of 15) position_10_at_100)
  = PositionStatusClosed.
Proof.
  apply (proj1 (proj2 (current_quantity_nonneg
                         (Position.OpAddDCAEntry (dca_of 5))
                         (exit_of 15) position_10_at_100))).
  vm_compute. discriminate.
Defined.

(** *** Trailing stop *)

Lemma fgtb_max (new old : float64) :
  (if fgtb new old then new else old) = Qmax old new.
Proof.
  unfold fgtb, Qmax, GenericMinMax.gmax.
  rewrite <- (Qcompare_antisym old new).
  destruct (old ?= new); reflexivity.
Qed.

Lemma fltb_min (new old : float64) :
  (if fltb new old then new else old) = Qmin old new.
Proof.
  unfold fltb, Qmin, GenericMinMax.gmin.
  rewrite <- (Qcompare_antisym old new).
  destruct (old ?= new); reflexivity.
Qed.

Lemma stop_le_refl (a : option float64) : stop_le a a.
Proof. destruct a; cbn; [ lra | exact I ]. Qed.

Lemma stop_le_trans (a b c : option float64) :
  stop_le a b -> stop_le b c -> stop_le a c.
Proof.
  destruct a, b, c; cbn; trivial; try contradiction. intros. lra.
Qed.

(** [UpdateTrailingStop] writes the trailing-stop price only. *)
Lemma UpdateTrailingStop_Side (p : Position.t) :
  Position.Side (Position.UpdateTrailingStop p) = Position.Side p.
Proof.
  unfold Position.UpdateTrailingStop. split_branches; reflexivity.
Qed.

Lemma UpdateTrailingStop_long (p : Position.t) (pct : float64) :
  Position.Status p = PositionStatusOpen ->
  Position.TrailingStop p = Some pct ->
  Position.Side p = PositionSideLong ->
  Position.TrailingStopPrice (Position.UpdateTrailingStop p)
  = Some match Position.TrailingStopPrice p with
         | None => Position.CurrentPrice p * (1 - pct / 100)
         | Some old => Qmax old (Position.CurrentPrice p * (1 - pct / 100))
         end.
Proof.
  intros S T L. unfold Position.UpdateTrailingStop. rewrite T, S, L. cbn.
  destruct (Position.TrailingStopPrice p) as [old | ] eqn:E; [ | reflexivity ].
  rewrite <- fgtb_max.
  destruct (fgtb (Position.CurrentPrice p * (1 - pct / 100)) old);
    [ reflexivity | exact E ].
Qed.

Lemma UpdateTrailingStop_short (p : Position.t) (pct : float64) :
  Position.Status p = PositionStatusOpen ->
  Position.TrailingStop p = Some pct ->
  Position.Side p = PositionSideShort ->
  Position.TrailingStopPrice (Position.UpdateTrailingStop p)
  = Some match Position.TrailingStopPrice p with
         | None => Position.CurrentPrice p * (1 + pct / 100)
         | Some old => Qmin old (Position.CurrentPrice p * (1 + pct / 100))
         end.
Proof.
  intros S T L. unfold Position.UpdateTrailingStop. rewrite T, S, L. cbn.
  destruct (Position.TrailingStopPrice p) as [old | ] eqn:E; [ | reflexivity ].
  rewrite <- fltb_min.
  destruct (fltb (Position.CurrentPrice p * (1 + pct / 100)) old);
    [ reflexivity | exact E ].
Qed.

(** On a long position one call never lowers the trailing-stop price,
    whatever the status and the settings. *)
Lemma UpdateTrailingStop_long_stop_le (p : Position.t) :
  Position.Side p = PositionSideLong ->
  stop_le (Position.TrailingStopPrice p)
          (Position.TrailingStopPrice (Position.UpdateTrailingStop p)).
Proof.
  intros L. unfold Position.UpdateTrailingStop. rewrite L.
  destruct (Position.TrailingStop p) as [pct | ]; [ | apply stop_le_refl ].
  destruct (negb (Position.Status p =? PositionStatusOpen)%string);
    [ apply stop_le_refl | ].
  cbn.
  destruct (Position.TrailingStopPrice p) as [old | ] eqn:E.
  - cmp_case (fgtb (Position.CurrentPrice p * (1 - pct / 100)) old); cbn.
    + lra.
    + rewrite E. cbn. lra.
  - exact I.
Qed.

Lemma price_feed_long_stop_le (ops : list Position.Op) :
  forall p : Position.t,
    forallb is_price_feed ops = true ->
    Position.Side p = PositionSideLong ->
    Position.Side (Position.run p ops) = PositionSideLong /\
    stop_le (Position.TrailingStopPrice p)
            (Position.TrailingStopPrice (Position.run p ops)).
Proof.
  induction ops as [ | op ops IH ]; intros p F L.
  - split; [ exact L | apply stop_le_refl ].
  - cbn in F. apply andb_true_iff in F. destruct F as [F1 F].
    assert (Step : Position.Side (Position.apply p op) = PositionSideLong /\
                   stop_le (Position.TrailingStopPrice p)
                     (Position.TrailingStopPrice (Position.apply p op))).
    { destruct op as [ now0 | now0 | price0 now0 | | exit0 | entry0 | adjustment0 ];
        cbn in F1; try discriminate F1; cbn.
      - destruct (UpdateCurrentPrice_same_ledger price0 now0 p)
          as (_ & -> & _ & _ & _ & _ & _ & _ & ->).
        split; [ exact L | apply stop_le_refl ].
      - rewrite UpdateTrailingStop_Side.
        split; [ exact L | apply UpdateTrailingStop_long_stop_le; exact L ]. }
    destruct Step as [L1 S1].
    destruct (IH (Position.apply p op) F L1) as [L2 S2].
    split; [ exact L2 | ].
    eapply stop_le_trans; [ exact S1 | exact S2 ].
Qed.

(** The ratchet at work: ticks 110, 130, 90 with a 10% trailing stop leave
    the stop at 117, set at the peak, not at 81. *)
Example trailing_stop_110_130_90 :
  Position.TrailingStopPrice (Position.run position_10_at_100 feed_110_130_90)
  = Some (130 * (1 - 10 / 100)).
Proof. reflexivity. Qed.

(** Claim C2.  On an open position with a trailing-stop percentage [pct]
    set, [UpdateTrailingStop] sets the trailing-stop price of a long
    position to the larger of the existing price and
    [current_price * (1 - pct / 100)], and of a short position to the
    smaller of the existing price and [current_price * (1 + pct / 100)]
    (to the new price when none was set).  Hence on a long position the
    trailing-stop price never decreases along any sequence of price updates
    and [UpdateTrailingStop] calls. *)
Theorem trailing_stop_ratchet
        (p : Position.t) (pct : float64) (ops : list Position.Op) :
  (Position.Status p = PositionStatusOpen ->
   Position.TrailingStop p = Some pct ->
   (Position.Side p = PositionSideLong ->
    Position.TrailingStopPrice (Position.UpdateTrailingStop p)
    = Some match Position.TrailingStopPrice p with
           | None => Position.CurrentPrice p * (1 - pct / 100)
           | Some old => Qmax old (Position.CurrentPrice p * (1 - pct / 100))
           end) /\
   (Position.Side p = PositionSideShort ->
    Position.TrailingStopPrice (Position.UpdateTrailingStop p)
    = Some match Position.TrailingStopPrice p with
           | None => Position.CurrentPrice p * (1 + pct / 100)
           | Some old => Qmin old (Position.CurrentPrice p * (1 + pct / 100))
           end)) /\
  (Position.Side p = PositionSideLong ->
   forallb is_price_feed ops = true ->
   stop_le (Position.TrailingStopPrice p)
           (Position.TrailingStopPrice (Position.run p ops))).
Proof.
  split.
  - intros S T. split; intros L.
    + apply UpdateTrailingStop_long; assumption.
    + apply UpdateTrailingStop_short; assumption.
  - intros L F. apply (price_feed_long_stop_le ops p F L).
Qed.

Lemma trailing_stop_ratchet_witness :
  Position.TrailingStopPrice
    (Position.UpdateTrailingStop
       (Position.UpdateCurrentPrice 110 1100%Z position_10_at_100))
  = Some (110 * (1 - 10 / 100)) /\
  stop_le
    (Position.TrailingStopPrice
       (Position.UpdateCurrentPrice 110 1100%Z position_10_at_100))
    (Position.TrailingStopPrice
       (Position.run
          (Position.UpdateCurrentPrice 110 1100%Z position_10_at_100)
          feed_110_130_90)).
Proof.
  split.
  - apply (proj1 (proj1 (trailing_stop_ratchet
             (Position.UpdateCurrentPrice 110 1100%Z position_10_at_100)
             10 feed_110_130_90) eq_refl eq_refl) eq_refl).
  - apply (proj2 (trailing_stop_ratchet
             (Position.UpdateCurrentPrice 110 1100%Z position_10_at_100)
             10 feed_110_130_90)); reflexivity.
Defined.

(** *** Price update *)

(** [updatePerformanceMetrics] leaves the current aggregate and the
    trackers alone. *)
Lemma updatePerformanceMetrics_tracking (p : Position.t) :
  let p' := Position.updatePerformanceMetrics p in
  Position.CurrentPrice p' = Position.CurrentPrice p /\
  Position.CurrentValue p' = Position.CurrentValue p /\
  Position.HighestValue p' = Position.HighestValue p /\
  Position.LowestValue p' = Position.LowestValue p /\
  Position.HighestPrice p' = Position.HighestPrice p /\
  Position.LowestPrice p' = Position.LowestPrice p /\
  Position.MaxDrawdown p' = Position.MaxDrawdown p.
Proof.
  cbv zeta.
  remember (Position.updatePerformanceMetrics p) as p' eqn:Hp'. revert Hp'.
  cbv beta delta [Position.updatePerformanceMetrics].
  destruct (Position.Status p =? PositionStatusOpen)%string;
    [ | destruct (Position.Status p =? PositionStatusClosed)%string;
        [ destruct (Position.ExitValue p) | ] ];
    run_body; repeat split.
Qed.

Lemma updatePerformanceMetrics_open (p : Position.t) :
  Position.Status p = PositionStatusOpen ->
  Position.UnrealizedPnL (Position.updatePerformanceMetrics p)
  = (Position.CurrentPrice p - Position.EntryPrice p)
    * Position.CurrentQuantity p.
Proof.
  intros S.
  remember (Position.updatePerformanceMetrics p) as p' eqn:Hp'. revert Hp'.
  cbv beta delta [Position.updatePerformanceMetrics].
  rewrite S. change (PositionStatusOpen =? PositionStatusOpen)%string with true.
  run_body; reflexivity.
Qed.

(** What [updateTrackingValues] writes. *)
Lemma updateTrackingValues_trackers (p : Position.t) :
  let p' := Position.updateTrackingValues p in
  Position.CurrentPrice p' = Position.CurrentPrice p /\
  Position.CurrentValue p' = Position.CurrentValue p /\
  Position.UnrealizedPnL p' = Position.UnrealizedPnL p /\
  Position.HighestValue p'
  = Qmax (Position.HighestValue p) (Position.CurrentValue p) /\
  Position.HighestPrice p'
  = Qmax (Position.HighestPrice p) (Position.CurrentPrice p) /\
  Position.LowestValue p'
  = Qmin (Position.LowestValue p) (Position.CurrentValue p) /\
  Position.LowestPrice p'
  = Qmin (Position.LowestPrice p) (Position.CurrentPrice p) /\
  Position.MaxDrawdown p'
  = if fgtb (Position.HighestValue p') 0
    then Qmax (Position.MaxDrawdown p)
              ((Position.HighestValue p' - Position.CurrentValue p')
               / Position.HighestValue p' * 100)
    else Position.MaxDrawdown p.
Proof.
  cbv zeta. rewrite <- !fgtb_max, <- !fltb_min.
  remember (Position.updateTrackingValues p) as p' eqn:Hp'. revert Hp'.
  cbv beta delta [Position.updateTrackingValues].
  run_body; use_outcomes; repeat split; reflexivity.
Qed.

Lemma Qmax_bounds (a b : float64) : a <= Qmax a b /\ b <= Qmax a b.
Proof. split; [ apply Q.le_max_l | apply Q.le_max_r ]. Qed.

Lemma Qmin_bounds (a b : float64) : Qmin a b <= a /\ Qmin a b <= b.
Proof. split; [ apply Q.le_min_l | apply Q.le_min_r ]. Qed.

(** One price update. *)
Lemma UpdateCurrentPrice_step price now (p : Position.t) :
  let p' := Position.UpdateCurrentPrice price now p in
  Position.CurrentPrice p' = price /\
  Position.CurrentValue p' = price * Position.CurrentQuantity p /\
  (Position.LowestPrice p' <= price <= Position.HighestPrice p' /\
   Position.LowestValue p' <= price * Position.CurrentQuantity p
   <= Position.HighestValue p') /\
  (Position.LowestPrice p' <= Position.LowestPrice p /\
   Position.HighestPrice p <= Position.HighestPrice p' /\
   Position.LowestValue p' <= Position.LowestValue p /\
   Position.HighestValue p <= Position.HighestValue p') /\
  Position.MaxDrawdown p <= Position.MaxDrawdown p' /\
  Position.MaxDrawdown p'
  = (if fgtb (Position.HighestValue p') 0
     then Qmax (Position.MaxDrawdown p)
               ((Position.HighestValue p' - Position.CurrentValue p')
                / Position.HighestValue p' * 100)
     else Position.MaxDrawdown p) /\
  (Position.Status p = PositionStatusOpen ->
   Position.UnrealizedPnL p'
   = (price - Position.EntryPrice p) * Position.CurrentQuantity p).
Proof.
  cbv zeta. unfold Position.UpdateCurrentPrice. cbv zeta.
  set (p1 := Position.set_LastPriceUpdate now
               (Position.set_CurrentValue
                  (price * Position.CurrentQuantity
                             (Position.set_CurrentPrice price p))
                  (Position.set_CurrentPrice price p))).
  set (p2 := Position.updatePerformanceMetrics p1).
  pose proof (updateTrackingValues_trackers p2) as T. cbv zeta in T.
  destruct T as (TP & TV & TU & HV & HP & LV & LP & MD).
  pose proof (updatePerformanceMetrics_tracking p1) as M. cbv zeta in M.
  fold p2 in M. destruct M as (MP & MV & MHV & MLV & MHP & MLP & MMD).
  rewrite MMD in MD. rewrite MHV, MV in HV. rewrite MHP, MP in HP.
  rewrite MLV, MV in LV. rewrite MLP, MP in LP.
  rewrite MP in TP. rewrite MV in TV.
  change (Position.CurrentPrice p1) with price in *.
  change (Position.CurrentValue p1)
    with (price * Position.CurrentQuantity p) in *.
  change (Position.HighestValue p1) with (Position.HighestValue p) in *.
  change (Position.HighestPrice p1) with (Position.HighestPrice p) in *.
  change (Position.LowestValue p1) with (Position.LowestValue p) in *.
  change (Position.LowestPrice p1) with (Position.LowestPrice p) in *.
  change (Position.MaxDrawdown p1) with (Position.MaxDrawdown p) in *.
  split; [ exact TP | ]. split; [ exact TV | ].
  split.
  { rewrite HV, HP, LV, LP.
    repeat split;
      first [ apply Qmax_bounds | apply Qmin_bounds ]. }
  split.
  { rewrite HV, HP, LV, LP.
    repeat split;
      first [ apply Qmax_bounds | apply Qmin_bounds ]. }
  split.
  { rewrite MD. destruct (fgtb _ 0); [ apply Qmax_bounds | lra ]. }
  split.
  { rewrite MD at 1. rewrite TV. reflexivity. }
  intros S. rewrite TU. unfold p2.
  rewrite updatePerformanceMetrics_open by exact S. reflexivity.
Qed.

(** A series of price updates: the ledger fields stay, the trackers only
    widen, the drawdown only grows, and every price fed and the value it
    gave lie between the lowest and the highest tracker. *)
Lemma price_ticks_bounds (ticks : list (float64 * Time)) :
  forall p : Position.t,
    let q := Position.run p (price_ticks ticks) in
    same_ledger p q /\
    (Position.LowestPrice q <= Position.LowestPrice p /\
     Position.HighestPrice p <= Position.HighestPrice q /\
     Position.LowestValue q <= Position.LowestValue p /\
     Position.HighestValue p <= Position.HighestValue q) /\
    Position.MaxDrawdown p <= Position.MaxDrawdown q /\
    (forall x, In x (map fst ticks) ->
               Position.LowestPrice q <= x <= Position.HighestPrice q /\
               Position.LowestValue q <= x * Position.CurrentQuantity p
               <= Position.HighestValue q).
Proof.
  induction ticks as [ | [price now] ticks IH ]; intros p; cbv zeta.
  - cbn. split; [ apply same_ledger_refl | ].
    split; [ repeat split; lra | ].
    split; [ lra | intros x [] ].
  - change (Position.run p (price_ticks ((price, now) :: ticks)))
      with (Position.run (Position.UpdateCurrentPrice price now p)
                         (price_ticks ticks)).
    specialize (IH (Position.UpdateCurrentPrice price now p)).
    cbv zeta in IH.
    set (p1 := Position.UpdateCurrentPrice price now p) in *.
    set (q := Position.run p1 (price_ticks ticks)) in *.
    destruct IH as (L & (W1 & W2 & W3 & W4) & D & B).
    pose proof (UpdateCurrentPrice_step price now p) as S. cbv zeta in S.
    fold p1 in S.
    destruct S as (_ & _ & ((P1 & P2) & (V1 & V2)) & (X1 & X2 & X3 & X4)
                   & D1 & _ & _).
    pose proof (UpdateCurrentPrice_same_ledger price now p) as L1. fold p1 in L1.
    assert (CQ : Position.CurrentQuantity p1 = Position.CurrentQuantity p)
      by (destruct L1 as (_ & _ & _ & _ & _ & CQ & _); exact CQ).
    split; [ eapply same_ledger_trans; eassumption | ].
    split; [ repeat split; lra | ].
    split; [ lra | ].
    intros x [E | I].
    + cbn in E. subst x. repeat split; lra.
    + specialize (B x I). rewrite CQ in B. exact B.
Qed.

(** The scenario of the specification: long, 10 units entered at 100, stop
    loss at 90, price fed 85. *)
Example scenario_price_85 :
  let p := Position.UpdateCurrentPrice 85 1100%Z position_10_at_100 in
  Position.UnrealizedPnL p == -150 /\
  Position.CurrentValue p == 850 /\
  Position.MaxDrawdown p == 15 /\
  Position.ShouldTriggerStopLoss p = true.
Proof. vm_compute. repeat split. Qed.

(** Claim C4.  On an open position, after any series of earlier price
    ticks, [UpdateCurrentPrice price] leaves
    [current_value = price * current_quantity] and
    [unrealized PnL = (price - entry_price) * current_quantity]; the lowest
    and highest price and value trackers bound every price fed so far and
    the value it gave, and never narrow; the maximum drawdown never
    decreases, and when the highest value is positive it is the larger of
    its former value and
    [(highest_value - current_value) / highest_value * 100].  A long
    position of 10 units entered at 100 and fed price 85 has unrealized
    PnL -150. *)
Theorem UpdateCurrentPrice_postconditions
        (p : Position.t) (ticks : list (float64 * Time))
        (price : float64) (now : Time) :
  Position.Status p = PositionStatusOpen ->
  let q := Position.run p (price_ticks ticks) in
  let p' := Position.UpdateCurrentPrice price now q in
  Position.CurrentValue p' = price * Position.CurrentQuantity p' /\
  Position.UnrealizedPnL p'
  = (price - Position.EntryPrice p') * Position.CurrentQuantity p' /\
  (forall x, In x (map fst ticks ++ [price]) ->
             Position.LowestPrice p' <= x <= Position.HighestPrice p' /\
             Position.LowestValue p' <= x * Position.CurrentQuantity p'
             <= Position.HighestValue p') /\
  (Position.LowestPrice p' <= Position.LowestPrice p /\
   Position.HighestPrice p <= Position.HighestPrice p' /\
   Position.LowestValue p' <= Position.LowestValue p /\
   Position.HighestValue p <= Position.HighestValue p') /\
  (Position.MaxDrawdown p <= Position.MaxDrawdown q /\
   Position.MaxDrawdown q <= Position.MaxDrawdown p') /\
  (0 < Position.HighestValue p' ->
   Position.MaxDrawdown p'
   = Qmax (Position.MaxDrawdown q)
          ((Position.HighestValue p' - Position.CurrentValue p')
           / Position.HighestValue p' * 100)) /\
  (Position.HighestValue p' <= 0 ->
   Position.MaxDrawdown p' = Position.MaxDrawdown q) /\
  Position.UnrealizedPnL
    (Position.UpdateCurrentPrice 85 now position_10_at_100) == -150.
Proof.
  intros O. cbv zeta.
  pose proof (price_ticks_bounds ticks p) as T. cbv zeta in T.
  set (q := Position.run p (price_ticks ticks)) in *.
  destruct T as (L & (W1 & W2 & W3 & W4) & D & B).
  pose proof (UpdateCurrentPrice_step price now q) as S. cbv zeta in S.
  pose proof (UpdateCurrentPrice_same_ledger price now q) as L1.
  set (p' := Position.UpdateCurrentPrice price now q) in *.
  destruct S as (_ & CV & ((P1 & P2) & (V1 & V2)) & (X1 & X2 & X3 & X4)
                 & D1 & MD & U).
  destruct L as (LS & _ & _ & _ & _ & LQ & _).
  destruct L1 as (_ & _ & EP & _ & _ & CQ & _).
  rewrite EP, CQ.
  split; [ exact CV | ].
  split; [ apply U; rewrite LS; exact O | ].
  split.
  { intros x I. apply in_app_or in I. destruct I as [I | [E | []]].
    - specialize (B x I). rewrite <- LQ in B. repeat split; lra.
    - subst x. repeat split; lra. }
  split; [ repeat split; lra | ].
  split; [ split; assumption | ].
  split; [ | split ].
  - intros H. apply fgtb_true in H. rewrite H in MD. exact MD.
  - intros H. apply fgtb_false in H. rewrite H in MD. exact MD.
  - reflexivity.
Qed.

Lemma UpdateCurrentPrice_postconditions_witness :
  Position.UnrealizedPnL
    (Position.UpdateCurrentPrice 85 1400%Z
       (Position.run position_10_at_100
                     (price_ticks [(110, 1100%Z); (130, 1200%Z)])))
  = (85 - 100) * 10.
Proof.
  apply (UpdateCurrentPrice_postconditions
           position_10_at_100 [(110, 1100%Z); (130, 1200%Z)] 85 1400%Z).
  reflexivity.
Defined.

(** * Proofs for the rest of the package *)

(** ** Trade status predicates and fill *)

(** A trade that can be retried is completed and unsuccessful; a trade is
    both completed and successful exactly when it is confirmed (an executed
    trade is successful but not yet completed). *)
Theorem trade_status_predicates (tr : Trade.t) :
  (Trade.CanRetry tr = true ->
   Trade.IsCompleted tr = true /\ Trade.IsSuccessful tr = false) /\
  (Trade.IsCompleted tr && Trade.IsSuccessful tr = true <->
   Trade.Status tr = TradeStatusConfirmed) /\
  (Trade.Status tr = TradeStatusExecuted ->
   Trade.IsSuccessful tr = true /\ Trade.IsCompleted tr = false).
Proof.
  unfold Trade.CanRetry, Trade.IsCompleted, Trade.IsSuccessful.
  split; [ | split ].
  - intros H. apply andb_true_iff in H. destruct H as [H _].
    apply String.eqb_eq in H. rewrite H. split; reflexivity.
  - destruct (String.eqb_spec (Trade.Status tr) TradeStatusConfirmed)
      as [E | N].
    + rewrite E. split; reflexivity.
    + split; [ | intros E; contradiction ].
      destruct (String.eqb_spec (Trade.Status tr) TradeStatusExecuted)
        as [E | N2].
      * rewrite E. cbn. discriminate.
      * cbn. rewrite andb_false_r. discriminate.
  - intros E. rewrite E. split; reflexivity.
Qed.

Lemma trade_status_predicates_witness :
  Trade.IsCompleted trade_failed = true /\
  Trade.IsSuccessful trade_failed = false.
Proof.
  apply (proj1 (trade_status_predicates
                  (Trade.set_MaxRetries 3%Z trade_failed))).
  reflexivity.
Defined.

Lemma Qdiv_mult_100_bounds (a b : Q) :
  0 < b -> 0 <= a <= b -> 0 <= a / b * 100 <= 100.
Proof.
  intros B [A1 A2].
  assert (L : 0 <= a / b) by (apply Qle_shift_div_l; [ exact B | lra ]).
  assert (U : a / b <= 1) by (apply Qle_shift_div_r; [ exact B | lra ]).
  split; lra.
Qed.

Lemma Qdiv_mult_100_over (a b : Q) :
  0 < b -> b <= a -> 100 <= a / b * 100.
Proof.
  intros B A.
  assert (L : 1 <= a / b) by (apply Qle_shift_div_l; [ exact B | lra ]).
  lra.
Qed.

(** [GetFillPercentage] is 0 for an order of zero quantity; for a positive
    quantity and an executed quantity between 0 and it, the percentage lies
    in [0, 100]; it is not capped: an executed quantity of at least the
    quantity gives at least 100. *)
Theorem GetFillPercentage_bounds (tr : Trade.t) :
  (Trade.Quantity tr == 0 -> Trade.GetFillPercentage tr = 0) /\
  (0 < Trade.Quantity tr ->
   0 <= Trade.ExecutedQuantity tr <= Trade.Quantity tr ->
   0 <= Trade.GetFillPercentage tr <= 100) /\
  (0 < Trade.Quantity tr ->
   Trade.Quantity tr <= Trade.ExecutedQuantity tr ->
   100 <= Trade.GetFillPercentage tr).
Proof.
  unfold Trade.GetFillPercentage.
  split; [ | split ].
  - intros Z. apply feqb_true in Z. rewrite Z. reflexivity.
  - intros Q B.
    assert (N : feqb (Trade.Quantity tr) 0 = false)
      by (apply feqb_false; lra).
    rewrite N. apply Qdiv_mult_100_bounds; assumption.
  - intros Q B.
    assert (N : feqb (Trade.Quantity tr) 0 = false)
      by (apply feqb_false; lra).
    rewrite N. apply Qdiv_mult_100_over; assumption.
Qed.

Lemma GetFillPercentage_bounds_witness :
  0 <= Trade.GetFillPercentage trade_partly_filled <= 100.
Proof.
  apply (proj1 (proj2 (GetFillPercentage_bounds trade_partly_filled))).
  - reflexivity.
  - split; vm_compute; discriminate.
Defined.

(** ** Trade hooks *)



(** [Trade.BeforeUpdate], field by field. *)
Lemma BeforeUpdate_closed_form (now : Time) (tr : TradeRow.t) :
  TradeRow.BeforeUpdate now tr =
  let executed :=
    String.eqb (Trade.Status (TradeRow.Core tr)) TradeStatusExecuted in
  let confirmed :=
    String.eqb (Trade.Status (TradeRow.Core tr)) TradeStatusConfirmed in
  let executedAt :=
    if executed
    then match TradeRow.ExecutedAt tr with
         | None => Some now
         | Some stamp => Some stamp
         end
    else TradeRow.ExecutedAt tr in
  {| TradeRow.Core := TradeRow.Core tr;
     TradeRow.ExecutedAmount := TradeRow.ExecutedAmount tr;
     TradeRow.TradingFee := TradeRow.TradingFee tr;
     TradeRow.PlatformFee := TradeRow.PlatformFee tr;
     TradeRow.GasFee := TradeRow.GasFee tr;
     TradeRow.TotalFees :=
       TradeRow.TradingFee tr + TradeRow.PlatformFee tr + TradeRow.GasFee tr;
     TradeRow.RequestedAt := TradeRow.RequestedAt tr;
     TradeRow.ExecutedAt := executedAt;
     TradeRow.ConfirmedAt :=
       if confirmed
       then match TradeRow.ConfirmedAt tr with
            | None => Some now
            | Some stamp => Some stamp
            end
       else TradeRow.ConfirmedAt tr;
     TradeRow.ExecutionTime :=
       if executed
       then match TradeRow.ExecutedAt tr with
            | None =>
                TradeRow.Milliseconds (Sub now (TradeRow.RequestedAt tr))
            | Some _ => TradeRow.ExecutionTime tr
            end
       else TradeRow.ExecutionTime tr;
     TradeRow.ConfirmationTime :=
       if confirmed
       then match TradeRow.ConfirmedAt tr, executedAt with
            | None, Some stamp => TradeRow.Milliseconds (Sub now stamp)
            | _, _ => TradeRow.ConfirmationTime tr
            end
       else TradeRow.ConfirmationTime tr;
     TradeRow.ProfitLoss := TradeRow.ProfitLoss tr |}.
Proof.
  destruct tr as [core ea tf pf gf total ra xa ca xt ct pl].
  cbv beta iota zeta delta
      [TradeRow.BeforeUpdate TradeRow.calculateProfitLoss
       TradeRow.Core TradeRow.ExecutedAmount TradeRow.TradingFee
       TradeRow.PlatformFee TradeRow.GasFee TradeRow.TotalFees
       TradeRow.RequestedAt TradeRow.ExecutedAt TradeRow.ConfirmedAt
       TradeRow.ExecutionTime TradeRow.ConfirmationTime TradeRow.ProfitLoss
       TradeRow.set_Core TradeRow.set_TotalFees TradeRow.set_RequestedAt
       TradeRow.set_ExecutedAt TradeRow.set_ConfirmedAt
       TradeRow.set_ExecutionTime TradeRow.set_ConfirmationTime].
  destruct (String.eqb (Trade.Status core) TradeStatusExecuted);
    destruct xa as [xa | ]; cbv beta iota;
    destruct (String.eqb (Trade.Status core) TradeStatusConfirmed);
    destruct ca as [ca | ]; cbv beta iota;
    repeat (match goal with
            | |- context [if ?c then _ else _] => destruct c
            end; cbv beta iota);
    reflexivity.
Qed.

(** [Trade.BeforeUpdate] leaves the total of the three fees in
    [TotalFees] and never changes the core fields; a stamp that is set is
    never overwritten, so a second update at a later time changes neither
    stamp nor latency; an executed trade without stamp gets [ExecutedAt = now]
    and the whole milliseconds since the request; a trade confirmed without
    ever being stamped as executed gets [ConfirmedAt = now] and keeps its
    former confirmation latency. *)
Theorem Trade_BeforeUpdate_stamps (now later : Time) (tr : TradeRow.t) :
  let tr' := TradeRow.BeforeUpdate now tr in
  let tr'' := TradeRow.BeforeUpdate later tr' in
  TradeRow.TotalFees tr'
  = TradeRow.TradingFee tr + TradeRow.PlatformFee tr + TradeRow.GasFee tr /\
  TradeRow.Core tr' = TradeRow.Core tr /\
  TradeRow.ProfitLoss tr' = TradeRow.ProfitLoss tr /\
  tr'' = tr' /\
  (forall stamp, TradeRow.ExecutedAt tr = Some stamp ->
                 TradeRow.ExecutedAt tr' = Some stamp /\
                 TradeRow.ExecutionTime tr' = TradeRow.ExecutionTime tr) /\
  (forall stamp, TradeRow.ConfirmedAt tr = Some stamp ->
                 TradeRow.ConfirmedAt tr' = Some stamp /\
                 TradeRow.ConfirmationTime tr'
                 = TradeRow.ConfirmationTime tr) /\
  (Trade.Status (TradeRow.Core tr) = TradeStatusExecuted ->
   TradeRow.ExecutedAt tr = None ->
   TradeRow.ExecutedAt tr' = Some now /\
   TradeRow.ExecutionTime tr'
   = TradeRow.Milliseconds (Sub now (TradeRow.RequestedAt tr))) /\
  (Trade.Status (TradeRow.Core tr) = TradeStatusConfirmed ->
   TradeRow.ConfirmedAt tr = None -> TradeRow.ExecutedAt tr = None ->
   TradeRow.ConfirmedAt tr' = Some now /\
   TradeRow.ExecutedAt tr' = None /\
   TradeRow.ConfirmationTime tr' = TradeRow.ConfirmationTime tr).
Proof.
  cbv zeta. rewrite !BeforeUpdate_closed_form.
  destruct tr as [core ea tf pf gf total ra xa ca xt ct pl].
  cbn [TradeRow.Core TradeRow.ExecutedAmount TradeRow.TradingFee
       TradeRow.PlatformFee TradeRow.GasFee TradeRow.TotalFees
       TradeRow.RequestedAt TradeRow.ExecutedAt TradeRow.ConfirmedAt
       TradeRow.ExecutionTime TradeRow.ConfirmationTime TradeRow.ProfitLoss].
  destruct (String.eqb_spec (Trade.Status core) TradeStatusExecuted)
    as [E | NE];
    destruct (String.eqb_spec (Trade.Status core) TradeStatusConfirmed)
      as [C | NC];
    try (exfalso; rewrite E in C; discriminate C);
    destruct xa as [xa | ]; destruct ca as [ca | ];
    repeat match goal with
           | |- _ /\ _ => split
           | |- forall _, _ => intro
           | |- _ = _ => first [ reflexivity | congruence ]
           end;
    try congruence; try discriminate.
Qed.

Lemma Trade_BeforeUpdate_stamps_witness :
  TradeRow.ExecutedAt
    (TradeRow.BeforeUpdate 7500%Z (row_of trade_partly_filled))
  = Some 7500%Z /\
  TradeRow.ExecutionTime
    (TradeRow.BeforeUpdate 7500%Z (row_of trade_partly_filled))
  = TradeRow.Milliseconds (Sub 7500%Z 5000%Z).
Proof.
  apply (Trade_BeforeUpdate_stamps 7500%Z 9000%Z (row_of trade_partly_filled));
    reflexivity.
Defined.

Lemma Qdiv_mult_cancel (a b : Q) : ~ b == 0 -> a / b * b == a.
Proof. intros B. field. exact B. Qed.

Lemma Qdiv_nonneg (a b : Q) : 0 < b -> 0 <= a -> 0 <= a / b.
Proof. intros B A. apply Qle_shift_div_l; [ exact B | lra ]. Qed.

(** [GetEffectivePrice] is 0 when nothing was executed, whatever the
    amounts.  With non-negative total fees the net amount of a buy is at
    least the executed amount, and that of any other side at most the
    executed amount (every side other than [buy] is treated as a sell); the
    effective price of a buy with a non-negative executed amount and a
    positive executed quantity is not negative. *)
Theorem GetEffectivePrice_includes_fees (tr : TradeRow.t) :
  (Trade.ExecutedQuantity (TradeRow.Core tr) == 0 ->
   TradeRow.GetEffectivePrice tr = 0) /\
  (0 <= TradeRow.TotalFees tr ->
   (Trade.Side (TradeRow.Core tr) = TradeSideBuy ->
    TradeRow.ExecutedAmount tr <= TradeRow.GetNetAmount tr) /\
   (Trade.Side (TradeRow.Core tr) <> TradeSideBuy ->
    TradeRow.GetNetAmount tr <= TradeRow.ExecutedAmount tr)) /\
  (0 < Trade.ExecutedQuantity (TradeRow.Core tr) ->
   0 <= TradeRow.TotalFees tr -> 0 <= TradeRow.ExecutedAmount tr ->
   Trade.Side (TradeRow.Core tr) = TradeSideBuy ->
   0 <= TradeRow.GetEffectivePrice tr).
Proof.
  unfold TradeRow.GetEffectivePrice, TradeRow.GetNetAmount. cbv zeta.
  split; [ | split ].
  - intros Z. apply feqb_true in Z. rewrite Z. reflexivity.
  - intros F. split; intros S.
    + rewrite S. cbn. lra.
    + apply String.eqb_neq in S. rewrite S. lra.
  - intros P F A S.
    assert (N : feqb (Trade.ExecutedQuantity (TradeRow.Core tr)) 0 = false)
      by (apply feqb_false; lra).
    rewrite N, S. cbn. apply Qdiv_nonneg; [ exact P | lra ].
Qed.

Lemma GetEffectivePrice_includes_fees_witness :
  TradeRow.ExecutedAmount (TradeRow.BeforeUpdate 7500%Z
                             (row_of trade_partly_filled))
  <= TradeRow.GetNetAmount
       (TradeRow.BeforeUpdate 7500%Z (row_of trade_partly_filled)) /\
  0 <= TradeRow.GetEffectivePrice
         (TradeRow.BeforeUpdate 7500%Z (row_of trade_partly_filled)).
Proof.
  split.
  - apply (proj1 (proj2 (GetEffectivePrice_includes_fees
                           (TradeRow.BeforeUpdate 7500%Z
                              (row_of trade_partly_filled))))).
    + vm_compute. discriminate.
    + reflexivity.
  - apply (proj2 (proj2 (GetEffectivePrice_includes_fees
                           (TradeRow.BeforeUpdate 7500%Z
                              (row_of trade_partly_filled))))).
    + reflexivity.
    + vm_compute. discriminate.
    + vm_compute. discriminate.
    + reflexivity.
Defined.

(** ** Win rate *)

Lemma inject_Z_ratio_bounds (s t : Z) :
  (0 < t)%Z -> (0 <= s <= t)%Z ->
  0 <= inject_Z s / inject_Z t * 100 <= 100.
Proof.
  intros T [S1 S2]. apply Qdiv_mult_100_bounds.
  - change 0 with (inject_Z 0). rewrite <- Zlt_Qlt. exact T.
  - split.
    + change 0 with (inject_Z 0). rewrite <- Zle_Qle. exact S1.
    + rewrite <- Zle_Qle. exact S2.
Qed.

(** [CalculateWinRate] is 0 when there is no trade and lies in [0, 100]
    when the successful trades are between 0 and a positive total.
    [User.BeforeUpdate] stores that rate when the user has trades, and keeps
    the stored rate when the user has none. *)
Theorem win_rate_bounds (successful total : Z) (u : User.t) :
  CalculateWinRate successful 0 = 0 /\
  ((0 < total)%Z -> (0 <= successful <= total)%Z ->
   0 <= CalculateWinRate successful total <= 100) /\
  ((0 < User.TotalTrades u)%Z ->
   User.WinRate (User.BeforeUpdate u)
   = CalculateWinRate (User.SuccessfulTrades u) (User.TotalTrades u)) /\
  ((User.TotalTrades u <= 0)%Z ->
   User.WinRate (User.BeforeUpdate u) = User.WinRate u).
Proof.
  unfold CalculateWinRate, User.BeforeUpdate, float64_of_int. cbv zeta.
  split; [ reflexivity | ].
  split; [ | split ].
  - intros T S.
    destruct (Z.eqb_spec total 0) as [E | E]; [ lia | ].
    apply inject_Z_ratio_bounds; assumption.
  - intros T.
    destruct (Z.eqb_spec (User.TotalTrades u) 0) as [E | E]; [ lia | ].
    destruct (Z.ltb_spec 0 (User.TotalTrades u)) as [L | L]; [ | lia ].
    cbn. destruct (0 <? User.SuccessfulTrades u)%Z; reflexivity.
  - intros T.
    destruct (Z.ltb_spec 0 (User.TotalTrades u)) as [L | L]; [ lia | ].
    destruct (0 <? User.SuccessfulTrades u)%Z; reflexivity.
Qed.

Lemma win_rate_bounds_witness :
  0 <= CalculateWinRate 3 4 <= 100 /\
  User.WinRate (User.BeforeUpdate user_3_of_4)
  = CalculateWinRate (User.SuccessfulTrades user_3_of_4)
                     (User.TotalTrades user_3_of_4).
Proof.
  split.
  - apply (proj1 (proj2 (win_rate_bounds 3 4 user_3_of_4))); lia.
  - apply (proj1 (proj2 (proj2 (win_rate_bounds 3 4 user_3_of_4)))).
    reflexivity.
Defined.

(** ** User *)

(** [CanTrade] holds exactly for an active user with active status, a
    connected or encrypted wallet and a valid subscription: the extra test of
    the subscription type in the method changes nothing.  In particular a
    paid subscription without expiry date, or expiring exactly now, cannot
    trade. *)
Theorem CanTrade_characterisation (now : Time) (u : User.t) :
  User.CanTrade now u
  = User.IsActive u
    && String.eqb (User.Status u) UserStatusActive
    && (String.eqb (User.WalletStatus u) WalletStatusConnected
        || String.eqb (User.WalletStatus u) WalletStatusEncrypted)
    && User.IsSubscriptionValid now u /\
  (User.SubscriptionType u <> SubscriptionFree ->
   User.SubscriptionExpiry u = None \/ User.SubscriptionExpiry u = Some now ->
   User.CanTrade now u = false).
Proof.
  unfold User.CanTrade, User.IsSubscriptionValid.
  split.
  - destruct (User.IsActive u);
      destruct (String.eqb (User.Status u) UserStatusActive);
      destruct (String.eqb (User.WalletStatus u) WalletStatusConnected);
      destruct (String.eqb (User.WalletStatus u) WalletStatusEncrypted);
      destruct (String.eqb (User.SubscriptionType u) SubscriptionFree);
      try reflexivity;
      destruct (User.SubscriptionExpiry u) as [expiry | ];
      try reflexivity;
      destruct (now <? expiry)%Z; reflexivity.
  - intros F E. apply String.eqb_neq in F. rewrite F.
    assert (V : match User.SubscriptionExpiry u with
                | Some expiry => (now <? expiry)%Z
                | None => false
                end = false).
    { destruct E as [E | E]; rewrite E; [ reflexivity | apply Z.ltb_irrefl ]. }
    rewrite V. cbn.
    destruct (negb (User.IsActive u)
              || negb (String.eqb (User.Status u) UserStatusActive));
      [ reflexivity | ].
    destruct (negb (String.eqb (User.WalletStatus u) WalletStatusConnected)
              && negb (String.eqb (User.WalletStatus u)
                                  WalletStatusEncrypted)); reflexivity.
Qed.

Lemma CanTrade_characterisation_witness :
  User.CanTrade 100%Z
    (User.mk UserStatusActive true SubscriptionPro (Some 100%Z)
             WalletStatusConnected 0%Z 0%Z 0 0 0 0 0 [])
  = false.
Proof.
  apply (proj2 (CanTrade_characterisation 100%Z
                  (User.mk UserStatusActive true SubscriptionPro (Some 100%Z)
                           WalletStatusConnected 0%Z 0%Z 0 0 0 0 0 []))).
  - discriminate.
  - right. reflexivity.
Defined.

Lemma UpdateLoginInfo_history (now : Time) (ip agent : string) (u : User.t) :
  User.LoginHistory (User.UpdateLoginInfo now ip agent u)
  = (if (10 <=? List.length (User.LoginHistory u))%nat
     then List.tl (User.LoginHistory u) else User.LoginHistory u)
    ++ [LoginRecord.mk now ip agent EmptyString true].
Proof.
  unfold User.UpdateLoginInfo. cbv zeta.
  destruct (10 <=? List.length (User.LoginHistory u))%nat; reflexivity.
Qed.

Lemma UpdateLoginInfo_length (now : Time) (ip agent : string) (u : User.t) :
  List.length (User.LoginHistory (User.UpdateLoginInfo now ip agent u))
  = if (10 <=? List.length (User.LoginHistory u))%nat
    then List.length (User.LoginHistory u)
    else S (List.length (User.LoginHistory u)).
Proof.
  rewrite UpdateLoginInfo_history.
  destruct (Nat.leb_spec 10 (List.length (User.LoginHistory u))) as [L | L];
    rewrite length_app; cbn.
  - destruct (User.LoginHistory u) as [ | r l ]; cbn in *; lia.
  - lia.
Qed.

Lemma logins_length (l : list (Time * string * string)) :
  forall u : User.t,
    (List.length (User.LoginHistory u) <= 10)%nat ->
    List.length (User.LoginHistory (logins u l))
    = Nat.min (List.length (User.LoginHistory u) + List.length l) 10.
Proof.
  induction l as [ | [[now ip] agent] l IH ]; intros u B.
  - cbn. lia.
  - change (logins u ((now, ip, agent) :: l))
      with (logins (User.UpdateLoginInfo now ip agent u) l).
    pose proof (UpdateLoginInfo_length now ip agent u) as E.
    destruct (Nat.leb_spec 10 (List.length (User.LoginHistory u)))
      as [L | L].
    + rewrite IH by lia. rewrite E. cbn [List.length]. lia.
    + rewrite IH by lia. rewrite E. cbn [List.length]. lia.
Qed.

(** [UpdateLoginInfo] puts the new, successful login record last.  Below
    ten records the history grows by one; from ten on the oldest record is
    dropped first, so the length stays (a history longer than ten is never
    cut back to ten).  Hence a history of at most ten records stays so, and
    after any series of logins it holds the lesser of ten and the number of
    records it had plus the logins made. *)
Theorem UpdateLoginInfo_keeps_ten
        (now : Time) (ip agent : string) (u : User.t)
        (l : list (Time * string * string)) :
  let u' := User.UpdateLoginInfo now ip agent u in
  List.last (User.LoginHistory u') (LoginRecord.mk 0%Z ip agent ip false)
  = LoginRecord.mk now ip agent EmptyString true /\
  ((List.length (User.LoginHistory u) < 10)%nat ->
   User.LoginHistory u'
   = User.LoginHistory u ++ [LoginRecord.mk now ip agent EmptyString true]) /\
  ((10 <= List.length (User.LoginHistory u))%nat ->
   User.LoginHistory u'
   = List.tl (User.LoginHistory u)
     ++ [LoginRecord.mk now ip agent EmptyString true] /\
   List.length (User.LoginHistory u') = List.length (User.LoginHistory u)) /\
  ((List.length (User.LoginHistory u) <= 10)%nat ->
   (List.length (User.LoginHistory u') <= 10)%nat /\
   List.length (User.LoginHistory (logins u l))
   = Nat.min (List.length (User.LoginHistory u) + List.length l) 10).
Proof.
  cbv zeta.
  pose proof (UpdateLoginInfo_history now ip agent u) as H.
  pose proof (UpdateLoginInfo_length now ip agent u) as E.
  split; [ rewrite H; apply last_last | ].
  destruct (Nat.leb_spec 10 (List.length (User.LoginHistory u))) as [L | L].
  - split; [ intros; lia | ].
    split; [ intros _; split; assumption | ].
    intros B. split; [ lia | apply logins_length; exact B ].
  - split; [ intros _; exact H | ].
    split; [ intros; lia | ].
    intros B. split; [ lia | apply logins_length; exact B ].
Qed.

Lemma UpdateLoginInfo_keeps_ten_witness :
  (List.length
     (User.LoginHistory
        (User.UpdateLoginInfo 10%Z "10.0.0.1" "cli" user_3_of_4)) <= 10)%nat /\
  List.length
    (User.LoginHistory
       (logins user_3_of_4
               (List.repeat (20%Z, "10.0.0.1"%string, "cli"%string) 12)))
  = Nat.min (List.length (User.LoginHistory user_3_of_4)
             + List.length
                 (List.repeat (20%Z, "10.0.0.1"%string, "cli"%string) 12))
            10.
Proof.
  apply (proj2 (proj2 (proj2 (UpdateLoginInfo_keeps_ten
           10%Z "10.0.0.1" "cli" user_3_of_4
           (List.repeat (20%Z, "10.0.0.1"%string, "cli"%string) 12))))).
  cbn. lia.
Defined.

(** ** Sharpe ratio *)







(** ** Token *)

(** Splits the goal on its conditionals and optional values. *)
Ltac split_conditions :=
  repeat match goal with
         | |- context [if ?c then _ else _] => destruct c
         | |- context [match ?o with Some _ => _ | None => _ end] =>
             destruct o
         end.

(** One assignment to the score: names it and bounds it. *)
Ltac score_step lo hi :=
  let s := fresh "score" in
  let H := fresh "H" in
  name_let s H; cbv zeta in H;
  assert (lo <= s <= hi) by (rewrite H; split_conditions; lra);
  clear H.

Lemma rawRiskScore_bounds (now : Time) (tok : Token.t) :
  3.5 <= Token.rawRiskScore now tok <= 25.
Proof.
  remember (Token.rawRiskScore now tok) as raw eqn:R. revert R.
  cbv beta delta [Token.rawRiskScore].
  score_step 5 5. score_step 5 8. score_step 5 10. score_step 5 11.5.
  score_step 5 13.5. score_step 5 15. score_step 5 17.
  name_let totalLiquidity HL. clear HL.
  score_step 5 20. score_step 5 22. score_step 4 24.
  cbv zeta. intros ->. split_conditions; lra.
Qed.

Lemma rawRiskScore_ignores_risk_fields
      (now : Time) (score : float64) (level : RiskLevel) (tok : Token.t) :
  Token.rawRiskScore now (Token.set_RiskLevel level
                            (Token.set_RiskScore score tok))
  = Token.rawRiskScore now tok.
Proof.
  cbv beta delta [Token.rawRiskScore Token.getTotalLiquidity].
  cbn beta iota delta
      [Token.set_RiskLevel Token.set_RiskScore Token.MarketCap
       Token.LaunchDate Token.SecurityInfo Token.LiquidityPools
       Token.SocialInfo Token.HolderCount Token.VolatilityScore].
  reflexivity.
Qed.

(** The score that [Token.BeforeUpdate] writes. *)
Lemma BeforeUpdate_score (now : Time) (tok : Token.t) :
  Token.RiskScore (Token.BeforeUpdate now tok)
  = Qmin (Token.rawRiskScore now tok) 10 /\
  3.5 <= Token.RiskScore (Token.BeforeUpdate now tok) <= 10.
Proof.
  pose proof (rawRiskScore_bounds now tok) as [L U].
  assert (S : Token.RiskScore (Token.BeforeUpdate now tok)
              = Qmin (Token.rawRiskScore now tok) 10).
  { change (Token.RiskScore (Token.BeforeUpdate now tok))
      with (Token.RiskScore (Token.calculateRiskScore now tok)).
    rewrite RiskScore_calculateRiskScore. cbv zeta.
    assert (F : fltb (Token.rawRiskScore now tok) 0 = false)
      by (apply fltb_false; lra).
    rewrite F. unfold fgtb, Qmin, GenericMinMax.gmin.
    destruct (Token.rawRiskScore now tok ?= 10); reflexivity. }
  split; [ exact S | ].
  rewrite S. split.
  - apply Q.min_glb; lra.
  - apply Q.le_min_r.
Qed.

(** The level that [Token.BeforeUpdate] writes is one of the five levels
    above [very_low]. *)
Lemma BeforeUpdate_level_rank (now : Time) (tok : Token.t) :
  (1 <= RiskLevel_rank (Token.RiskLevel (Token.BeforeUpdate now tok)) < 6)%nat.
Proof.
  destruct (BeforeUpdate_score now tok) as [_ [B1 B2]].
  change (Token.RiskLevel (Token.BeforeUpdate now tok))
    with (Token.riskLevelOf (Token.RiskScore (Token.BeforeUpdate now tok))).
  split; [ | apply riskLevelOf_rank_lt_6 ].
  pose proof (riskLevelOf_bands
                (Token.RiskScore (Token.BeforeUpdate now tok))) as K.
  cbv zeta in K. destruct K as (_ & K1 & K2 & K3 & K4 & K5).
  destruct (Qlt_le_dec 4 (Token.RiskScore (Token.BeforeUpdate now tok)));
    [ | rewrite K1 by lra; lia ].
  destruct (Qlt_le_dec 6 (Token.RiskScore (Token.BeforeUpdate now tok)));
    [ | rewrite K2 by lra; lia ].
  destruct (Qlt_le_dec 8 (Token.RiskScore (Token.BeforeUpdate now tok)));
    [ | rewrite K3 by lra; lia ].
  destruct (Qlt_le_dec 9 (Token.RiskScore (Token.BeforeUpdate now tok)));
    [ | rewrite K4 by lra; lia ].
  rewrite K5 by lra. lia.
Qed.

(** The score before the clamp always lies in [3.5, 25], so the lower
    clamp of [calculateRiskScore] is never taken and the score written by
    [BeforeUpdate] is the lesser of that score and 10, at least 3.5.  The
    level that [BeforeUpdate] writes is the level of the score it writes, it
    is never [very_low], and a second [BeforeUpdate] at the same time changes
    nothing. *)
Theorem Token_BeforeUpdate_risk (now : Time) (tok : Token.t) :
  let tok' := Token.BeforeUpdate now tok in
  3.5 <= Token.rawRiskScore now tok <= 25 /\
  Token.RiskScore tok' = Qmin (Token.rawRiskScore now tok) 10 /\
  3.5 <= Token.RiskScore tok' <= 10 /\
  Token.RiskLevel tok' = Token.riskLevelOf (Token.RiskScore tok') /\
  (1 <= RiskLevel_rank (Token.RiskLevel tok') < 6)%nat /\
  Token.BeforeUpdate now tok' = tok'.
Proof.
  cbv zeta.
  destruct (BeforeUpdate_score now tok) as [S B].
  split; [ apply rawRiskScore_bounds | ].
  split; [ exact S | ].
  split; [ exact B | ].
  split; [ reflexivity | ].
  split; [ apply BeforeUpdate_level_rank | ].
  unfold Token.BeforeUpdate, Token.updateRiskLevel, Token.calculateRiskScore.
  cbv zeta.
  rewrite rawRiskScore_ignores_risk_fields. reflexivity.
Qed.

Lemma Hours_exact (d : Duration) : Token.Hours d == inject_Z d / inject_Z Hour.
Proof.
  unfold Token.Hours.
  assert (H : inject_Z d
              == inject_Z Hour * inject_Z (Z.quot d Hour)
                 + inject_Z (Z.rem d Hour)).
  { rewrite <- inject_Z_mult, <- inject_Z_plus.
    rewrite <- (Z.quot_rem' d Hour). reflexivity. }
  rewrite H.
  change (60 * 60 * 1000000000) with (inject_Z Hour).
  field. discriminate.
Qed.

(** A token without launch date is a new listing.  With a launch date, it
    is one exactly while less than an hour has passed since the launch, which
    also holds for a launch date in the future. *)
Theorem IsNewListing_first_hour (now launch : Time) (tok : Token.t) :
  (Token.LaunchDate tok = None -> Token.IsNewListing now tok = true) /\
  (Token.LaunchDate tok = Some launch ->
   (Token.IsNewListing now tok = true <-> (Since now launch < Hour)%Z) /\
   ((now <= launch)%Z -> Token.IsNewListing now tok = true)).
Proof.
  unfold Token.IsNewListing, Token.GetAgeInHours.
  split; intros E; rewrite E; [ reflexivity | ].
  assert (K : fltb (Token.Hours (Since now launch)) 1.0 = true
              <-> (Since now launch < Hour)%Z).
  { rewrite fltb_true, Hours_exact. rewrite Zlt_Qlt. split; intros H.
    - assert (X : inject_Z (Since now launch) / inject_Z Hour * inject_Z Hour
                  < 1.0 * inject_Z Hour).
      { apply Qmult_lt_compat_r; [ reflexivity | exact H ]. }
      rewrite Qdiv_mult_cancel in X by discriminate. lra.
    - apply Qlt_shift_div_r; [ reflexivity | lra ]. }
  split; [ exact K | ].
  intros F. apply K. unfold Since, Sub, minDuration, maxDuration, Hour.
  repeat match goal with
         | |- context [(?a <? ?b)%Z] => destruct (Z.ltb_spec a b)
         end; lia.
Qed.

Lemma IsNewListing_first_hour_witness :
  Token.IsNewListing 1800000000000%Z token_worst = true.
Proof.
  apply (proj1 (proj2 (IsNewListing_first_hour
                         1800000000000%Z 0%Z token_worst) eq_refl)).
  reflexivity.
Defined.

(** ** Price levels and position sizing *)

Lemma Qlevel_below (e a : Q) :
  0 <= e -> 0 <= a <= 100 ->
  0 <= e * (1 - a / 100) /\ e * (1 - a / 100) <= e.
Proof.
  intros E [A1 A2].
  assert (X : 0 <= a / 100 <= 1).
  { split; [ apply Qle_shift_div_l | apply Qle_shift_div_r ]; lra. }
  assert (Y : 0 <= e * (1 - a / 100))
    by (apply Qmult_le_0_compat; lra).
  assert (Z : 0 <= e * (a / 100))
    by (apply Qmult_le_0_compat; lra).
  split; lra.
Qed.

Lemma Qlevel_above (e a : Q) :
  0 <= e -> 0 <= a -> e <= e * (1 + a / 100).
Proof.
  intros E A.
  assert (X : 0 <= a / 100) by (apply Qle_shift_div_l; lra).
  assert (Z : 0 <= e * (a / 100))
    by (apply Qmult_le_0_compat; lra).
  lra.
Qed.

Lemma levels_sides (entry stopPercent profitPercent : float64) :
  0 <= entry -> 0 <= stopPercent <= 100 -> 0 <= profitPercent ->
  (0 <= CalculateStopLossLevel entry stopPercent PositionSideLong /\
   CalculateStopLossLevel entry stopPercent PositionSideLong <= entry /\
   entry <= CalculateTakeProfitLevel entry profitPercent PositionSideLong) /\
  (entry <= CalculateStopLossLevel entry stopPercent PositionSideShort /\
   CalculateTakeProfitLevel entry profitPercent PositionSideShort <= entry /\
   (profitPercent <= 100 ->
    0 <= CalculateTakeProfitLevel entry profitPercent PositionSideShort)).
Proof.
  intros E S P.
  unfold CalculateStopLossLevel, CalculateTakeProfitLevel.
  change (PositionSideLong =? PositionSideLong)%string with true.
  change (PositionSideShort =? PositionSideLong)%string with false.
  change (PositionSideShort =? PositionSideShort)%string with true.
  cbv beta iota.
  destruct (Qlevel_below entry stopPercent E S) as [B1 B2].
  pose proof (Qlevel_above entry profitPercent E P) as B3.
  pose proof (Qlevel_above entry stopPercent E (proj1 S)) as B4.
  split; [ repeat split; assumption | ].
  split; [ exact B4 | ].
  split.
  - assert (X : 0 <= profitPercent / 100)
      by (apply Qle_shift_div_l; lra).
    assert (Z : 0 <= entry * (profitPercent / 100))
      by (apply Qmult_le_0_compat; lra).
    lra.
  - intros P'. apply (Qlevel_below entry profitPercent E). lra.
Qed.

(** For a non-negative entry price, a stop-loss percentage between 0 and
    100 and a non-negative take-profit percentage, the levels are on the
    proper sides of the entry price: for a long position the stop is between
    0 and the entry price and the take profit at or above it; for a short
    position the stop is at or above the entry price and the take profit at
    or below it (and not negative for a percentage up to 100).  A side that
    is neither [long] nor [short] gets the entry price for both.  The price
    change from the entry to the stop of a long position is a loss of at
    most 100 percent. *)
Theorem protective_levels_ordered
        (entry stopPercent profitPercent : float64) (side : PositionSide) :
  0 <= entry -> 0 <= stopPercent <= 100 -> 0 <= profitPercent ->
  let stop := CalculateStopLossLevel entry stopPercent side in
  let target := CalculateTakeProfitLevel entry profitPercent side in
  (side = PositionSideLong ->
   0 <= stop /\ stop <= entry /\ entry <= target /\
   -100 <= CalculatePriceChange entry stop <= 0) /\
  (side = PositionSideShort ->
   entry <= stop /\ target <= entry /\
   (profitPercent <= 100 -> 0 <= target)) /\
  (side <> PositionSideLong -> side <> PositionSideShort ->
   stop = entry /\ target = entry).
Proof.
  intros E S P. cbv zeta.
  destruct (levels_sides entry stopPercent profitPercent E S P)
    as ((L1 & L2 & L3) & (S1 & S2 & S3)).
  split; [ | split ].
  - intros ->.
    split; [ exact L1 | ]. split; [ exact L2 | ]. split; [ exact L3 | ].
    unfold CalculatePriceChange.
    cmp_case (feqb entry 0); [ lra | ].
    assert (E' : 0 < entry) by lra.
    set (s := CalculateStopLossLevel entry stopPercent PositionSideLong)
      in *.
    assert (L : -1 <= (s - entry) / entry)
      by (apply Qle_shift_div_l; [ exact E' | lra ]).
    assert (U : (s - entry) / entry <= 0)
      by (apply Qle_shift_div_r; [ exact E' | lra ]).
    split; lra.
  - intros ->. repeat split; assumption.
  - intros NL NS. apply String.eqb_neq in NL, NS.
    unfold CalculateStopLossLevel, CalculateTakeProfitLevel.
    rewrite NL, NS. split; reflexivity.
Qed.

Lemma protective_levels_ordered_witness :
  0 <= CalculateStopLossLevel 100 10 PositionSideLong /\
  CalculateStopLossLevel 100 10 PositionSideLong <= 100 /\
  100 <= CalculateTakeProfitLevel 100 25 PositionSideLong /\
  -100 <= CalculatePriceChange
            100 (CalculateStopLossLevel 100 10 PositionSideLong) <= 0.
Proof.
  refine (proj1 (protective_levels_ordered 100 10 25 PositionSideLong
                   _ _ _) eq_refl);
    [ discriminate | split; discriminate | discriminate ].
Defined.



(** ** Risk colour *)

(** The six declared risk levels have six different colours, none of them
    the grey of an unknown level.  The level that [Token.BeforeUpdate] writes
    is never shown in grey, nor in the green of [very_low]: the score of
    [calculateRiskScore] is never below 3.5. *)
Theorem risk_color_of_scored_token
        (now : Time) (tok : Token.t) (l1 l2 : RiskLevel) :
  ((RiskLevel_rank l1 < 6)%nat -> (RiskLevel_rank l2 < 6)%nat ->
   GetTokenRiskColor l1 = GetTokenRiskColor l2 -> l1 = l2) /\
  ((RiskLevel_rank l1 < 6)%nat <->
   GetTokenRiskColor l1 <> "#808080"%string) /\
  GetTokenRiskColor (Token.RiskLevel (Token.BeforeUpdate now tok))
  <> "#808080"%string /\
  GetTokenRiskColor (Token.RiskLevel (Token.BeforeUpdate now tok))
  <> "#00FF00"%string.
Proof.
  assert (D : forall l, (RiskLevel_rank l < 6)%nat ->
                        l = RiskLevelVeryLow \/ l = RiskLevelLow \/
                        l = RiskLevelMedium \/ l = RiskLevelHigh \/
                        l = RiskLevelVeryHigh \/ l = RiskLevelExtreme).
  { intros l. unfold RiskLevel_rank.
    repeat match goal with
           | |- context [String.eqb ?a ?b] =>
               destruct (String.eqb_spec a b)
           end; intros H; try lia; tauto. }
  split; [ | split ].
  - intros R1 R2.
    destruct (D l1 R1) as [ -> | [ -> | [ -> | [ -> | [ -> | -> ] ] ] ] ];
      destruct (D l2 R2) as [ -> | [ -> | [ -> | [ -> | [ -> | -> ] ] ] ] ];
      cbn; intros H; first [ reflexivity | discriminate H ].
  - split.
    + intros R1.
      destruct (D l1 R1) as [ -> | [ -> | [ -> | [ -> | [ -> | -> ] ] ] ] ];
        cbn; discriminate.
    + unfold GetTokenRiskColor, RiskLevel_rank.
      repeat match goal with
             | |- context [String.eqb ?a ?b] =>
                 destruct (String.eqb_spec a b)
             end; intros H; try lia; exfalso; apply H; reflexivity.
  - pose proof (BeforeUpdate_level_rank now tok) as [R1 R2].
    destruct (D _ R2) as [ E | [ E | [ E | [ E | [ E | E ] ] ] ] ];
      rewrite E in *; cbn in R1 |- *;
      split; first [ discriminate | lia ].
Qed.

Lemma risk_color_of_scored_token_witness :
  GetTokenRiskColor RiskLevelHigh <> "#808080"%string.
Proof.
  apply (proj1 (proj1 (proj2 (risk_color_of_scored_token
                                0%Z token_worst RiskLevelHigh
                                RiskLevelHigh)))).
  cbn. lia.
Defined.

(** * Position over any arithmetic *)

(** The statements of this part hold for the methods of [Position]
    whatever the four operations of the arithmetic do: they depend on the
    order of the assignments and on the comparisons only, hence hold for
    binary64 as they do for the rationals. *)

(** ** Closed forms of the recomputations *)

Lemma fgtb_irrefl (x : float64) : fgtb x x = false.
Proof. apply fgtb_false. lra. Qed.

Lemma fltb_irrefl (x : float64) : fltb x x = false.
Proof. apply fltb_false. lra. Qed.

(** Computes assigned records down to their fields. *)
Ltac record_norm :=
  cbv beta iota delta [
       Position.Status Position.Side Position.EntryPrice
       Position.EntryQuantity Position.EntryValue Position.EntryFees
       Position.EntryTime Position.CurrentPrice Position.CurrentQuantity
       Position.CurrentValue Position.LastPriceUpdate Position.ExitValue
       Position.ExitFees Position.ExitTime Position.StopLoss
       Position.TakeProfit Position.TrailingStop
       Position.TrailingStopPrice Position.UnrealizedPnL
       Position.UnrealizedPnLPercent Position.RealizedPnL
       Position.RealizedPnLPercent Position.TotalFees Position.ROI
       Position.HighestValue Position.LowestValue Position.HighestPrice
       Position.LowestPrice Position.MaxDrawdown Position.MaxGainPercent
       Position.PartialExits Position.Adjustments Position.DCAEntries
       Position.HoldDuration Position.set_Status Position.set_EntryPrice
       Position.set_EntryQuantity Position.set_EntryValue
       Position.set_EntryFees Position.set_EntryTime
       Position.set_CurrentPrice Position.set_CurrentQuantity
       Position.set_CurrentValue Position.set_LastPriceUpdate
       Position.set_StopLoss Position.set_TakeProfit
       Position.set_TrailingStop Position.set_TrailingStopPrice
       Position.set_UnrealizedPnL Position.set_UnrealizedPnLPercent
       Position.set_RealizedPnL Position.set_RealizedPnLPercent
       Position.set_TotalFees Position.set_ROI Position.set_HighestValue
       Position.set_LowestValue Position.set_HighestPrice
       Position.set_LowestPrice Position.set_MaxDrawdown
       Position.set_MaxGainPercent Position.set_PartialExits
       Position.set_Adjustments Position.set_DCAEntries
       Position.set_HoldDuration ].

(** Replaces the conditions whose outcome is known. *)
Ltac use_known :=
  repeat match goal with
         | E : ?c = true |- context [?c] => rewrite E
         | E : ?c = false |- context [?c] => rewrite E
         end.

Ltac absurd_outcome :=
  match goal with
  | H : false = true |- _ => discriminate H
  | H : true = false |- _ => discriminate H
  end.

(** Resolves the conditions of the goal from the innermost outwards, using
    the outcomes already known. *)
Ltac resolve_conditions :=
  repeat progress
    (cbv beta iota;
     rewrite ?fgtb_irrefl, ?fltb_irrefl;
     use_known;
     cbv beta iota;
     try match goal with
         | |- context [if ?c then _ else _] =>
             lazymatch c with
             | context [if _ then _ else _] => fail
             | true => fail
             | false => fail
             | _ => destruct c eqn:?
             end
         end).

(** [updateTrackingValues] writes the six trackers, each from the state it
    is given. *)
Lemma updateTrackingValues_closed_form (ar : Arith.t) (p : Position.t) :
  RoundedPosition.updateTrackingValues ar p =
  let highestValue :=
    if fgtb (Position.CurrentValue p) (Position.HighestValue p)
    then Position.CurrentValue p else Position.HighestValue p in
  let highestPrice :=
    if fgtb (Position.CurrentPrice p) (Position.HighestPrice p)
    then Position.CurrentPrice p else Position.HighestPrice p in
  let lowestValue :=
    if fltb (Position.CurrentValue p) (Position.LowestValue p)
    then Position.CurrentValue p else Position.LowestValue p in
  let lowestPrice :=
    if fltb (Position.CurrentPrice p) (Position.LowestPrice p)
    then Position.CurrentPrice p else Position.LowestPrice p in
  let drawdown :=
    Arith.mul ar
      (Arith.div ar (Arith.sub ar highestValue (Position.CurrentValue p))
                 highestValue)
      100 in
  let maxGain :=
    Arith.mul ar
      (Arith.div ar (Arith.sub ar highestValue (Position.EntryValue p))
                 (Position.EntryValue p))
      100 in
  Position.set_MaxGainPercent
    (if fgtb (Position.EntryValue p) 0
     then if fgtb maxGain (Position.MaxGainPercent p)
          then maxGain else Position.MaxGainPercent p
     else Position.MaxGainPercent p)
    (Position.set_MaxDrawdown
       (if fgtb highestValue 0
        then if fgtb drawdown (Position.MaxDrawdown p)
             then drawdown else Position.MaxDrawdown p
        else Position.MaxDrawdown p)
       (Position.set_LowestPrice lowestPrice
          (Position.set_LowestValue lowestValue
             (Position.set_HighestPrice highestPrice
                (Position.set_HighestValue highestValue p))))).
Proof.
  destruct p. cbv zeta.
  match goal with
  | |- ?lhs = _ => remember lhs as p' eqn:Hp'
  end.
  revert Hp'. cbv beta delta [RoundedPosition.updateTrackingValues].
  run_body; resolve_conditions; reflexivity.
Qed.

(** [updatePerformanceMetrics] writes the unrealized figures of an open
    position, the realized figures of a closed position that has an exit
    value, and nothing otherwise. *)
Lemma updatePerformanceMetrics_closed_form (ar : Arith.t) (p : Position.t) :
  RoundedPosition.updatePerformanceMetrics ar p =
  if String.eqb (Position.Status p) PositionStatusOpen then
    let unrealized :=
      Arith.mul ar
        (Arith.sub ar (Position.CurrentPrice p) (Position.EntryPrice p))
        (Position.CurrentQuantity p) in
    Position.set_ROI
      (if fneqb (Position.EntryValue p) 0
       then Arith.mul ar
              (Arith.div ar
                 (Arith.sub ar
                    (Arith.sub ar (Position.CurrentValue p)
                               (Position.EntryValue p))
                    (Position.TotalFees p))
                 (Position.EntryValue p))
              100
       else Position.ROI p)
      (Position.set_UnrealizedPnLPercent
         (if fneqb (Position.EntryValue p) 0
          then Arith.mul ar
                 (Arith.div ar unrealized (Position.EntryValue p)) 100
          else Position.UnrealizedPnLPercent p)
         (Position.set_UnrealizedPnL unrealized p))
  else if String.eqb (Position.Status p) PositionStatusClosed then
    match Position.ExitValue p with
    | Some exitValue =>
        let realized :=
          Arith.sub ar (Arith.sub ar exitValue (Position.EntryValue p))
                    (Position.TotalFees p) in
        Position.set_ROI
          (if fneqb (Position.EntryValue p) 0
           then Arith.mul ar
                  (Arith.div ar realized (Position.EntryValue p)) 100
           else Position.ROI p)
          (Position.set_RealizedPnLPercent
             (if fneqb (Position.EntryValue p) 0
              then Arith.mul ar
                     (Arith.div ar realized (Position.EntryValue p)) 100
              else Position.RealizedPnLPercent p)
             (Position.set_RealizedPnL realized p))
    | None => p
    end
  else p.
Proof.
  destruct p. cbv zeta.
  match goal with
  | |- ?lhs = _ => remember lhs as p' eqn:Hp'
  end.
  revert Hp'. cbv beta delta [RoundedPosition.updatePerformanceMetrics].
  record_simpl.
  match goal with
  | |- context [String.eqb ?s PositionStatusOpen] =>
      destruct (String.eqb s PositionStatusOpen);
      [ | destruct (String.eqb s PositionStatusClosed) ]
  end;
    try match goal with
        | |- context [match ?o with Some _ => _ | None => _ end] =>
            destruct o
        end;
    run_body; try absurd_outcome; resolve_conditions; reflexivity.
Qed.

(** Splits on what [updatePerformanceMetrics] looks at: the status and
    the exit value. *)
Ltac split_status s x :=
  destruct (String.eqb s PositionStatusOpen) eqn:?;
  [ | destruct (String.eqb s PositionStatusClosed) eqn:?;
      [ destruct x | ] ].

(** Evaluates the [UpdateCurrentPrice] of the goal, applied to an explicit
    record. *)
Ltac eval_update :=
  cbv beta zeta delta [RoundedPosition.UpdateCurrentPrice];
  record_norm;
  rewrite updatePerformanceMetrics_closed_form;
  record_norm; use_known; cbv beta iota zeta; record_norm;
  rewrite updateTrackingValues_closed_form;
  cbv zeta; record_norm.

(** ** Price updates *)

Lemma UpdateCurrentPrice_again
      (ar : Arith.t) (price : float64) (now : Time) (p : Position.t) :
  RoundedPosition.UpdateCurrentPrice ar price now
    (RoundedPosition.UpdateCurrentPrice ar price now p)
  = RoundedPosition.UpdateCurrentPrice ar price now p.
Proof.
  destruct p.
  split_status Status ExitValue;
    (match goal with
     | |- context [RoundedPosition.UpdateCurrentPrice ar price now
                     (RoundedPosition.UpdateCurrentPrice ar price now ?r)] =>
         remember (RoundedPosition.UpdateCurrentPrice ar price now r)
           as q eqn:Hq;
         revert Hq
     end;
     eval_update; intros ->; eval_update;
     f_equal; resolve_conditions; reflexivity).
Qed.

(** The time of a price update goes to [LastPriceUpdate] and nowhere
    else. *)
Lemma UpdateCurrentPrice_time
      (ar : Arith.t) (price : float64) (now later : Time) (p : Position.t) :
  RoundedPosition.UpdateCurrentPrice ar price later p
  = Position.set_LastPriceUpdate later
      (RoundedPosition.UpdateCurrentPrice ar price now p).
Proof.
  destruct p.
  split_status Status ExitValue;
    cbv beta zeta delta [RoundedPosition.UpdateCurrentPrice];
    record_norm;
    rewrite !updatePerformanceMetrics_closed_form;
    record_norm; use_known; cbv beta iota zeta; record_norm;
    rewrite !updateTrackingValues_closed_form;
    cbv zeta; record_norm; reflexivity.
Qed.

(** [UpdateCurrentPrice] is idempotent up to the time stamp, in any
    arithmetic: once a price is applied, applying the same price again at
    any later time gives what a single update at that time gives. *)
Theorem UpdateCurrentPrice_idempotent
        (ar : Arith.t) (price : float64) (now later : Time)
        (p : Position.t) :
  RoundedPosition.UpdateCurrentPrice ar price later
    (RoundedPosition.UpdateCurrentPrice ar price now p)
  = RoundedPosition.UpdateCurrentPrice ar price later p.
Proof.
  rewrite (UpdateCurrentPrice_time ar price now later
             (RoundedPosition.UpdateCurrentPrice ar price now p)).
  rewrite UpdateCurrentPrice_again.
  symmetry. apply UpdateCurrentPrice_time.
Qed.

(** What one price update writes and what it leaves alone. *)
Lemma UpdateCurrentPrice_fields
      (ar : Arith.t) price now (p : Position.t) :
  let q := RoundedPosition.UpdateCurrentPrice ar price now p in
  Position.CurrentPrice q = price /\
  Position.Status q = Position.Status p /\
  Position.Side q = Position.Side p /\
  Position.StopLoss q = Position.StopLoss p /\
  Position.TakeProfit q = Position.TakeProfit p /\
  Position.TrailingStop q = Position.TrailingStop p /\
  Position.TrailingStopPrice q = Position.TrailingStopPrice p /\
  (String.eqb (Position.Status p) PositionStatusOpen = false ->
   Position.UnrealizedPnL q = Position.UnrealizedPnL p /\
   Position.UnrealizedPnLPercent q = Position.UnrealizedPnLPercent p).
Proof.
  destruct p.
  split_status Status ExitValue; cbv zeta; eval_update;
    repeat split; first [ reflexivity | absurd_outcome ].
Qed.

(** ** Protective orders *)

(** On a position that is not open no protective order fires, the
    trailing stop does not move and the risk exposure is zero. *)
Lemma not_open_inert (ar : Arith.t) (q : Position.t) :
  String.eqb (Position.Status q) PositionStatusOpen = false ->
  Position.ShouldTriggerStopLoss q = false /\
  Position.ShouldTriggerTakeProfit q = false /\
  Position.ShouldTriggerTrailingStop q = false /\
  RoundedPosition.UpdateTrailingStop ar q = q /\
  RoundedPosition.GetRiskExposure ar q = 0.
Proof.
  intros O.
  unfold Position.ShouldTriggerStopLoss, Position.ShouldTriggerTakeProfit,
    Position.ShouldTriggerTrailingStop, RoundedPosition.UpdateTrailingStop,
    RoundedPosition.GetRiskExposure.
  rewrite O. cbn [negb].
  destruct (Position.StopLoss q), (Position.TakeProfit q),
    (Position.TrailingStopPrice q), (Position.TrailingStop q);
    repeat split; reflexivity.
Qed.

Lemma AddPartialExit_never_open
      (ar : Arith.t) (exit : PartialExit.t) (p : Position.t) :
  String.eqb (Position.Status (RoundedPosition.AddPartialExit ar exit p))
             PositionStatusOpen = false.
Proof.
  pose proof (rounded_AddPartialExit_ledger ar exit p) as L. cbv zeta in L.
  destruct L as (_ & _ & Closed & Partial).
  destruct (Qlt_le_dec 0 (Arith.sub ar (Position.CurrentQuantity p)
                                    (PartialExit.Quantity exit))) as [R | R].
  - destruct (Partial R) as [S _]. rewrite S. reflexivity.
  - destruct (Closed R) as [S _]. rewrite S. reflexivity.
Qed.

(** After a partial exit, however small, the position is no longer
    [open] (it is [partial] or [closed]), in any arithmetic; from then on, and
    through any later price update, neither the stop loss nor the take profit
    nor the trailing stop fires, [UpdateTrailingStop] changes nothing and the
    risk exposure is reported as zero, although a [partial] position still
    holds a quantity. *)
Theorem partial_exit_disarms_protective_orders
        (ar : Arith.t) (exit : PartialExit.t) (price : float64) (now : Time)
        (p : Position.t) :
  let q := RoundedPosition.UpdateCurrentPrice ar price now
             (RoundedPosition.AddPartialExit ar exit p) in
  Position.Status (RoundedPosition.AddPartialExit ar exit p)
  <> PositionStatusOpen /\
  Position.ShouldTriggerStopLoss q = false /\
  Position.ShouldTriggerTakeProfit q = false /\
  Position.ShouldTriggerTrailingStop q = false /\
  RoundedPosition.UpdateTrailingStop ar q = q /\
  RoundedPosition.GetRiskExposure ar q = 0.
Proof.
  cbv zeta.
  pose proof (AddPartialExit_never_open ar exit p) as N.
  split.
  - intros E. rewrite E in N. discriminate N.
  - apply not_open_inert.
    destruct (UpdateCurrentPrice_fields ar price now
                (RoundedPosition.AddPartialExit ar exit p))
      as (_ & S & _).
    rewrite S. exact N.
Qed.

(** After a partial exit the profit reported by [GetCurrentPnL], and
    judged by [IsProfit], is the realized one, the old realized PnL plus the
    PnL of the exit, and the unrealized figures are frozen: later price
    updates leave them as they were before the exit. *)
Theorem partial_exit_freezes_unrealized_pnl
        (ar : Arith.t) (exit : PartialExit.t) (price : float64) (now : Time)
        (p : Position.t) :
  let p' := RoundedPosition.AddPartialExit ar exit p in
  let q := RoundedPosition.UpdateCurrentPrice ar price now p' in
  Position.GetCurrentPnL p'
  = Arith.add ar (Position.RealizedPnL p) (PartialExit.PnL exit) /\
  Position.IsProfit p'
  = fgtb (Arith.add ar (Position.RealizedPnL p) (PartialExit.PnL exit)) 0 /\
  Position.UnrealizedPnL q = Position.UnrealizedPnL p /\
  Position.UnrealizedPnLPercent q = Position.UnrealizedPnLPercent p /\
  Position.GetCurrentPnLPercent q = Position.RealizedPnLPercent q.
Proof.
  cbv zeta.
  pose proof (AddPartialExit_never_open ar exit p) as N.
  destruct (UpdateCurrentPrice_fields ar price now
              (RoundedPosition.AddPartialExit ar exit p))
    as (_ & S & _ & _ & _ & _ & _ & F).
  destruct (F N) as [U1 U2].
  assert (K : Position.RealizedPnL (RoundedPosition.AddPartialExit ar exit p)
              = Arith.add ar (Position.RealizedPnL p) (PartialExit.PnL exit)
              /\ Position.UnrealizedPnL
                   (RoundedPosition.AddPartialExit ar exit p)
                 = Position.UnrealizedPnL p
              /\ Position.UnrealizedPnLPercent
                   (RoundedPosition.AddPartialExit ar exit p)
                 = Position.UnrealizedPnLPercent p).
  { unfold RoundedPosition.AddPartialExit. cbv zeta.
    match goal with
    | |- context [fleb ?a 0] => destruct (fleb a 0)
    end;
      [ | match goal with
          | |- context [(0 <? ?n)%nat] => destruct (0 <? n)%nat
          end ];
      record_simpl; repeat split; reflexivity. }
  destruct K as (K1 & K2 & K3).
  unfold Position.IsProfit, Position.GetCurrentPnL,
    Position.GetCurrentPnLPercent.
  rewrite S, N, U1, U2, K1, K2, K3. repeat split; reflexivity.
Qed.

(** ** Fees *)

Lemma set_TotalFees_eta (p : Position.t) :
  Position.set_TotalFees (Position.TotalFees p) p = p.
Proof. destruct p. reflexivity. Qed.

(** A loop that adds to [TotalFees] writes the running total there and
    nothing else. *)
Lemma fold_TotalFees {A : Type} (ar : Arith.t) (f : A -> float64)
      (l : list A) :
  forall p : Position.t,
    fold_left
      (fun p x =>
         Position.set_TotalFees
           (Arith.add ar (Position.TotalFees p) (f x)) p) l p
    = Position.set_TotalFees
        (fold_left (fun total x => Arith.add ar total (f x)) l
                   (Position.TotalFees p)) p.
Proof.
  induction l as [ | x l IH ]; intros p; cbn [fold_left].
  - symmetry. apply set_TotalFees_eta.
  - rewrite IH. reflexivity.
Qed.

Lemma calculateTotalFees_closed_form (ar : Arith.t) (p : Position.t) :
  RoundedPosition.calculateTotalFees ar p
  = Position.set_TotalFees (feesFrom ar p (Position.EntryFees p)) p.
Proof.
  unfold RoundedPosition.calculateTotalFees, feesFrom. cbv zeta.
  rewrite (fold_TotalFees ar DCAEntry.Fees).
  rewrite (fold_TotalFees ar PartialExit.Fees).
  destruct p. record_norm.
  match goal with
  | |- context [match ?o with Some _ => _ | None => _ end] => destruct o
  end; reflexivity.
Qed.

(** The metrics and the trackers leave the inputs of the fee total
    alone. *)
Lemma metrics_keep_fee_inputs (ar : Arith.t) (p : Position.t) :
  let q := RoundedPosition.updateTrackingValues ar
             (RoundedPosition.updatePerformanceMetrics ar p) in
  Position.EntryFees q = Position.EntryFees p /\
  Position.ExitFees q = Position.ExitFees p /\
  Position.PartialExits q = Position.PartialExits p /\
  Position.DCAEntries q = Position.DCAEntries p.
Proof.
  destruct p. cbv zeta.
  split_status Status ExitValue;
    rewrite updatePerformanceMetrics_closed_form;
    record_norm; use_known; cbv beta iota zeta; record_norm;
    rewrite updateTrackingValues_closed_form;
    cbv zeta; record_norm; repeat split; reflexivity.
Qed.

(** [calculateTotalFees] rebuilds the total from the entry fees, the exit
    fees, the partial exits and the DCA entries, in any arithmetic: the
    total stored before is ignored, a second call changes nothing, and
    [BeforeUpdate] leaves exactly this total.  Since [AddDCAEntry] adds the
    fee of the entry to [EntryFees] and also records the entry, the next
    recomputation counts that fee twice: once in the entry fees it starts
    from and once more at the end of the loop over the DCA entries. *)
Theorem calculateTotalFees_recomputes
        (ar : Arith.t) (now : Time) (stale : float64) (entry : DCAEntry.t)
        (p : Position.t) :
  RoundedPosition.calculateTotalFees ar (Position.set_TotalFees stale p)
  = RoundedPosition.calculateTotalFees ar p /\
  RoundedPosition.calculateTotalFees ar
    (RoundedPosition.calculateTotalFees ar p)
  = RoundedPosition.calculateTotalFees ar p /\
  Position.TotalFees (RoundedPosition.calculateTotalFees ar p)
  = feesFrom ar p (Position.EntryFees p) /\
  Position.TotalFees (RoundedPosition.BeforeUpdate ar now p)
  = feesFrom ar p (Position.EntryFees p) /\
  Position.TotalFees
    (RoundedPosition.calculateTotalFees ar
       (RoundedPosition.AddDCAEntry ar entry p))
  = Arith.add ar
      (feesFrom ar p
         (Arith.add ar (Position.EntryFees p) (DCAEntry.Fees entry)))
      (DCAEntry.Fees entry).
Proof.
  rewrite !calculateTotalFees_closed_form.
  split; [ reflexivity | ].
  split; [ reflexivity | ].
  split; [ reflexivity | ].
  split.
  - unfold RoundedPosition.BeforeUpdate. cbv zeta.
    rewrite calculateTotalFees_closed_form.
    match goal with
    | |- context [RoundedPosition.updateTrackingValues ar
                    (RoundedPosition.updatePerformanceMetrics ar ?r)] =>
        pose proof (metrics_keep_fee_inputs ar r) as K; cbv zeta in K;
        destruct K as (K1 & K2 & K3 & K4)
    end.
    unfold feesFrom.
    cbn [Position.TotalFees Position.set_TotalFees].
    rewrite K1, K2, K3, K4.
    destruct (String.eqb (Position.Status p) PositionStatusOpen);
      [ reflexivity | destruct (Position.ExitTime p); reflexivity ].
  - unfold feesFrom. cbn.
    rewrite fold_left_app. reflexivity.
Qed.

(** ** Adjustments *)


(** ** Health status *)

(** [GetPositionHealthStatus] answers [closed] for every position that is
    not [open], hence also for a [partial] position that still holds a
    quantity, such as any position after a partial exit.  On open positions
    the status follows the unrealized PnL percentage through seven bands, and
    never goes down when the percentage goes up. *)
Theorem GetPositionHealthStatus_bands
        (ar : Arith.t) (exit : PartialExit.t) (p p1 p2 : Position.t) :
  (Position.Status p <> PositionStatusOpen ->
   GetPositionHealthStatus p = "closed"%string) /\
  GetPositionHealthStatus (RoundedPosition.AddPartialExit ar exit p)
  = "closed"%string /\
  (Position.Status p1 = PositionStatusOpen ->
   (health_rank (GetPositionHealthStatus p1) < 7)%nat /\
   (0 <= Position.UnrealizedPnLPercent p1 <->
    (3 <= health_rank (GetPositionHealthStatus p1))%nat)) /\
  (Position.Status p1 = PositionStatusOpen ->
   Position.Status p2 = PositionStatusOpen ->
   Position.UnrealizedPnLPercent p1 <= Position.UnrealizedPnLPercent p2 ->
   (health_rank (GetPositionHealthStatus p1)
    <= health_rank (GetPositionHealthStatus p2))%nat).
Proof.
  unfold GetPositionHealthStatus, Position.GetCurrentPnLPercent.
  split; [ | split; [ | split ] ].
  - intros N. apply String.eqb_neq in N. rewrite N. reflexivity.
  - rewrite (AddPartialExit_never_open ar exit p). reflexivity.
  - intros O. rewrite O. cbn [String.eqb negb]. cbv zeta.
    change (PositionStatusOpen =? PositionStatusOpen)%string with true.
    cbv beta iota.
    repeat match goal with
           | |- context [fleb ?a ?b] => cmp_case (fleb a b)
           end;
      cbn; (split; [ lia | split; intros; first [ lia | lra ] ]).
  - intros O1 O2 L. rewrite O1, O2.
    change (PositionStatusOpen =? PositionStatusOpen)%string with true.
    cbn [negb]. cbv zeta. cbv beta iota.
    repeat match goal with
           | |- context [fleb ?a ?b] => cmp_case (fleb a b)
           end;
      cbn; first [ lia | exfalso; lra ].
Qed.

(** ** Trailing stop and price levels on a position *)

(** On an open long position with a trailing percentage, one call to
    [UpdateTrailingStop] arms a stop price that is at least the stop computed
    from the current price (it is that stop, or an older one that was
    higher); any later price at or below the computed stop then makes
    [ShouldTriggerTrailingStop] answer true.  This holds in any
    arithmetic. *)
Theorem trailing_stop_fires_after_drop
        (ar : Arith.t) (pct price : float64) (now : Time) (p : Position.t) :
  Position.Status p = PositionStatusOpen ->
  Position.Side p = PositionSideLong ->
  Position.TrailingStop p = Some pct ->
  let computed :=
    Arith.mul ar (Position.CurrentPrice p)
              (Arith.sub ar 1 (Arith.div ar pct 100)) in
  let armed := RoundedPosition.UpdateTrailingStop ar p in
  (exists stop, Position.TrailingStopPrice armed = Some stop /\
                computed <= stop /\
                (Position.TrailingStopPrice p = None -> stop = computed)) /\
  (price <= computed ->
   Position.ShouldTriggerTrailingStop
     (RoundedPosition.UpdateCurrentPrice ar price now armed) = true).
Proof.
  intros O L T. cbv zeta.
  assert (A : Position.Status (RoundedPosition.UpdateTrailingStop ar p)
              = PositionStatusOpen /\
              Position.Side (RoundedPosition.UpdateTrailingStop ar p)
              = PositionSideLong /\
              exists stop,
                Position.TrailingStopPrice
                  (RoundedPosition.UpdateTrailingStop ar p) = Some stop /\
                Arith.mul ar (Position.CurrentPrice p)
                          (Arith.sub ar 1 (Arith.div ar pct 100)) <= stop /\
                (Position.TrailingStopPrice p = None ->
                 stop = Arith.mul ar (Position.CurrentPrice p)
                          (Arith.sub ar 1 (Arith.div ar pct 100)))).
  { unfold RoundedPosition.UpdateTrailingStop. rewrite T, O, L.
    change (PositionStatusOpen =? PositionStatusOpen)%string with true.
    change (PositionSideLong =? PositionSideLong)%string with true.
    cbn [negb]. cbv beta iota zeta.
    destruct (Position.TrailingStopPrice p) as [old | ] eqn:E.
    - match goal with
      | |- context [fgtb ?a ?b] => cmp_case (fgtb a b)
      end; record_simpl; rewrite ?O, ?L, ?E;
        (split; [ reflexivity | split; [ reflexivity | ] ]);
        eexists; (split; [ reflexivity | split; [ lra | discriminate ] ]).
    - record_simpl. rewrite O, L.
      split; [ reflexivity | split; [ reflexivity | ] ].
      eexists. split; [ reflexivity | split; [ lra | reflexivity ] ]. }
  destruct A as (O' & L' & stop & S & C & F).
  split.
  - exists stop. repeat split; assumption.
  - intros D.
    destruct (UpdateCurrentPrice_fields ar price now
                (RoundedPosition.UpdateTrailingStop ar p))
      as (CP & St & Si & _ & _ & _ & TSP & _).
    unfold Position.ShouldTriggerTrailingStop.
    rewrite TSP, S, St, O', Si, L', CP.
    change (PositionStatusOpen =? PositionStatusOpen)%string with true.
    change (PositionSideLong =? PositionSideLong)%string with true.
    cbn [negb]. apply fleb_true. lra.
Qed.

(** With a stop loss strictly on the losing side of the take profit (below
    it for a long position, above it for a short one), no price makes both
    fire: after any price update at most one of [ShouldTriggerStopLoss] and
    [ShouldTriggerTakeProfit] answers true. *)
Theorem stop_loss_and_take_profit_exclusive
        (ar : Arith.t) (stop target price : float64) (now : Time)
        (p : Position.t) :
  Position.StopLoss p = Some stop ->
  Position.TakeProfit p = Some target ->
  (Position.Side p = PositionSideLong -> stop < target) ->
  (Position.Side p = PositionSideShort -> target < stop) ->
  let q := RoundedPosition.UpdateCurrentPrice ar price now p in
  Position.ShouldTriggerStopLoss q && Position.ShouldTriggerTakeProfit q
  = false.
Proof.
  intros SL TP Long Short. cbv zeta.
  destruct (UpdateCurrentPrice_fields ar price now p)
    as (CP & St & Si & S & T & _).
  unfold Position.ShouldTriggerStopLoss, Position.ShouldTriggerTakeProfit.
  rewrite S, T, SL, TP, St, Si, CP.
  destruct (negb (Position.Status p =? PositionStatusOpen)%string);
    [ reflexivity | ].
  destruct (String.eqb_spec (Position.Side p) PositionSideLong) as [L | NL].
  - specialize (Long L).
    cmp_case (fleb price stop); [ | reflexivity ].
    cmp_case (fleb target price); [ exfalso; lra | reflexivity ].
  - destruct (String.eqb_spec (Position.Side p) PositionSideShort)
      as [Sh | NSh]; [ | reflexivity ].
    specialize (Short Sh).
    cmp_case (fleb stop price); [ | reflexivity ].
    cmp_case (fleb price target); [ exfalso; lra | reflexivity ].
Qed.

Lemma GetPositionHealthStatus_bands_witness :
  GetPositionHealthStatus
    (RoundedPosition.AddPartialExit binary64_arith (exit_of 4)
                                    position_10_at_100)
  = "closed"%string /\
  (health_rank
     (GetPositionHealthStatus
        (RoundedPosition.UpdateCurrentPrice binary64_arith 85%Q 1500%Z
                                            position_10_at_100))
   <= health_rank
        (GetPositionHealthStatus
           (RoundedPosition.UpdateCurrentPrice binary64_arith 130%Q 1500%Z
                                               position_10_at_100)))%nat.
Proof.
  split.
  - apply (proj1 (GetPositionHealthStatus_bands
                    binary64_arith (exit_of 4)
                    (RoundedPosition.AddPartialExit
                       binary64_arith (exit_of 4) position_10_at_100)
                    position_10_at_100 position_10_at_100)).
    discriminate.
  - apply (proj2 (proj2 (proj2 (GetPositionHealthStatus_bands
                    binary64_arith (exit_of 4) position_10_at_100
                    (RoundedPosition.UpdateCurrentPrice
                       binary64_arith 85 1500%Z position_10_at_100)
                    (RoundedPosition.UpdateCurrentPrice
                       binary64_arith 130 1500%Z position_10_at_100))))).
    + reflexivity.
    + reflexivity.
    + vm_compute. discriminate.
Defined.

Lemma trailing_stop_fires_after_drop_witness :
  Position.ShouldTriggerTrailingStop
    (RoundedPosition.UpdateCurrentPrice binary64_arith 85 1500%Z
       (RoundedPosition.UpdateTrailingStop binary64_arith
                                           position_10_at_100))
  = true.
Proof.
  apply (proj2 (trailing_stop_fires_after_drop
                  binary64_arith 10 85 1500%Z position_10_at_100
                  eq_refl eq_refl eq_refl)).
  vm_compute. discriminate.
Defined.

Lemma stop_loss_and_take_profit_exclusive_witness :
  Position.ShouldTriggerStopLoss
    (RoundedPosition.UpdateCurrentPrice binary64_arith 85 1500%Z
                                        position_with_target)
  && Position.ShouldTriggerTakeProfit
       (RoundedPosition.UpdateCurrentPrice binary64_arith 85 1500%Z
                                           position_with_target)
  = false.
Proof.
  apply (stop_loss_and_take_profit_exclusive
           binary64_arith 90 120 85 1500%Z position_with_target
           eq_refl eq_refl).
  - intros _. reflexivity.
  - intros S. discriminate S.
Defined.
